(** * mirrorfs: a mirroring FUSE filesystem with event hooks

    A shallow embedding of the Go package [mirrorfs] (directory nodes, file
    nodes, the hook registry) and the properties of its specification.

    The node operations talk to the operating system and to the hook
    registry.  They are embedded as trees of calls ([prog]): every call to
    the [os], [ioutil] and [logrus] packages and every [Handle] of the hook
    registry is a node of the tree, with the Go code after the call as the
    continuation.  A [handler] gives the calls a meaning; the theorems about
    the order and the arguments of the calls hold for every handler, and a
    small model of a POSIX file tree ([OS]) is the handler used where a
    property depends on what the operating system does. *)

From Stdlib Require Import ZArith List Ascii String Lia.
From Stdlib.Strings Require Import Byte.
From stdpp Require Import base option list strings gmap fin_maps.

Local Open Scope Z_scope.
Local Open Scope string_scope.

(** ** Go values shared by all files *)

(** A Go [error]; [nil] is [None] of [option error].  [syscall.Errno] values,
    the [*os.PathError] the [os] package wraps them in, and [errors.New]. *)
Inductive error : Type :=
| Errno (n : Z)
| PathError (op path : string) (errno : Z)
| ErrorString (s : string).

Module syscall.
Definition ENOENT : error := Errno 2.
Definition EEXIST : error := Errno 17.
Definition ENOTDIR : error := Errno 20.
Definition EISDIR : error := Errno 21.
Definition EBADF : error := Errno 9.
Definition EINVAL : error := Errno 22.
Definition ENOTEMPTY : error := Errno 39.
Definition EACCES : error := Errno 13.

(** [syscall.Stat_t], of which the code reads [Ino] only. *)
Record Stat_t : Type := { Ino : Z }.
End syscall.

Global Instance error_eq_dec : EqDecision error.
Proof. solve_decision. Defined.

(** [os.FileMode] is a [uint32]; [ModeDir] is its top bit. *)
Definition FileMode : Type := Z.

Module os.
Definition ModeDir : FileMode := Z.shiftl 1 31.
Definition O_RDONLY : Z := 0.
Definition O_WRONLY : Z := 1.
Definition O_RDWR : Z := 2.
Definition O_CREATE : Z := 64.
Definition O_EXCL : Z := 128.
Definition O_TRUNC : Z := 512.
Definition O_APPEND : Z := 1024.

(** [os.FileInfo], as the code uses it: [Name()], [Size()], [Mode()],
    [IsDir()] and [Sys()].  [Sys()] is an [interface{}]; the code asserts
    it to [*syscall.Stat_t], which can fail: [None]. *)
Record FileInfo : Type := {
  Name : string;
  Size : Z;
  Mode : FileMode;
  Sys : option syscall.Stat_t
}.

(** [FileMode.IsDir]: [m&ModeDir != 0]. *)
Definition IsDir (fi : FileInfo) : bool := Z.testbit (Mode fi) 31.

(** An open [*os.File]: the descriptor number. *)
Definition File : Type := nat.
End os.

(** ** path/filepath *)

Module filepath.
(** The elements of a path between its separators. *)
Fixpoint split (s acc : string) : list string :=
  match s with
  | EmptyString => [acc]
  | String c s' =>
      if Ascii.eqb c "/"%char then acc :: split s' EmptyString
      else split s' (acc ++ String c EmptyString)
  end.

Definition rooted (s : string) : bool :=
  match s with
  | String c _ => Ascii.eqb c "/"%char
  | EmptyString => false
  end.

(** One element of [Clean]: empty elements and [.] are dropped, [..]
    removes the element before it, stays at the root of a rooted path,
    and is kept at the start of a relative one. *)
Definition clean_step (root : bool) (stack : list string) (c : string)
  : list string :=
  if String.eqb c "" || String.eqb c "." then stack
  else if String.eqb c ".." then
    match stack with
    | top :: rest => if String.eqb top ".." then c :: stack else rest
    | [] => if root then [] else [c]
    end
  else c :: stack.

Fixpoint unsplit (l : list string) : string :=
  match l with
  | [] => ""
  | [c] => c
  | c :: l' => c ++ "/" ++ unsplit l'
  end.

(** [filepath.Clean]. *)
Definition Clean (path : string) : string :=
  let root := rooted path in
  let stack := fold_left (clean_step root) (split path "") [] in
  let out := (if root then "/" else "") ++ unsplit (rev stack) in
  if String.eqb out "" then "." else out.

(** [filepath.Join] of two elements: empty elements are ignored, the
    result is cleaned, and it is empty when both elements are. *)
Definition Join (a b : string) : string :=
  if String.eqb a "" then
    if String.eqb b "" then "" else Clean b
  else Clean (a ++ "/" ++ b).

(** [filepath.Dir] and [filepath.Base] of a clean path. *)
Definition Dir (path : string) : string :=
  let root := rooted path in
  let out := (if root then "/" else "")
               ++ unsplit (removelast (filter (fun c => negb (String.eqb c "")) (split path ""))) in
  if String.eqb out "" then "." else out.

Definition Base (path : string) : string :=
  default (if rooted path then "/" else ".")
          (last (filter (fun c => negb (String.eqb c "")) (split path ""))).
End filepath.


(** ** bazil.org/fuse: the request, response and attribute structures *)

Module fuse.
(** [fuse.Attr], with the fields of the library's structure.  Times and
    durations are numbers here; the code never reads or writes them. *)
Record Attr : Type := {
  Valid : Z;
  Inode : Z;
  Size : Z;
  Blocks : Z;
  Atime : Z;
  Mtime : Z;
  Ctime : Z;
  Crtime : Z;
  Mode : FileMode;
  Nlink : Z;
  Uid : Z;
  Gid : Z;
  Rdev : Z;
  Flags : Z;
  BlockSize : Z
}.

(** [a.Inode = v], [a.Size = v] and [a.Mode = v] on the structure behind
    the pointer [a]. *)
Definition set_Inode (v : Z) (a : Attr) : Attr :=
  {| Valid := Valid a; Inode := v; Size := Size a; Blocks := Blocks a;
     Atime := Atime a; Mtime := Mtime a; Ctime := Ctime a; Crtime := Crtime a;
     Mode := Mode a; Nlink := Nlink a; Uid := Uid a; Gid := Gid a;
     Rdev := Rdev a; Flags := Flags a; BlockSize := BlockSize a |}.
Definition set_Size (v : Z) (a : Attr) : Attr :=
  {| Valid := Valid a; Inode := Inode a; Size := v; Blocks := Blocks a;
     Atime := Atime a; Mtime := Mtime a; Ctime := Ctime a; Crtime := Crtime a;
     Mode := Mode a; Nlink := Nlink a; Uid := Uid a; Gid := Gid a;
     Rdev := Rdev a; Flags := Flags a; BlockSize := BlockSize a |}.
Definition set_Mode (v : FileMode) (a : Attr) : Attr :=
  {| Valid := Valid a; Inode := Inode a; Size := Size a; Blocks := Blocks a;
     Atime := Atime a; Mtime := Mtime a; Ctime := Ctime a; Crtime := Crtime a;
     Mode := v; Nlink := Nlink a; Uid := Uid a; Gid := Gid a;
     Rdev := Rdev a; Flags := Flags a; BlockSize := BlockSize a |}.

(** [fuse.DirentType]; its zero value is [DT_Unknown]. *)
Inductive DirentType : Type :=
| DT_Unknown | DT_Socket | DT_Link | DT_File | DT_Block | DT_Dir | DT_Char | DT_FIFO.

(** [fuse.Dirent], a structure (a value, not a pointer). *)
Record Dirent : Type := {
  Dirent_Inode : Z;
  Dirent_Type : DirentType;
  Dirent_Name : string
}.

(** The zero [Dirent], the element of [make([]fuse.Dirent, n)]. *)
Definition Dirent_zero : Dirent :=
  {| Dirent_Inode := 0; Dirent_Type := DT_Unknown; Dirent_Name := "" |}.

Record LookupRequest : Type := { LookupRequest_Name : string }.
Record LookupResponse : Type := { LookupResponse_Attr : Attr }.
Record CreateRequest : Type := {
  CreateRequest_Name : string;
  CreateRequest_Flags : Z;
  CreateRequest_Mode : FileMode
}.
Record CreateResponse : Type := { CreateResponse_Attr : Attr }.
Record RemoveRequest : Type := {
  RemoveRequest_Name : string;
  RemoveRequest_Dir : bool
}.
Record MkdirRequest : Type := {
  MkdirRequest_Name : string;
  MkdirRequest_Mode : FileMode
}.
Record RenameRequest : Type := {
  RenameRequest_OldName : string;
  RenameRequest_NewName : string
}.
Record SetattrRequest : Type := {
  SetattrRequest_Valid : Z;
  SetattrRequest_Size : Z;
  SetattrRequest_Mode : FileMode;
  SetattrRequest_Uid : Z;
  SetattrRequest_Gid : Z
}.
Record SetattrResponse : Type := { SetattrResponse_Attr : Attr }.
Record WriteRequest : Type := {
  WriteRequest_Offset : Z;
  WriteRequest_Data : list byte;
  WriteRequest_Flags : Z
}.
Record WriteResponse : Type := { WriteResponse_Size : Z }.
End fuse.

(** ** The nodes and the hook registry (fs.go, dir.go, file.go) *)

(** [type HookFN func(data interface{})]: a callback is known by its
    identity; what it does is up to its author. *)
Definition HookFN : Type := nat.

(** [type HookHandler map[string][]HookFN]. *)
Definition HookHandler : Type := gmap string (list HookFN).

(** [type dir struct { HookHandler; path string }]. *)
Record dir : Type := { dir_HookHandler : HookHandler; dir_path : string }.

(** [type file struct { HookHandler; path string }]. *)
Record file : Type := { file_HookHandler : HookHandler; file_path : string }.

(** The [fs.Node] values this package makes: a [*dir] or a [*file]; any
    other implementation of the interface is [NodeOther]. *)
Inductive Node : Type :=
| NodeDir (d : dir)
| NodeFile (f : file)
| NodeOther.

(** [context.Context], opaque to the package. *)
Definition Context : Type := nat.

(** The [interface{}] values the package puts into event payloads and log
    lines.  A pointer is recorded with the structure it points to at that
    moment; a [nil] error and an untyped [nil] are both [VNil]. *)
Inductive value : Type :=
| VNil
| VNode (n : Node)
| VContext (ctx : Context)
| VAttr (a : fuse.Attr)
| VError (e : error)
| VString (s : string)
| VEntries (l : list os.FileInfo)
| VDirents (l : list fuse.Dirent)
| VBytes (b : list byte)
| VLookupRequest (r : fuse.LookupRequest)
| VLookupResponse (r : fuse.LookupResponse)
| VCreateRequest (r : fuse.CreateRequest)
| VCreateResponse (r : fuse.CreateResponse)
| VRemoveRequest (r : fuse.RemoveRequest)
| VMkdirRequest (r : fuse.MkdirRequest)
| VRenameRequest (r : fuse.RenameRequest)
| VSetattrRequest (r : fuse.SetattrRequest)
| VSetattrResponse (r : fuse.SetattrResponse)
| VWriteRequest (r : fuse.WriteRequest)
| VWriteResponse (r : fuse.WriteResponse).

Definition VErr (e : option error) : value :=
  match e with
  | Some e => VError e
  | None => VNil
  end.

(** [map[string]interface{}{...}], in the order of the literal. *)
Definition payload : Type := list (string * value).

(** ** Calls out of the package, and programs over them *)

(** The calls a node operation makes, each with the type of what comes
    back.  [Debug] is a line of the [logrus] entry that [loggerWith] makes
    for a receiver and a function; [Handle] is [HookHandler.Handle], whose
    goroutines are modelled in [Hooks] below.  A callback is handed
    pointers (to the node, to the attribute structure, to the response);
    callbacks are taken as the observers the specification says they are:
    nothing comes back from [Handle], and nothing is written through these
    pointers. *)
Inductive call : Type -> Type :=
| Debug (receiver func msg : string) (data : list value) : call unit
| Handle (hh : HookHandler) (event : string) (data : payload) : call unit
| os_Stat (name : string) : call (os.FileInfo + error)
| ioutil_ReadDir (dirname : string) : call (list os.FileInfo + error)
| ioutil_ReadFile (filename : string) : call (list byte * option error)
| os_OpenFile (name : string) (flag : Z) (perm : FileMode) : call (os.File + error)
| File_WriteAt (f : os.File) (b : list byte) (off : Z) : call (Z * option error)
| File_Close (f : os.File) : call (option error)
| os_Remove (name : string) : call (option error)
| os_Mkdir (name : string) (perm : FileMode) : call (option error)
| os_Rename (oldpath newpath : string) : call (option error).

(** A Go function body: it returns, or makes a call and goes on with what
    came back. *)
Inductive prog (A : Type) : Type :=
| Ret (a : A)
| Call {X : Type} (c : call X) (k : X -> prog A).

Arguments Ret {A} a.
Arguments Call {A X} c k.

Fixpoint bind {A B : Type} (m : prog A) (f : A -> prog B) : prog B :=
  match m with
  | Ret a => f a
  | Call c k => Call c (fun x => bind (k x) f)
  end.

Definition perform {X : Type} (c : call X) : prog X := Call c Ret.

Global Instance prog_ret : MRet prog := @Ret.
Global Instance prog_bind : MBind prog := fun A B f m => bind m f.

(** A call together with what came back: one step of an execution. *)
Inductive event : Type :=
| EvDebug (receiver func msg : string) (data : list value)
| EvHandle (hh : HookHandler) (ev : string) (data : payload)
| EvStat (name : string) (r : os.FileInfo + error)
| EvReadDir (dirname : string) (r : list os.FileInfo + error)
| EvReadFile (filename : string) (r : list byte * option error)
| EvOpenFile (name : string) (flag : Z) (perm : FileMode) (r : os.File + error)
| EvWriteAt (f : os.File) (b : list byte) (off : Z) (r : Z * option error)
| EvClose (f : os.File) (r : option error)
| EvRemove (name : string) (r : option error)
| EvMkdir (name : string) (perm : FileMode) (r : option error)
| EvRename (oldpath newpath : string) (r : option error).

Definition event_of {X : Type} (c : call X) : X -> event :=
  match c in call X return X -> event with
  | Debug r f m d => fun _ => EvDebug r f m d
  | Handle hh e d => fun _ => EvHandle hh e d
  | os_Stat n => EvStat n
  | ioutil_ReadDir n => EvReadDir n
  | ioutil_ReadFile n => EvReadFile n
  | os_OpenFile n fl p => EvOpenFile n fl p
  | File_WriteAt f b off => EvWriteAt f b off
  | File_Close f => EvClose f
  | os_Remove n => EvRemove n
  | os_Mkdir n p => EvMkdir n p
  | os_Rename o n => EvRename o n
  end.

(** What the world outside the package answers to each call, as a function
    of its state [S]. *)
Definition handler (S : Type) : Type := forall X : Type, call X -> S -> X * S.

(** Running a body against a handler: the events in order, the returned
    value and the final state of the world. *)
Fixpoint run {S A : Type} (h : handler S) (m : prog A) (s : S)
  : list event * A * S :=
  match m with
  | Ret a => ([], a, s)
  | Call c k =>
      let '(x, s1) := h _ c s in
      let '(tr, a, s2) := run h (k x) s1 in
      (event_of c x :: tr, a, s2)
  end.

(** The events of an execution that reach the filesystem. *)
Definition is_fs_call (e : event) : bool :=
  match e with
  | EvDebug _ _ _ _ | EvHandle _ _ _ => false
  | _ => true
  end.

Definition fs_calls (tr : list event) : list event := filter is_fs_call tr.

(** The hook dispatches of an execution: event name and payload. *)
Definition dispatches (tr : list event) : list (string * payload) :=
  omap (fun e => match e with EvHandle _ ev d => Some (ev, d) | _ => None end) tr.

(** [directoryFactory.NewDirectory] and [fileFactory.NewFile], reached
    through [HookHandler.DirectoryFactory] and [HookHandler.FileFactory]:
    a fresh node on the path, sharing the registry. *)
Definition NewDirectory (hh : HookHandler) (path : string) : dir :=
  {| dir_HookHandler := hh; dir_path := path |}.

Definition NewFile (hh : HookHandler) (path : string) : file :=
  {| file_HookHandler := hh; file_path := path |}.

(** Go's [int] and [uint64] on the 64-bit platforms the package runs on. *)
Definition wrap_int (z : Z) : Z := (z + 2 ^ 63) mod 2 ^ 64 - 2 ^ 63.
Definition wrap_uint64 (z : Z) : Z := z mod 2 ^ 64.

(** *** file.go *)

Module File.
Definition lgrEnd (func : string) (data : list value) : prog unit :=
  perform (Debug "file" func "end" data).

(** [func (f *file) Attr(ctx, a *fuse.Attr) error]: the structure behind
    [a] as the call leaves it, and the error. *)
Definition Attr (f : file) (ctx : Context) (a : fuse.Attr)
  : prog (fuse.Attr * option error) :=
  perform (Debug "file" "Attr" "start" [VNode (NodeFile f); VContext ctx; VAttr a]);;
  perform (Handle (file_HookHandler f) "Attr:start"
             [("file", VNode (NodeFile f)); ("context", VContext ctx); ("attr", VAttr a)]);;
  r ← perform (os_Stat (file_path f));
  match r with
  | inr err =>
      perform (Handle (file_HookHandler f) "Attr:end"
                 [("file", VNode (NodeFile f)); ("error", VError err)]);;
      lgrEnd "Attr" [VNode (NodeFile f); VError err];;
      mret (a, Some syscall.ENOENT)
  | inl fileInfo =>
      let a := fuse.set_Size (wrap_uint64 (os.Size fileInfo)) a in
      match os.Sys fileInfo with
      | None =>
          lgrEnd "Attr" [VNode (NodeFile f); VString "fileInfo sys not of type *syscall.Stat_t"];;
          mret (a, Some syscall.ENOENT)
      | Some stat =>
          let a := fuse.set_Inode (syscall.Ino stat) a in
          let a := fuse.set_Mode (os.Mode fileInfo) a in
          perform (Handle (file_HookHandler f) "Attr:end"
                     [("file", VNode (NodeFile f)); ("error", VNil)]);;
          lgrEnd "Attr" [VNode (NodeFile f); VNil];;
          mret (a, None)
      end
  end.

(** [func (f *file) ReadAll(ctx) ([]byte, error)]. *)
Definition ReadAll (f : file) (ctx : Context) : prog (list byte * option error) :=
  perform (Debug "file" "ReadAll" "start" [VNode (NodeFile f); VContext ctx]);;
  perform (Handle (file_HookHandler f) "ReadAll:start"
             [("file", VNode (NodeFile f)); ("context", VContext ctx)]);;
  '(data, err) ← perform (ioutil_ReadFile (file_path f));
  perform (Handle (file_HookHandler f) "ReadAll:end"
             [("file", VNode (NodeFile f)); ("content", VBytes data); ("error", VErr err)]);;
  lgrEnd "ReadAll" [VNode (NodeFile f); VBytes data; VErr err];;
  mret (data, err).

(** [func (f *file) Write(ctx, req, resp *fuse.WriteResponse) error]: the
    structure behind [resp] as the call leaves it, and the error. *)
Definition Write (f : file) (ctx : Context) (req : fuse.WriteRequest)
           (resp : fuse.WriteResponse) : prog (fuse.WriteResponse * option error) :=
  perform (Debug "file" "Write" "start" [VNode (NodeFile f); VContext ctx]);;
  perform (Handle (file_HookHandler f) "Write:start"
             [("file", VNode (NodeFile f)); ("context", VContext ctx);
              ("request", VWriteRequest req); ("response", VWriteResponse resp)]);;
  r ← perform (os_Stat (file_path f));
  match r with
  | inr err =>
      lgrEnd "Write" [VNode (NodeFile f); VError err];;
      mret (resp, Some err)
  | inl fInfo =>
      r ← perform (os_OpenFile (file_path f)
                     (Z.lor (fuse.WriteRequest_Flags req) os.O_WRONLY) (os.Mode fInfo));
      match r with
      | inr err =>
          lgrEnd "Write" [VNode (NodeFile f); VError err];;
          mret (resp, Some err)
      | inl file =>
          '(bytesWritten, err) ← perform (File_WriteAt file (fuse.WriteRequest_Data req)
                                            (fuse.WriteRequest_Offset req));
          match err with
          | Some e =>
              lgrEnd "Write" [VNode (NodeFile f); VError e];;
              mret (resp, Some e)
          | None =>
              cerr ← perform (File_Close file);
              match cerr with
              | Some e =>
                  lgrEnd "Write" [VNode (NodeFile f); VError e];;
                  mret (resp, Some e)
              | None =>
                  let resp := {| fuse.WriteResponse_Size :=
                                   wrap_int (wrap_int (fuse.WriteRequest_Offset req) + bytesWritten) |} in
                  perform (Handle (file_HookHandler f) "Write:end"
                             [("file", VNode (NodeFile f)); ("error", VErr err)]);;
                  lgrEnd "Write" [VNode (NodeFile f); VNil];;
                  mret (resp, None)
              end
          end
      end
  end.
End File.

(** *** dir.go *)

Module Dir.
Definition lgrEnd (func : string) (data : list value) : prog unit :=
  perform (Debug "dir" func "end" data).

(** [func (d *dir) Attr(ctx, a *fuse.Attr) error]. *)
Definition Attr (d : dir) (ctx : Context) (a : fuse.Attr)
  : prog (fuse.Attr * option error) :=
  perform (Debug "dir" "Attr" "start" [VNode (NodeDir d); VContext ctx; VAttr a]);;
  perform (Handle (dir_HookHandler d) "attr:start"
             [("directory", VNode (NodeDir d)); ("context", VContext ctx); ("attr", VAttr a)]);;
  r ← perform (os_Stat (dir_path d));
  match r with
  | inr err =>
      lgrEnd "Attr" [VNode (NodeDir d); VError err];;
      mret (a, Some syscall.ENOENT)
  | inl fileInfo =>
      match os.Sys fileInfo with
      | None =>
          lgrEnd "Attr" [VNode (NodeDir d); VString "fileInfo sys not of type *syscall.Stat_t"];;
          mret (a, Some syscall.ENOENT)
      | Some stat =>
          let a := fuse.set_Inode (syscall.Ino stat) a in
          let a := fuse.set_Mode (os.Mode fileInfo) a in
          perform (Handle (dir_HookHandler d) "attr:end"
                     [("directory", VNode (NodeDir d)); ("context", VContext ctx); ("attr", VAttr a)]);;
          lgrEnd "Attr" [VNode (NodeDir d); VContext ctx; VAttr a];;
          mret (a, None)
      end
  end.

(** [node.Attr(ctx, a)] on an [fs.Node] made by [Lookup]: the method of
    the node's dynamic type. *)
Definition Node_Attr (node : Node) (ctx : Context) (a : fuse.Attr)
  : prog (fuse.Attr * option error) :=
  match node with
  | NodeDir d => Attr d ctx a
  | NodeFile f => File.Attr f ctx a
  | NodeOther => mret (a, None)
  end.

(** [func (d *dir) Lookup(ctx, req, resp) (fs.Node, error)]; [resp] is
    returned as the call leaves it. *)
Definition Lookup (d : dir) (ctx : Context) (req : fuse.LookupRequest)
           (resp : fuse.LookupResponse)
  : prog (fuse.LookupResponse * option Node * option error) :=
  perform (Debug "dir" "Lookup" "start"
             [VNode (NodeDir d); VContext ctx; VLookupRequest req; VLookupResponse resp]);;
  perform (Handle (dir_HookHandler d) "Lookup:start"
             [("directory", VNode (NodeDir d)); ("context", VContext ctx);
              ("req", VLookupRequest req); ("resp", VLookupResponse resp)]);;
  let fullPath := filepath.Join (dir_path d) (fuse.LookupRequest_Name req) in
  r ← perform (os_Stat fullPath);
  match r with
  | inr err =>
      lgrEnd "Lookup" [VNode (NodeDir d); VNil; VError err];;
      mret (resp, None, Some syscall.ENOENT)
  | inl fileInfo =>
      let node :=
        if os.IsDir fileInfo
        then NodeDir (NewDirectory (dir_HookHandler d) fullPath)
        else NodeFile (NewFile (dir_HookHandler d) fullPath) in
      '(a, err) ← Node_Attr node ctx (fuse.LookupResponse_Attr resp);
      let resp := {| fuse.LookupResponse_Attr := a |} in
      match err with
      | Some err =>
          lgrEnd "Lookup" [VNode (NodeDir d); VNil; VError err];;
          mret (resp, None, Some err)
      | None =>
          lgrEnd "Lookup" [VNode (NodeDir d); VNode node; VNil];;
          perform (Handle (dir_HookHandler d) "Lookup:end"
                     [("directory", VNode (NodeDir d)); ("node", VNode node); ("error", VNil)]);;
          mret (resp, Some node, None)
      end
  end.

Definition set_Dirent_Inode (v : Z) (e : fuse.Dirent) : fuse.Dirent :=
  {| fuse.Dirent_Inode := v; fuse.Dirent_Type := fuse.Dirent_Type e;
     fuse.Dirent_Name := fuse.Dirent_Name e |}.
Definition set_Dirent_Type (v : fuse.DirentType) (e : fuse.Dirent) : fuse.Dirent :=
  {| fuse.Dirent_Inode := fuse.Dirent_Inode e; fuse.Dirent_Type := v;
     fuse.Dirent_Name := fuse.Dirent_Name e |}.

(** The [for i, entry := range entries] loop of [ReadDirAll], from
    index [i] on.  [newEntry] is a local structure: [toReturn[i] = newEntry]
    stores a copy of it, and the assignments to [newEntry.Inode] and
    [newEntry.Type] that follow change the local only.  [None] is the
    [return nil, syscall.ENOENT] from inside the loop. *)
Fixpoint ReadDirAll_loop (i : nat) (entries : list os.FileInfo)
         (toReturn : list fuse.Dirent) : option (list fuse.Dirent) :=
  match entries with
  | [] => Some toReturn
  | entry :: rest =>
      let newEntry := {| fuse.Dirent_Inode := 0; fuse.Dirent_Type := fuse.DT_Unknown;
                         fuse.Dirent_Name := os.Name entry |} in
      let toReturn := <[i := newEntry]> toReturn in
      match os.Sys entry with
      | Some stat =>
          let newEntry := set_Dirent_Inode (syscall.Ino stat) newEntry in
          let newEntry :=
            if os.IsDir entry
            then set_Dirent_Type fuse.DT_Dir newEntry
            else set_Dirent_Type fuse.DT_File newEntry in
          ReadDirAll_loop (S i) rest toReturn
      | None => None
      end
  end.

(** [func (d *dir) ReadDirAll(ctx) ([]fuse.Dirent, error)]. *)
Definition ReadDirAll (d : dir) (ctx : Context)
  : prog (list fuse.Dirent * option error) :=
  perform (Debug "dir" "ReadDirAll" "start" [VNode (NodeDir d); VContext ctx]);;
  perform (Handle (dir_HookHandler d) "ReadDirAll:start"
             [("directory", VNode (NodeDir d)); ("context", VContext ctx)]);;
  r ← perform (ioutil_ReadDir (dir_path d));
  match r with
  | inr err =>
      perform (Handle (dir_HookHandler d) "ReadDirAll:end"
                 [("directory", VNode (NodeDir d)); ("entries", VEntries []); ("error", VError err)]);;
      lgrEnd "ReadDirAll" [VNode (NodeDir d); VNil; VError err];;
      mret ([], Some err)
  | inl entries =>
      let toReturn := replicate (length entries) fuse.Dirent_zero in
      match ReadDirAll_loop 0 entries toReturn with
      | None =>
          lgrEnd "ReadDirAll" [VNode (NodeDir d); VString "directory entry not of type *syscall.Stat_t"];;
          mret ([], Some syscall.ENOENT)
      | Some toReturn =>
          perform (Handle (dir_HookHandler d) "ReadDirAll:end"
                     [("directory", VNode (NodeDir d)); ("entries", VEntries entries); ("error", VNil)]);;
          lgrEnd "ReadDirAll" [VNode (NodeDir d); VDirents toReturn; VNil];;
          mret (toReturn, None)
      end
  end.

(** [func (d *dir) Setattr(ctx, req, resp) error]; [resp] is returned as
    the call leaves it. *)
Definition Setattr (d : dir) (ctx : Context) (req : fuse.SetattrRequest)
           (resp : fuse.SetattrResponse) : prog (fuse.SetattrResponse * option error) :=
  perform (Debug "dir" "Setattr" "start"
             [VNode (NodeDir d); VContext ctx; VSetattrRequest req; VSetattrResponse resp]);;
  perform (Handle (dir_HookHandler d) "Setattr:start"
             [("directory", VNode (NodeDir d)); ("context", VContext ctx);
              ("request", VSetattrRequest req); ("response", VSetattrResponse resp)]);;
  perform (Handle (dir_HookHandler d) "Setattr:end"
             [("directory", VNode (NodeDir d)); ("context", VContext ctx);
              ("request", VSetattrRequest req); ("response", VSetattrResponse resp)]);;
  lgrEnd "Setattr" [VNode (NodeDir d); VNil];;
  mret (resp, None).

(** The body [Create] has in both copies of the file, on the path it
    opens: [req.Name] in src/mirrorfs/dir.go, the joined path in the
    other copy. *)
Definition Create_at (path : string) (d : dir) (ctx : Context)
           (req : fuse.CreateRequest) (resp : fuse.CreateResponse)
  : prog (option Node * option Node * option error) :=
  perform (Debug "dir" "Create" "start" [VNode (NodeDir d); VContext ctx]);;
  perform (Handle (dir_HookHandler d) "Create:start"
             [("directory", VNode (NodeDir d)); ("context", VContext ctx);
              ("request", VCreateRequest req); ("response", VCreateResponse resp)]);;
  r ← perform (os_OpenFile path (fuse.CreateRequest_Flags req) (fuse.CreateRequest_Mode req));
  match r with
  | inr err =>
      lgrEnd "Create" [VNode (NodeDir d); VNil; VNil; VError err];;
      mret (None, None, Some err)
  | inl f =>
      cerr ← perform (File_Close f);
      match cerr with
      | Some err =>
          lgrEnd "Create" [VNode (NodeDir d); VNil; VNil; VError err];;
          mret (None, None, Some err)
      | None =>
          perform (Handle (dir_HookHandler d) "Create:end"
                     [("directory", VNode (NodeDir d)); ("node", VNil);
                      ("handle", VNil); ("error", VNil)]);;
          let file := NewFile (dir_HookHandler d) path in
          lgrEnd "Create" [VNode (NodeDir d); VNode (NodeFile file); VNode (NodeFile file); VNil];;
          mret (Some (NodeFile file), Some (NodeFile file), None)
      end
  end.

(** [func (d *dir) Create(ctx, req, resp) (fs.Node, fs.Handle, error)] of
    src/mirrorfs/dir.go: [os.OpenFile(req.Name, ...)] and
    [NewFile(req.Name)]. *)
Definition Create (d : dir) (ctx : Context) (req : fuse.CreateRequest)
           (resp : fuse.CreateResponse)
  : prog (option Node * option Node * option error) :=
  Create_at (fuse.CreateRequest_Name req) d ctx req resp.

(** [func (d *dir) Remove(ctx, req) error]. *)
Definition Remove (d : dir) (ctx : Context) (req : fuse.RemoveRequest)
  : prog (option error) :=
  perform (Debug "dir" "Remove" "start" [VNode (NodeDir d); VContext ctx; VRemoveRequest req]);;
  perform (Handle (dir_HookHandler d) "Remove:start"
             [("directory", VNode (NodeDir d)); ("context", VContext ctx);
              ("request", VRemoveRequest req)]);;
  err ← perform (os_Remove (fuse.RemoveRequest_Name req));
  perform (Handle (dir_HookHandler d) "Remove:end"
             [("directory", VNode (NodeDir d)); ("error", VErr err)]);;
  lgrEnd "Remove" [VNode (NodeDir d); VErr err];;
  mret err.

(** [func (d *dir) Mkdir(ctx, req) (fs.Node, error)]. *)
Definition Mkdir (d : dir) (ctx : Context) (req : fuse.MkdirRequest)
  : prog (option Node * option error) :=
  perform (Debug "dir" "Mkdir" "start" [VNode (NodeDir d); VContext ctx; VMkdirRequest req]);;
  perform (Handle (dir_HookHandler d) "Mkdir:start"
             [("directory", VNode (NodeDir d)); ("context", VContext ctx);
              ("request", VMkdirRequest req)]);;
  let fullPath := filepath.Join (dir_path d) (fuse.MkdirRequest_Name req) in
  merr ← perform (os_Mkdir fullPath (fuse.MkdirRequest_Mode req));
  match merr with
  | Some err =>
      perform (Handle (dir_HookHandler d) "Mkdir:end"
                 [("directory", VNode (NodeDir d)); ("node", VNil); ("error", VNil)]);;
      lgrEnd "Mkdir" [VNode (NodeDir d); VNil; VError err];;
      mret (None, Some err)
  | None =>
      let node := NodeDir (NewDirectory (dir_HookHandler d) fullPath) in
      perform (Handle (dir_HookHandler d) "Mkdir:end"
                 [("directory", VNode (NodeDir d)); ("node", VNode node); ("error", VNil)]);;
      lgrEnd "Mkdir" [VNode (NodeDir d); VNode node; VNil];;
      mret (Some node, None)
  end.
End Dir.

(** *** The second copy of dir.go (src/unnamed/part_001)

    It has the text of src/mirrorfs/dir.go for [Attr], [Lookup],
    [ReadDirAll], [Setattr], [Remove] and [Mkdir]; its [Create] joins the
    name with the directory's path, and it has [Rename]. *)

Module Dir2.
Definition Attr := Dir.Attr.
Definition Lookup := Dir.Lookup.
Definition ReadDirAll := Dir.ReadDirAll.
Definition Setattr := Dir.Setattr.
Definition Remove := Dir.Remove.
Definition Mkdir := Dir.Mkdir.

(** [Create]: [fullpath := filepath.Join(d.path, req.Name)], then
    [os.OpenFile(fullpath, ...)] and [NewFile(fullpath)]. *)
Definition Create (d : dir) (ctx : Context) (req : fuse.CreateRequest)
           (resp : fuse.CreateResponse)
  : prog (option Node * option Node * option error) :=
  let fullpath := filepath.Join (dir_path d) (fuse.CreateRequest_Name req) in
  Dir.Create_at fullpath d ctx req resp.

(** [func (d *dir) Rename(ctx, req, node fs.Node) error]. *)
Definition Rename (d : dir) (ctx : Context) (req : fuse.RenameRequest) (node : Node)
  : prog (option error) :=
  perform (Debug "dir" "Rename" "start" [VNode (NodeDir d); VContext ctx; VRenameRequest req]);;
  perform (Handle (dir_HookHandler d) "Rename:start"
             [("directory", VNode (NodeDir d)); ("context", VContext ctx);
              ("request", VRenameRequest req)]);;
  match node with
  | NodeDir newDir =>
      let oldPath := filepath.Join (dir_path d) (fuse.RenameRequest_OldName req) in
      let newPath := filepath.Join (dir_path newDir) (fuse.RenameRequest_NewName req) in
      rerr ← perform (os_Rename oldPath newPath);
      match rerr with
      | Some err =>
          perform (Handle (dir_HookHandler d) "Rename:end"
                     [("directory", VNode (NodeDir d)); ("error", VError err)]);;
          Dir.lgrEnd "Rename" [VNode (NodeDir d); VError err];;
          mret (Some err)
      | None =>
          perform (Handle (dir_HookHandler d) "Rename:end"
                     [("directory", VNode (NodeDir d)); ("error", VNil)]);;
          Dir.lgrEnd "Rename" [VNode (NodeDir d); VNil];;
          mret None
      end
  | _ =>
      let err := ErrorString "unexpected node type" in
      perform (Handle (dir_HookHandler d) "Rename:end"
                 [("directory", VNode (NodeDir d)); ("error", VError err)]);;
      Dir.lgrEnd "Rename" [VNode (NodeDir d); VError err];;
      mret (Some err)
  end.
End Dir2.

(** ** A model of the operating system

    The part of a POSIX file tree the package's calls can observe: a
    working directory, a tree of files and directories keyed by clean path,
    and the table of open files.  Every permission check passes (the
    process may do what it asks for); a call fails for the reasons below
    only.  An open file refers to its path: the package opens and closes
    within one operation. *)

Module OS.
Record inode : Type := { i_ino : Z; i_mode : FileMode; i_data : list byte }.
Record openfile : Type := { of_path : string; of_flag : Z }.

Record state : Type := {
  cwd : string;
  tree : gmap string inode;
  fds : gmap nat openfile;
  next_fd : nat;
  next_ino : Z
}.

Definition is_dir (i : inode) : bool := Z.testbit (i_mode i) 31.

Definition has_flag (flag bit : Z) : bool := negb (Z.eqb (Z.land flag bit) 0).

(** The path a name stands for: relative names start at the working
    directory; the empty name stands for nothing. *)
Definition resolve (st : state) (name : string) : option string :=
  if String.eqb name "" then None
  else if filepath.rooted name then Some (filepath.Clean name)
  else Some (filepath.Join (cwd st) name).

Definition with_tree (st : state) (t : gmap string inode) : state :=
  {| cwd := cwd st; tree := t; fds := fds st; next_fd := next_fd st; next_ino := next_ino st |}.

Definition info (path : string) (i : inode) : os.FileInfo :=
  {| os.Name := filepath.Base path;
     os.Size := Z.of_nat (length (i_data i));
     os.Mode := i_mode i;
     os.Sys := Some {| syscall.Ino := i_ino i |} |}.

Definition Stat (name : string) (st : state) : (os.FileInfo + error) * state :=
  match resolve st name with
  | None => (inr (PathError "stat" name 2), st)
  | Some path =>
      match tree st !! path with
      | Some i => (inl (info path i), st)
      | None => (inr (PathError "stat" name 2), st)
      end
  end.

(** The entries directly below a directory. *)
Definition children (st : state) (path : string) : list (string * inode) :=
  filter (fun qi => negb (String.eqb qi.1 path) && String.eqb (filepath.Dir qi.1) path)
         (map_to_list (tree st)).

Fixpoint insert_by_name (x : os.FileInfo) (l : list os.FileInfo) : list os.FileInfo :=
  match l with
  | [] => [x]
  | y :: l' => if String.leb (os.Name x) (os.Name y) then x :: l else y :: insert_by_name x l'
  end.

(** [ioutil.ReadDir] sorts the entries by name. *)
Definition sort_by_name (l : list os.FileInfo) : list os.FileInfo :=
  foldr insert_by_name [] l.

Definition ReadDir (name : string) (st : state) : (list os.FileInfo + error) * state :=
  match resolve st name with
  | None => (inr (PathError "open" name 2), st)
  | Some path =>
      match tree st !! path with
      | None => (inr (PathError "open" name 2), st)
      | Some i =>
          if is_dir i
          then (inl (sort_by_name (map (fun qi => info qi.1 qi.2) (children st path))), st)
          else (inr (PathError "readdirent" name 20), st)
      end
  end.

Definition ReadFile (name : string) (st : state) : (list byte * option error) * state :=
  match resolve st name with
  | None => (([], Some (PathError "open" name 2)), st)
  | Some path =>
      match tree st !! path with
      | None => (([], Some (PathError "open" name 2)), st)
      | Some i =>
          if is_dir i then (([], Some (PathError "read" name 21)), st)
          else ((i_data i, None), st)
      end
  end.

(** A new entry of the open-file table. *)
Definition open_fd (st : state) (t : gmap string inode) (path : string) (flag : Z)
  : (os.File + error) * state :=
  (inl (next_fd st),
   {| cwd := cwd st; tree := t;
      fds := <[next_fd st := {| of_path := path; of_flag := flag |}]> (fds st);
      next_fd := S (next_fd st); next_ino := next_ino st |}).

Definition parent_is_dir (st : state) (path : string) : option error :=
  match tree st !! filepath.Dir path with
  | None => Some (Errno 2)
  | Some p => if is_dir p then None else Some (Errno 20)
  end.

Definition errno_of (e : error) : Z :=
  match e with
  | Errno n => n
  | PathError _ _ n => n
  | ErrorString _ => 0
  end.

(** [os.OpenFile]: an existing file is opened as it is, and emptied only
    under [O_TRUNC]; a missing one is made under [O_CREATE], empty, with
    the permission bits of [perm]. *)
Definition OpenFile (name : string) (flag : Z) (perm : FileMode) (st : state)
  : (os.File + error) * state :=
  match resolve st name with
  | None => (inr (PathError "open" name 2), st)
  | Some path =>
      match tree st !! path with
      | Some i =>
          if is_dir i then
            if has_flag flag 3 || has_flag flag os.O_CREATE
            then (inr (PathError "open" name 21), st)
            else open_fd st (tree st) path flag
          else if has_flag flag os.O_CREATE && has_flag flag os.O_EXCL
          then (inr (PathError "open" name 17), st)
          else if has_flag flag os.O_TRUNC
          then open_fd st (<[path := {| i_ino := i_ino i; i_mode := i_mode i; i_data := [] |}]> (tree st))
                       path flag
          else open_fd st (tree st) path flag
      | None =>
          if has_flag flag os.O_CREATE then
            match parent_is_dir st path with
            | Some e => (inr (PathError "open" name (errno_of e)), st)
            | None =>
                let i := {| i_ino := next_ino st; i_mode := Z.land perm 511; i_data := [] |} in
                let '(r, st') := open_fd st (<[path := i]> (tree st)) path flag in
                (r, {| cwd := cwd st'; tree := tree st'; fds := fds st';
                       next_fd := next_fd st'; next_ino := next_ino st + 1 |})
            end
          else (inr (PathError "open" name 2), st)
      end
  end.

(** The bytes of a file after [b] is written at offset [off]: a gap
    between the old end and [off] reads as zero bytes. *)
Definition write_at (data : list byte) (off : nat) (b : list byte) : list byte :=
  match b with
  | [] => data
  | _ => take off (data ++ replicate (Nat.sub off (length data)) x00) ++ b ++ drop (Nat.add off (length b)) data
  end.

(** [WriteAt] of an [os.File]: refused on a negative offset, on a file opened
    with [O_APPEND], and on one not opened for writing. *)
Definition WriteAt (f : os.File) (b : list byte) (off : Z) (st : state)
  : (Z * option error) * state :=
  match fds st !! f with
  | None => ((0, Some (ErrorString "file already closed")), st)
  | Some o =>
      if Z.ltb off 0 then ((0, Some (PathError "writeat" (of_path o) 22)), st)
      else if has_flag (of_flag o) os.O_APPEND
      then ((0, Some (ErrorString "os: invalid use of WriteAt on file opened with O_APPEND")), st)
      else if negb (Z.eqb (Z.land (of_flag o) 3) 1 || Z.eqb (Z.land (of_flag o) 3) 2)
      then ((0, Some (PathError "write" (of_path o) 9)), st)
      else
        match tree st !! of_path o with
        | None => ((0, Some (PathError "write" (of_path o) 9)), st)
        | Some i =>
            ((Z.of_nat (length b), None),
             with_tree st (<[of_path o := {| i_ino := i_ino i; i_mode := i_mode i;
                                             i_data := write_at (i_data i) (Z.to_nat off) b |}]>
                             (tree st)))
        end
  end.

Definition Close (f : os.File) (st : state) : option error * state :=
  match fds st !! f with
  | None => (Some (ErrorString "file already closed"), st)
  | Some _ =>
      (None, {| cwd := cwd st; tree := tree st; fds := delete f (fds st);
                next_fd := next_fd st; next_ino := next_ino st |})
  end.

(** [os.Remove]: a file, or a directory with nothing below it. *)
Definition Remove (name : string) (st : state) : option error * state :=
  match resolve st name with
  | None => (Some (PathError "remove" name 2), st)
  | Some path =>
      match tree st !! path with
      | None => (Some (PathError "remove" name 2), st)
      | Some i =>
          if is_dir i && negb (bool_decide (children st path = []))
          then (Some (PathError "remove" name 39), st)
          else (None, with_tree st (delete path (tree st)))
      end
  end.

Definition Mkdir (name : string) (perm : FileMode) (st : state) : option error * state :=
  match resolve st name with
  | None => (Some (PathError "mkdir" name 2), st)
  | Some path =>
      match tree st !! path with
      | Some _ => (Some (PathError "mkdir" name 17), st)
      | None =>
          match parent_is_dir st path with
          | Some e => (Some (PathError "mkdir" name (errno_of e)), st)
          | None =>
              let i := {| i_ino := next_ino st; i_mode := Z.lor os.ModeDir (Z.land perm 511);
                          i_data := [] |} in
              (None, {| cwd := cwd st; tree := <[path := i]> (tree st); fds := fds st;
                        next_fd := next_fd st; next_ino := next_ino st + 1 |})
          end
      end
  end.

(** The key of an entry after [old] is renamed to [new]: the entry itself
    and everything below it move. *)
Definition moved (old new q : string) : string :=
  if String.eqb q old then new
  else if String.prefix (old ++ "/") q
  then new ++ String.substring (String.length old) (Nat.sub (String.length q) (String.length old)) q
  else q.

(** [os.Rename]: a file replaces a file, a directory replaces an empty
    directory. *)
Definition Rename (oldname newname : string) (st : state) : option error * state :=
  match resolve st oldname, resolve st newname with
  | Some old, Some new =>
      match tree st !! old with
      | None => (Some (PathError "rename" oldname 2), st)
      | Some i =>
          if String.prefix (old ++ "/") new then (Some (PathError "rename" oldname 22), st)
          else
            match parent_is_dir st new with
            | Some e => (Some (PathError "rename" oldname (errno_of e)), st)
            | None =>
                let clash :=
                  match tree st !! new with
                  | None => None
                  | Some j =>
                      if is_dir i && negb (is_dir j) then Some 20
                      else if negb (is_dir i) && is_dir j then Some 21
                      else if is_dir j && negb (bool_decide (children st new = [])) then Some 39
                      else None
                  end in
                match clash with
                | Some n => (Some (PathError "rename" oldname n), st)
                | None =>
                    (None, with_tree st
                             (list_to_map (map (fun qi => (moved old new qi.1, qi.2))
                                               (map_to_list (delete new (tree st))))))
                end
            end
      end
  | _, _ => (Some (PathError "rename" oldname 2), st)
  end.

(** The operating system as a handler.  Log lines and hook dispatches
    leave the file tree alone: hooks are observers. *)
Definition handle : handler state :=
  fun X c =>
    match c in call X return state -> X * state with
    | Debug _ _ _ _ => fun st => (tt, st)
    | Handle _ _ _ => fun st => (tt, st)
    | os_Stat n => Stat n
    | ioutil_ReadDir n => ReadDir n
    | ioutil_ReadFile n => ReadFile n
    | os_OpenFile n fl p => OpenFile n fl p
    | File_WriteAt f b off => WriteAt f b off
    | File_Close f => Close f
    | os_Remove n => Remove n
    | os_Mkdir n p => Mkdir n p
    | os_Rename o n => Rename o n
    end.

(** A file tree from a list of entries. *)
Definition mk (wd : string) (l : list (string * inode)) : state :=
  {| cwd := wd; tree := list_to_map l; fds := ∅; next_fd := 3; next_ino := 1000 |}.

Definition a_dir (ino : Z) : inode :=
  {| i_ino := ino; i_mode := Z.lor os.ModeDir 493; i_data := [] |}.
Definition a_file (ino : Z) (data : list byte) : inode :=
  {| i_ino := ino; i_mode := 420; i_data := data |}.
End OS.

(** ** The hook registry (fs.go, src/unnamed/part_000) *)

Module Hooks.
(** [func (hh HookHandler) Register(event, fn)]:
    [hh[event] = append(hh[event], fn)]. *)
Definition Register (hh : HookHandler) (event : string) (fn : HookFN) : HookHandler :=
  <[event := (hh !!! event ++ [fn])%list]> hh.

(** The test that makes [Handle] return before it launches anything:
    [(!exists || len(fns) == 0) && len(globalFns) == 0]. *)
Definition nothing_to_run (hh : HookHandler) (event : string) : bool :=
  let globalFns := hh !!! "*" in
  match hh !! event with
  | None => bool_decide (length globalFns = 0%nat)
  | Some fns => bool_decide (length fns = 0%nat) && bool_decide (length globalFns = 0%nat)
  end.

(** [fns = append(fns, globalFns...)]: the callbacks the loop ranges
    over. *)
Definition Handle_fns (hh : HookHandler) (event : string) : list HookFN :=
  (hh !!! event ++ hh !!! "*")%list.

(** *** The goroutines of [Handle]

    [Handle] launches one goroutine per element of [fns] and waits on a
    [sync.WaitGroup].  The goroutine's body, [fn(data); wg.Done()], is a
    closure over the loop variable [fn]: it reads the variable when it
    runs, not when it is launched.  Which variable that is depends on the
    language version the package is built with: one variable for the
    whole loop ([PerLoop], Go before 1.22, the language of a package
    importing [io/ioutil] and [golang.org/x/net/context]), or a fresh one
    per iteration ([PerIteration], Go 1.22 on with a module file that
    asks for it). *)
Inductive loopvar : Type := PerLoop | PerIteration.

(** The memory cell that holds [fn] in iteration [i]. *)
Definition cell_of (sem : loopvar) (i : nat) : nat :=
  match sem with
  | PerLoop => 0%nat
  | PerIteration => i
  end.

(** A goroutine: launched with its closure over a cell; inside the
    callback it read from the cell, with the steps that callback still
    takes (a sleeping callback takes many); back from the callback; gone
    after [wg.Done()]. *)
Inductive goroutine : Type :=
| Launched (cell : nat)
| Running (fn : HookFN) (left : nat)
| Back (fn : HookFN)
| Exited (fn : HookFN).

(** Where [Handle] itself is: before iteration [i] of the loop, blocked
    in [wg.Wait()], or returned. *)
Inductive pc : Type := Loop (i : nat) | Wait | Returned.

Record machine : Type := {
  main : pc;
  fns : list HookFN;
  cells : gmap nat HookFN;
  wg : nat;
  pool : list goroutine;
  calls : list HookFN;
  completed : list HookFN
}.

(** The state in which [Handle(event, data)] starts. *)
Definition Handle_start (hh : HookHandler) (event : string) : machine :=
  {| main := if nothing_to_run hh event then Returned else Loop 0;
     fns := Handle_fns hh event;
     cells := ∅; wg := 0; pool := []; calls := []; completed := [] |}.

(** The scheduler picks [Handle] itself or goroutine [j]. *)
Inductive choice : Type := Main | Go (j : nat).

(** One step of [Handle]: an iteration of the loop ([fn] is assigned,
    [wg.Add(1)], the goroutine is launched), the end of the loop, or the
    return from [wg.Wait()], possible only when the counter is zero. *)
Definition step_main (sem : loopvar) (m : machine) : option machine :=
  match main m with
  | Loop i =>
      match fns m !! i with
      | Some f =>
          Some {| main := Loop (S i); fns := fns m;
                  cells := <[cell_of sem i := f]> (cells m);
                  wg := S (wg m);
                  pool := (pool m ++ [Launched (cell_of sem i)])%list;
                  calls := calls m; completed := completed m |}
      | None =>
          Some {| main := Wait; fns := fns m; cells := cells m; wg := wg m;
                  pool := pool m; calls := calls m; completed := completed m |}
      end
  | Wait =>
      match wg m with
      | O => Some {| main := Returned; fns := fns m; cells := cells m; wg := wg m;
                     pool := pool m; calls := calls m; completed := completed m |}
      | S _ => None
      end
  | Returned => None
  end.

(** One step of goroutine [j]: it reads [fn] and calls it, the callback
    works or sleeps, the callback returns, [wg.Done()]. *)
Definition step_go (cost : HookFN -> nat) (j : nat) (m : machine) : option machine :=
  match pool m !! j with
  | Some (Launched c) =>
      match cells m !! c with
      | Some f =>
          Some {| main := main m; fns := fns m; cells := cells m; wg := wg m;
                  pool := <[j := Running f (cost f)]> (pool m);
                  calls := (calls m ++ [f])%list; completed := completed m |}
      | None => None
      end
  | Some (Running f (S k)) =>
      Some {| main := main m; fns := fns m; cells := cells m; wg := wg m;
              pool := <[j := Running f k]> (pool m);
              calls := calls m; completed := completed m |}
  | Some (Running f O) =>
      Some {| main := main m; fns := fns m; cells := cells m; wg := wg m;
              pool := <[j := Back f]> (pool m);
              calls := calls m; completed := (completed m ++ [f])%list |}
  | Some (Back f) =>
      match wg m with
      | S n =>
          Some {| main := main m; fns := fns m; cells := cells m; wg := n;
                  pool := <[j := Exited f]> (pool m);
                  calls := calls m; completed := completed m |}
      | O => None
      end
  | Some (Exited _) | None => None
  end.

Definition step (sem : loopvar) (cost : HookFN -> nat) (c : choice) (m : machine)
  : option machine :=
  match c with
  | Main => step_main sem m
  | Go j => step_go cost j m
  end.

(** A schedule, step by step; [None] when it asks for a step that cannot
    be taken. *)
Fixpoint exec (sem : loopvar) (cost : HookFN -> nat) (sched : list choice) (m : machine)
  : option machine :=
  match sched with
  | [] => Some m
  | c :: sched' =>
      match step sem cost c m with
      | Some m' => exec sem cost sched' m'
      | None => None
      end
  end.

(** How often callback [f] was called. *)
Definition times_called (f : HookFN) (m : machine) : nat :=
  length (filter (fun g => g = f) (calls m)).

Definition exited (g : goroutine) : bool :=
  match g with
  | Exited _ => true
  | _ => false
  end.
End Hooks.

(** ** What an execution shows *)

Definition trace {S A : Type} (r : list event * A * S) : list event := r.1.1.
Definition result {S A : Type} (r : list event * A * S) : A := r.1.2.
Definition final {S A : Type} (r : list event * A * S) : S := r.2.

(** The names of the hook events of an execution, in order. *)
Definition dispatched (tr : list event) : list string := map fst (dispatches tr).

(** The value under a key of a payload. *)
Fixpoint payload_get (key : string) (p : payload) : option value :=
  match p with
  | [] => None
  | (k, v) :: p' => if String.eqb k key then Some v else payload_get key p'
  end.

(** The entry [ReadDirAll] stores for a child: the name, and the zero
    values of the other two fields. *)
Definition name_only (entry : os.FileInfo) : fuse.Dirent :=
  {| fuse.Dirent_Inode := 0; fuse.Dirent_Type := fuse.DT_Unknown;
     fuse.Dirent_Name := os.Name entry |}.

(** The entry the specification asks for: the child's name, its inode
    number, and the tag of a directory or of a file. *)
Definition Dirent_specified (entry : os.FileInfo) (ino : Z) : fuse.Dirent :=
  {| fuse.Dirent_Inode := ino;
     fuse.Dirent_Type := if os.IsDir entry then fuse.DT_Dir else fuse.DT_File;
     fuse.Dirent_Name := os.Name entry |}.

(** A file tree to run examples on: the mirror root [/tmp/src] with a
    directory [a], the file [a/b.txt] holding ["hi"] and a file [f.txt];
    the process works in [/], where there is another [b.txt]. *)
Definition tmp_src : OS.state :=
  OS.mk "/" [("/", OS.a_dir 1); ("/tmp", OS.a_dir 2); ("/tmp/src", OS.a_dir 3);
             ("/tmp/src/a", OS.a_dir 4); ("/tmp/src/a/b.txt", OS.a_file 5 [x68; x69]);
             ("/tmp/src/f.txt", OS.a_file 7 [x68; x65; x6c; x6c; x6f]);
             ("/b.txt", OS.a_file 6 [x6f])].

Definition Attr_zero : fuse.Attr :=
  {| fuse.Valid := 0; fuse.Inode := 0; fuse.Size := 0; fuse.Blocks := 0;
     fuse.Atime := 0; fuse.Mtime := 0; fuse.Ctime := 0; fuse.Crtime := 0;
     fuse.Mode := 0; fuse.Nlink := 0; fuse.Uid := 0; fuse.Gid := 0;
     fuse.Rdev := 0; fuse.Flags := 0; fuse.BlockSize := 0 |}.

(** An execution without its log lines: the hook dispatches and the
    filesystem calls, in order. *)
Definition is_debug (e : event) : bool :=
  match e with
  | EvDebug _ _ _ _ => true
  | _ => false
  end.

Definition without_log (tr : list event) : list event :=
  filter (fun e => negb (is_debug e)) tr.

(** The first thing an execution does, log lines apart, is to dispatch the
    hook event [name]. *)
Definition starts_with (name : string) (tr : list event) : Prop :=
  exists hh data rest, without_log tr = EvHandle hh name data :: rest.

(** The ["error"] values of the dispatches of the hook event [name]. *)
Definition errors_dispatched (name : string) (tr : list event) : list (option value) :=
  map (fun nd => payload_get "error" nd.2)
      (filter (fun nd => String.eqb nd.1 name) (dispatches tr)).

(** Two attribute structures that agree on every field but [Inode] and
    [Mode]. *)
Definition same_but_Inode_Mode (a a' : fuse.Attr) : Prop :=
  fuse.Valid a' = fuse.Valid a
  /\ fuse.Size a' = fuse.Size a
  /\ fuse.Blocks a' = fuse.Blocks a
  /\ fuse.Atime a' = fuse.Atime a
  /\ fuse.Mtime a' = fuse.Mtime a
  /\ fuse.Ctime a' = fuse.Ctime a
  /\ fuse.Crtime a' = fuse.Crtime a
  /\ fuse.Nlink a' = fuse.Nlink a
  /\ fuse.Uid a' = fuse.Uid a
  /\ fuse.Gid a' = fuse.Gid a
  /\ fuse.Rdev a' = fuse.Rdev a
  /\ fuse.Flags a' = fuse.Flags a
  /\ fuse.BlockSize a' = fuse.BlockSize a.

(** The values of a Go [int], and of an [int64]. *)
Definition is_int (z : Z) : Prop := - 2 ^ 63 <= z < 2 ^ 63.

(** The bytes of the regular file a name stands for, if there is one. *)
Definition file_content (st : OS.state) (name : string) : option (list byte) :=
  match OS.resolve st name with
  | None => None
  | Some path =>
      match OS.tree st !! path with
      | Some i => if OS.is_dir i then None else Some (OS.i_data i)
      | None => None
      end
  end.

(** [Write] with offset 0 and data [B] on a file node. *)
Definition Write0 (F : file) (ctx : Context) (B : list byte) (flags : Z)
  : prog (fuse.WriteResponse * option error) :=
  File.Write F ctx
    {| fuse.WriteRequest_Offset := 0; fuse.WriteRequest_Data := B;
       fuse.WriteRequest_Flags := flags |}
    {| fuse.WriteResponse_Size := 0 |}.

(** The same file tree with the process working in the mirror root. *)
Definition in_tmp_src : OS.state :=
  {| OS.cwd := "/tmp/src"; OS.tree := OS.tree tmp_src; OS.fds := ∅;
     OS.next_fd := 3; OS.next_ino := 1000 |}.

(** *** Counting goroutines

    What a goroutine adds to the three counts the proofs keep: goroutines
    that have not called [wg.Done()], callbacks called, callbacks back. *)
Definition alive (g : Hooks.goroutine) : nat :=
  match g with
  | Hooks.Exited _ => 0
  | _ => 1
  end.

Definition called (g : Hooks.goroutine) : nat :=
  match g with
  | Hooks.Launched _ => 0
  | _ => 1
  end.

Definition returned (g : Hooks.goroutine) : nat :=
  match g with
  | Hooks.Back _ | Hooks.Exited _ => 1
  | _ => 0
  end.

Definition weight (f : Hooks.goroutine -> nat) (l : list Hooks.goroutine) : nat :=
  sum_list_with f l.

(** The callback a goroutine has called, once it has. *)
Definition fn_of (g : Hooks.goroutine) : option HookFN :=
  match g with
  | Hooks.Launched _ => None
  | Hooks.Running f _ | Hooks.Back f | Hooks.Exited f => Some f
  end.

Definition called_fns (l : list Hooks.goroutine) : list HookFN := omap fn_of l.

(** What holds of [Handle] at every moment, under either rule for the
    loop variable: the counter of the wait group is the number of
    goroutines that have not called [wg.Done()]; the loop has launched one
    goroutine per iteration done; [Handle] has returned only on a zero
    counter. *)
Definition counted (m : Hooks.machine) : Prop :=
  Hooks.wg m = weight alive (Hooks.pool m)
  /\ length (Hooks.calls m) = weight called (Hooks.pool m)
  /\ length (Hooks.completed m) = weight returned (Hooks.pool m)
  /\ match Hooks.main m with
     | Hooks.Loop i => length (Hooks.pool m) = i /\ (i <= length (Hooks.fns m))%nat
     | Hooks.Wait => length (Hooks.pool m) = length (Hooks.fns m)
     | Hooks.Returned => length (Hooks.pool m) = length (Hooks.fns m) /\ Hooks.wg m = 0%nat
     end.

(** What holds in addition when every iteration has its own [fn]:
    goroutine [j] closes over cell [j], which holds [fns[j]] from its
    launch on, and the callback it calls is [fns[j]]. *)
Definition own_variable (m : Hooks.machine) : Prop :=
  (forall j g, Hooks.pool m !! j = Some g ->
               match g with
               | Hooks.Launched c => c = j /\ Hooks.cells m !! j = Hooks.fns m !! j
               | _ => fn_of g = Hooks.fns m !! j
               end)
  /\ (forall j, (j < length (Hooks.pool m))%nat -> is_Some (Hooks.fns m !! j))
  /\ Hooks.calls m ≡ₚ called_fns (Hooks.pool m)
  /\ match Hooks.main m with
     | Hooks.Loop i => length (Hooks.pool m) = i
     | _ => True
     end.

(** The steps a goroutine still takes, the callback of a launched one
    being what its cell holds. *)
Definition steps_left (cost : HookFN -> nat) (cells : gmap nat HookFN)
           (g : Hooks.goroutine) : nat :=
  match g with
  | Hooks.Launched c =>
      match cells !! c with
      | Some f => cost f + 3
      | None => 0
      end
  | Hooks.Running _ k => k + 2
  | Hooks.Back _ => 1
  | Hooks.Exited _ => 0
  end.

(** The cell a launched goroutine closes over has been assigned. *)
Definition cells_assigned (m : Hooks.machine) : Prop :=
  forall j c, Hooks.pool m !! j = Some (Hooks.Launched c) -> is_Some (Hooks.cells m !! c).

(** ** The filesystem object (fs.go, src/unnamed/part_000)

    The registry is a Go map: the filesystem and the nodes made from it
    refer to one map.  Here a node carries the registry as it was when the
    node was made; the properties below are about nodes made after the
    hooks were registered, the order the package asks for. *)

Module FS.
(** [type mirrorFS struct { root string; hooks HookHandler }]. *)
Record mirrorFS : Type := { root : string; hooks : HookHandler }.

(** [func NewMirrorFS(root string) FS]. *)
Definition NewMirrorFS (root : string) : mirrorFS :=
  {| root := root; hooks := ∅ |}.


(** [func (m *mirrorFS) RootPath() string]. *)
Definition RootPath (m : mirrorFS) : string := root m.

(** [func (m *mirrorFS) WithHook(event string, hook HookFN) FS]:
    [m.hooks.Register(event, hook); return m]. *)
Definition WithHook (m : mirrorFS) (event : string) (hook : HookFN) : mirrorFS :=
  {| root := root m; hooks := Hooks.Register (hooks m) event hook |}.

End FS.


(** ** Logging (logger.go) *)

Module logrus.
(** [logrus.Level], a [uint32]: [PanicLevel] is 0, [TraceLevel] is 6. *)
Definition Level : Type := Z.
Definition PanicLevel : Level := 0.
Definition FatalLevel : Level := 1.
Definition ErrorLevel : Level := 2.
Definition WarnLevel : Level := 3.
Definition InfoLevel : Level := 4.
Definition DebugLevel : Level := 5.
Definition TraceLevel : Level := 6.

(** [Logger.IsLevelEnabled]: [logger.level() >= level]. *)
Definition IsLevelEnabled (logger_level level : Level) : bool := Z.leb level logger_level.

(** A [*logrus.Entry]: the level of its logger, and its fields. *)
Record Entry : Type := { Entry_Level : Level; Entry_Data : payload }.
End logrus.

Module logger.
(** [var levelMapping = map[string]logrus.Level{...}]. *)
Definition levelMapping : gmap string logrus.Level :=
  <["debug" := logrus.DebugLevel]>
    (<["info" := logrus.InfoLevel]>
       (<["warn" := logrus.WarnLevel]>
          (<["error" := logrus.ErrorLevel]> ∅))).

(** [func SetLogLevel(level string)]: the new value of the package
    variable [loggingLevel], whose zero value is the empty string. *)
Definition SetLogLevel (level : string) (loggingLevel : string) : string := level.

(** [func getLoggingLevel() logrus.Level], on the value of
    [loggingLevel]. *)
Definition getLoggingLevel (loggingLevel : string) : logrus.Level :=
  match levelMapping !! loggingLevel with
  | Some val => val
  | None => logrus.WarnLevel
  end.

(** [func loggerWith(fields) *logrus.Entry]: a new logger at
    [getLoggingLevel()], with the fields. *)
Definition loggerWith (fields : payload) (loggingLevel : string) : logrus.Entry :=
  {| logrus.Entry_Level := getLoggingLevel loggingLevel; logrus.Entry_Data := fields |}.

(** Whether [lgr.Debug(...)] writes its line. *)
Definition Debug_writes (lgr : logrus.Entry) : bool :=
  logrus.IsLevelEnabled (logrus.Entry_Level lgr) logrus.DebugLevel.
End logger.

(** ** The command (mirror.go) *)

Module main.
(** What [mirrorFunc] does to the world, in order. *)
Inductive action : Type :=
| Mount (dir fsname subtype : string)
| SetLogLevel (level : string)
| Serve (fs : FS.mirrorFS)
| Close
| Fatal (e : error).

(** How [mirrorFunc] ends: it returns, or [log.Fatal] ends the process
    (deferred calls do not run then). *)
Inductive outcome : Type :=
| Return (e : option error)
| Exit.

(** The function literal given to [WithHook]: it prints the data. *)
Definition printer : HookFN := 0%nat.

(** [func mirrorFunc(c *cli.Context) error], on the three strings it
    reads from the context and on what [fuse.Mount] and [fs.Serve]
    answer. *)
Definition mirrorFunc (mount mirror logLevel : string)
           (mounted served : option error) : list action * outcome :=
  if bool_decide (String.length mount = 0%nat)
  then ([], Return (Some (ErrorString "must provide valid mount path")))
  else
    match mounted with
    | Some err => ([Mount mount "scoped" "scopefs"; Fatal err], Exit)
    | None =>
        let mirror := if bool_decide (String.length mirror = 0%nat) then "/" else mirror in
        let level :=
          if bool_decide (0 < String.length logLevel)%nat then [SetLogLevel logLevel] else [] in
        let mirrFS := FS.WithHook (FS.NewMirrorFS mirror) "*" printer in
        match served with
        | Some err =>
            (((Mount mount "scoped" "scopefs" :: level) ++ [Serve mirrFS; Fatal err])%list, Exit)
        | None =>
            (((Mount mount "scoped" "scopefs" :: level) ++ [Serve mirrFS; Close])%list, Return None)
        end
    end.

Definition served_fs (acts : list action) : list FS.mirrorFS :=
  omap (fun a => match a with Serve fs => Some fs | _ => None end) acts.
End main.

(** ** More observations of an execution *)

(** The filesystem calls that only read. *)
Definition is_read_call (e : event) : bool :=
  match e with
  | EvStat _ _ | EvReadDir _ _ | EvReadFile _ _ => true
  | _ => false
  end.

Definition reads_only (tr : list event) : Prop :=
  Forall (fun e => is_read_call e = true) (fs_calls tr).

Definition is_close (e : event) : bool :=
  match e with
  | EvClose _ _ => true
  | _ => false
  end.

(** Every entry of the tree but a root has its parent in the tree. *)
Definition parents_exist (st : OS.state) : Prop :=
  forall q i, OS.tree st !! q = Some i ->
              filepath.Dir q <> q -> is_Some (OS.tree st !! filepath.Dir q).

(** The attributes a stat of an entry of the tree gives: for a directory
    the inode and the mode, for a file the size as well. *)
Definition attr_of (i : OS.inode) (a : fuse.Attr) : fuse.Attr :=
  if OS.is_dir i
  then fuse.set_Mode (OS.i_mode i) (fuse.set_Inode (OS.i_ino i) a)
  else fuse.set_Mode (OS.i_mode i)
         (fuse.set_Inode (OS.i_ino i)
            (fuse.set_Size (wrap_uint64 (Z.of_nat (length (OS.i_data i)))) a)).

(** A world in which every [Close] fails, and otherwise the file tree. *)
Definition Close_fails : handler OS.state :=
  fun X c =>
    match c in call X return OS.state -> X * OS.state with
    | File_Close f => fun st => (Some (PathError "close" "" 5), st)
    | c' => OS.handle _ c'
    end.

(** * Properties *)

Local Open Scope list_scope.

(** One call of an execution in the goal: the answer of the handler is
    named. *)
Ltac run_call :=
  match goal with
  | |- context [?h ?X ?c ?s] =>
      match type of h with handler _ => idtac end;
      let x := fresh "x" in
      let s' := fresh "s" in
      let E := fresh "E" in
      destruct (h X c s) as [x s'] eqn:E
  end.

(** The rest of an execution that waits for a case analysis. *)
Ltac run_rest :=
  match goal with
  | |- context [run ?h ?m ?s] => destruct (run h m s) as [[? ?] ?]
  end.

Arguments os.IsDir : simpl never.

(** The case analysis an execution waits for: on the answer of a call, on
    [Sys()], on [IsDir()], on the loop of [ReadDirAll], on the node given
    to [Rename]. *)
Ltac branch :=
  match goal with
  | |- context [match ?x with inl _ => _ | inr _ => _ end] => destruct x
  | |- context [match os.Sys ?x with Some _ => _ | None => _ end] => destruct (os.Sys x)
  | |- context [if os.IsDir ?x then _ else _] => destruct (os.IsDir x)
  | |- context [match Dir.ReadDirAll_loop ?i ?e ?t with Some _ => _ | None => _ end] =>
      destruct (Dir.ReadDirAll_loop i e t)
  | |- context [match ?x with Some _ => _ | None => _ end] => is_var x; destruct x
  | |- context [match ?x with (_, _) => _ end] => is_var x; destruct x
  | |- context [match ?x with NodeDir _ => _ | NodeFile _ => _ | NodeOther => _ end] =>
      is_var x; destruct x
  end.

(** The first dispatch of an execution, whatever follows. *)
Ltac starts :=
  unfold starts_with, trace; cbn; repeat run_call; cbn; try run_rest; cbn; eauto.

(** The dispatches of an execution, path by path. *)
Ltac ends :=
  unfold trace, result, dispatched; cbn; repeat run_call; cbn;
  repeat (branch; cbn; repeat run_call; cbn);
  intros; try discriminate; try reflexivity.

(** ** path/filepath on examples *)

Example Join_nested : filepath.Join "/tmp/src/a" "b.txt" = "/tmp/src/a/b.txt".
Proof. reflexivity. Qed.

Example Join_dotdot : filepath.Join "/tmp/src" "../x//y/." = "/tmp/x/y".
Proof. reflexivity. Qed.

Example Join_empty : filepath.Join "" "" = "" /\ filepath.Clean "" = ".".
Proof. split; reflexivity. Qed.

Example Dir_Base :
  filepath.Dir "/tmp/src/a" = "/tmp/src" /\ filepath.Base "/tmp/src/a" = "a"
  /\ filepath.Dir "/a" = "/" /\ filepath.Dir "a" = ".".
Proof. repeat split; reflexivity. Qed.

(** ** ReadDirAll *)

(** The loop stores the name of every entry and nothing else: from index
    [length pre] on, over a slice of the right length. *)
Lemma ReadDirAll_loop_from (entries : list os.FileInfo) :
  forall (pre : list fuse.Dirent),
    Forall (fun e => is_Some (os.Sys e)) entries ->
    Dir.ReadDirAll_loop (length pre) entries
      (pre ++ replicate (length entries) fuse.Dirent_zero)
    = Some (pre ++ map name_only entries).
Proof.
  induction entries as [|entry rest IH]; intros pre Hsys; simpl.
  - reflexivity.
  - inversion Hsys as [|? ? [stat Hstat] Hrest]; subst.
    rewrite Hstat.
    rewrite insert_app_r_alt by lia.
    rewrite Nat.sub_diag. simpl.
    specialize (IH (pre ++ [name_only entry]) Hrest).
    rewrite length_app, Nat.add_1_r in IH. simpl in IH.
    rewrite <- !app_assoc in IH. simpl in IH. exact IH.
Qed.

(** With an entry whose [Sys()] is not a [*syscall.Stat_t] the loop takes
    the early return. *)
Lemma ReadDirAll_loop_no_stat (entries : list os.FileInfo) :
  forall (i : nat) (toReturn : list fuse.Dirent),
    Exists (fun e => os.Sys e = None) entries ->
    Dir.ReadDirAll_loop i entries toReturn = None.
Proof.
  induction entries as [|entry rest IH]; intros i toReturn Hex; simpl.
  - inversion Hex.
  - destruct (os.Sys entry) eqn:Hs.
    + inversion Hex as [? ? Hnone|? ? Hlater]; subst.
      * congruence.
      * apply IH. exact Hlater.
    + reflexivity.
Qed.

(** What [ReadDirAll] returns on success, whatever the system answers: one
    entry per entry of the listing, in its order, with the name and with
    inode 0 and type [DT_Unknown]. *)
Lemma ReadDirAll_returns_names_only {S : Type} (h : handler S) (s : S)
      (d : dir) (ctx : Context) (l : list fuse.Dirent) :
  result (run h (Dir.ReadDirAll d ctx) s) = (l, None) ->
  exists entries,
    In (EvReadDir (dir_path d) (inl entries)) (trace (run h (Dir.ReadDirAll d ctx) s))
    /\ l = map name_only entries.
Proof.
  unfold result, trace. cbn. repeat run_call. cbn.
  destruct x1 as [entries|err]; cbn.
  - destruct (decide (Forall (fun e => is_Some (os.Sys e)) entries)) as [Hall|Hnot].
    + pose proof (ReadDirAll_loop_from entries [] Hall) as Hloop.
      simpl in Hloop. rewrite Hloop. cbn. repeat run_call. cbn.
      intros [= <-]. exists entries. split; [|reflexivity].
      right. right. left. reflexivity.
    + apply not_Forall_Exists in Hnot; [|intros e; apply _].
      rewrite ReadDirAll_loop_no_stat.
      * cbn. repeat run_call. cbn. intros [= _ ?].
      * eapply Exists_impl; [exact Hnot|].
        intros e He. simpl in He. destruct (os.Sys e); [|reflexivity].
        exfalso. apply He. eexists. reflexivity.
  - repeat run_call. cbn. intros [= _ ?].
Qed.

(** C1 (code_bug): [ReadDirAll] of [/tmp/src], whose children are the
    directory [a] (inode 4) and the file [f.txt] (inode 7), returns one
    entry per child with the child's name, but with inode 0 and type
    [DT_Unknown] in both, not the entries the specification asks for:
    the inode and the type are assigned to a local copy after the entry
    was stored. *)
Theorem C1_ReadDirAll_entries_carry_name_only :
  let d := NewDirectory ∅ "/tmp/src" in
  let r := run OS.handle (Dir.ReadDirAll d 0%nat) tmp_src in
  let a := {| os.Name := "a"; os.Size := 0; os.Mode := Z.lor os.ModeDir 493;
              os.Sys := Some {| syscall.Ino := 4 |} |} in
  let f := {| os.Name := "f.txt"; os.Size := 5; os.Mode := 420;
              os.Sys := Some {| syscall.Ino := 7 |} |} in
  fs_calls (trace r) = [EvReadDir "/tmp/src" (inl [a; f])]
  /\ result r = ([name_only a; name_only f], None)
  /\ result r <> ([Dirent_specified a 4; Dirent_specified f 7], None)
  /\ Dirent_specified a 4
     = {| fuse.Dirent_Inode := 4; fuse.Dirent_Type := fuse.DT_Dir; fuse.Dirent_Name := "a" |}
  /\ Dirent_specified f 7
     = {| fuse.Dirent_Inode := 7; fuse.Dirent_Type := fuse.DT_File; fuse.Dirent_Name := "f.txt" |}.
Proof.
  repeat split; try (vm_compute; reflexivity).
  vm_compute. intros H. discriminate H.
Qed.

(** ** Remove *)

(** Whatever the system answers, [Remove] makes one filesystem call,
    [os.Remove] on the name of the request as it came, and returns its
    answer. *)
Lemma Remove_fs_calls {S : Type} (h : handler S) (s : S)
      (d : dir) (ctx : Context) (req : fuse.RemoveRequest) :
  let r := run h (Dir.Remove d ctx req) s in
  fs_calls (trace r) = [EvRemove (fuse.RemoveRequest_Name req) (result r)].
Proof.
  unfold trace, result. cbn. repeat run_call. cbn. reflexivity.
Qed.

(** C2 (code_bug): [Remove] of [b.txt] on the node of [/tmp/src/a], with
    the process working in [/], calls [os.Remove("b.txt")], not
    [os.Remove("/tmp/src/a/b.txt")]: the file [/b.txt] is removed, the
    file [/tmp/src/a/b.txt] the request names stays, and the operation
    reports success. *)
Theorem C2_Remove_uses_the_bare_name :
  let d := NewDirectory ∅ "/tmp/src/a" in
  let req := {| fuse.RemoveRequest_Name := "b.txt"; fuse.RemoveRequest_Dir := false |} in
  let r := run OS.handle (Dir.Remove d 0%nat req) tmp_src in
  filepath.Join (dir_path d) (fuse.RemoveRequest_Name req) = "/tmp/src/a/b.txt"
  /\ fs_calls (trace r) = [EvRemove "b.txt" None]
  /\ result r = None
  /\ OS.tree (final r) !! "/tmp/src/a/b.txt" = Some (OS.a_file 5 [x68; x69])
  /\ OS.tree tmp_src !! "/b.txt" = Some (OS.a_file 6 [x6f])
  /\ OS.tree (final r) !! "/b.txt" = None.
Proof.
  repeat split; vm_compute; reflexivity.
Qed.

(** ** Create *)

(** The body of [Create] on the path it is given: it opens that path with
    the flags and the mode of the request and, when that worked, closes
    the handle at once; on success these are its only filesystem calls and
    the node and the handle are one file node on that path. *)
Lemma Create_at_calls {S : Type} (h : handler S) (s : S) (path : string)
      (d : dir) (ctx : Context) (req : fuse.CreateRequest) (resp : fuse.CreateResponse) :
  let r := run h (Dir.Create_at path d ctx req resp) s in
  (exists o rest,
      fs_calls (trace r)
      = EvOpenFile path (fuse.CreateRequest_Flags req) (fuse.CreateRequest_Mode req) o :: rest)
  /\ ((result r).2 = None ->
      exists f,
        fs_calls (trace r)
        = [EvOpenFile path (fuse.CreateRequest_Flags req) (fuse.CreateRequest_Mode req) (inl f);
           EvClose f None]
        /\ result r = (Some (NodeFile (NewFile (dir_HookHandler d) path)),
                       Some (NodeFile (NewFile (dir_HookHandler d) path)), None)).
Proof.
  unfold trace, result. cbn. repeat run_call. cbn.
  destruct x1 as [f|err]; cbn; repeat run_call; cbn.
  - destruct x1 as [err|]; cbn; repeat run_call; cbn.
    + split; [eauto|]. intros [=].
    + split; [eauto|]. intros _. exists f. split; reflexivity.
  - split; [eauto|]. intros [=].
Qed.

(** The second copy of dir.go does what the specification says: for every
    answer of the system, [Create] opens the file at the directory's path
    joined with the name, with the flags and the mode of the request; when
    it succeeds it has closed the handle at once, made no other filesystem
    call, and returns one file node on that joined path as the node and as
    the handle. *)
Lemma Create_joined_path {S : Type} (h : handler S) (s : S)
      (d : dir) (ctx : Context) (req : fuse.CreateRequest) (resp : fuse.CreateResponse) :
  let r := run h (Dir2.Create d ctx req resp) s in
  let fullpath := filepath.Join (dir_path d) (fuse.CreateRequest_Name req) in
  (exists o rest,
      fs_calls (trace r)
      = EvOpenFile fullpath (fuse.CreateRequest_Flags req) (fuse.CreateRequest_Mode req) o :: rest)
  /\ ((result r).2 = None ->
      exists f,
        fs_calls (trace r)
        = [EvOpenFile fullpath (fuse.CreateRequest_Flags req) (fuse.CreateRequest_Mode req) (inl f);
           EvClose f None]
        /\ result r = (Some (NodeFile (NewFile (dir_HookHandler d) fullpath)),
                       Some (NodeFile (NewFile (dir_HookHandler d) fullpath)), None)).
Proof.
  exact (Create_at_calls h s (filepath.Join (dir_path d) (fuse.CreateRequest_Name req))
                         d ctx req resp).
Qed.

(** C5 (code_bug): [Create] of src/mirrorfs/dir.go for [f.txt] on the node
    of [/tmp/src/a], with the process working in [/]: it opens
    [f.txt], not the joined path [/tmp/src/a/f.txt], closes the handle,
    and returns one file node bound to [f.txt] as node and as handle.  The
    file appears as [/f.txt]; nothing appears in [/tmp/src/a]. *)
Theorem C5_Create_opens_the_bare_name :
  let d := NewDirectory ∅ "/tmp/src/a" in
  let req := {| fuse.CreateRequest_Name := "f.txt";
                fuse.CreateRequest_Flags := Z.lor os.O_CREATE os.O_RDWR;
                fuse.CreateRequest_Mode := 420 |} in
  let r := run OS.handle (Dir.Create d 0%nat req {| fuse.CreateResponse_Attr := Attr_zero |})
               tmp_src in
  filepath.Join (dir_path d) (fuse.CreateRequest_Name req) = "/tmp/src/a/f.txt"
  /\ fs_calls (trace r) = [EvOpenFile "f.txt" 66 420 (inl 3%nat); EvClose 3%nat None]
  /\ result r = (Some (NodeFile (NewFile ∅ "f.txt")), Some (NodeFile (NewFile ∅ "f.txt")), None)
  /\ OS.tree (final r) !! "/f.txt" = Some (OS.a_file 1000 [])
  /\ OS.tree (final r) !! "/tmp/src/a/f.txt" = None.
Proof.
  repeat split; vm_compute; reflexivity.
Qed.

(** ** The start and end events *)

(** Every operation of a directory and of a file dispatches its start
    event before it makes any filesystem call, whatever the system
    answers.  (The directory's [Attr] names its events [attr:start] and
    [attr:end], in lower case.) *)
Lemma start_event_first {S : Type} (h : handler S) (s : S) (d : dir) (f : file)
      (ctx : Context) :
  (forall a, starts_with "attr:start" (trace (run h (Dir.Attr d ctx a) s)))
  /\ (forall req resp, starts_with "Lookup:start" (trace (run h (Dir.Lookup d ctx req resp) s)))
  /\ starts_with "ReadDirAll:start" (trace (run h (Dir.ReadDirAll d ctx) s))
  /\ (forall req resp, starts_with "Setattr:start" (trace (run h (Dir.Setattr d ctx req resp) s)))
  /\ (forall req resp, starts_with "Create:start" (trace (run h (Dir.Create d ctx req resp) s)))
  /\ (forall req resp, starts_with "Create:start" (trace (run h (Dir2.Create d ctx req resp) s)))
  /\ (forall req, starts_with "Remove:start" (trace (run h (Dir.Remove d ctx req) s)))
  /\ (forall req, starts_with "Mkdir:start" (trace (run h (Dir.Mkdir d ctx req) s)))
  /\ (forall req node, starts_with "Rename:start" (trace (run h (Dir2.Rename d ctx req node) s)))
  /\ (forall a, starts_with "Attr:start" (trace (run h (File.Attr f ctx a) s)))
  /\ starts_with "ReadAll:start" (trace (run h (File.ReadAll f ctx) s))
  /\ (forall req resp, starts_with "Write:start" (trace (run h (File.Write f ctx req resp) s))).
Proof.
  repeat split; intros; starts.
Qed.

(** When [os.Mkdir] fails, with whatever error, [Mkdir] returns that error
    and dispatches [Mkdir:end] with a [nil] error. *)
Lemma Mkdir_end_hides_the_error {S : Type} (h : handler S) (s : S)
      (d : dir) (ctx : Context) (req : fuse.MkdirRequest) (err : error) :
  let r := run h (Dir.Mkdir d ctx req) s in
  (result r).2 = Some err ->
  errors_dispatched "Mkdir:end" (trace r) = [Some VNil].
Proof.
  unfold trace, result, errors_dispatched. cbn. repeat run_call. cbn.
  destruct x1; cbn; repeat run_call; cbn.
  - intros _. reflexivity.
  - intros [=].
Qed.

(** When the [os.Stat] of [Attr] on a directory fails, no end event is
    dispatched at all. *)
Lemma Attr_dir_no_end_on_error {S : Type} (h : handler S) (s : S)
      (d : dir) (ctx : Context) (a : fuse.Attr) (err : error) :
  let r := run h (Dir.Attr d ctx a) s in
  (result r).2 = Some err ->
  dispatched (trace r) = ["attr:start"].
Proof.
  unfold trace, result, dispatched. cbn. repeat run_call. cbn.
  destruct x1 as [fi|e]; cbn; repeat run_call; cbn.
  - destruct (os.Sys fi); cbn; repeat run_call; cbn.
    + intros [=].
    + intros _. reflexivity.
  - intros _. reflexivity.
Qed.

(** When [Write] fails, at whichever of its four calls, no end event is
    dispatched. *)
Lemma Write_no_end_on_error {S : Type} (h : handler S) (s : S)
      (f : file) (ctx : Context) (req : fuse.WriteRequest) (resp : fuse.WriteResponse)
      (err : error) :
  let r := run h (File.Write f ctx req resp) s in
  (result r).2 = Some err ->
  dispatched (trace r) = ["Write:start"].
Proof.
  unfold trace, result, dispatched. cbn. repeat run_call. cbn.
  destruct x1 as [fi|e]; cbn; repeat run_call; cbn; [|intros _; reflexivity].
  destruct x1 as [fd|e]; cbn; repeat run_call; cbn; [|intros _; reflexivity].
  destruct x1 as [n [e|]]; cbn; repeat run_call; cbn; [intros _; reflexivity|].
  destruct x1 as [e|]; cbn; repeat run_call; cbn; [intros _; reflexivity|].
  intros [=].
Qed.

(** On every path that ends without error, the last hook event
    dispatched is the end event of the operation; [Setattr], [Remove],
    [Rename] and [ReadAll] dispatch it on every path. *)
Lemma end_event_on_success {S : Type} (h : handler S) (s : S) (d : dir) (f : file)
      (ctx : Context) :
  (forall a, (result (run h (Dir.Attr d ctx a) s)).2 = None ->
             last (dispatched (trace (run h (Dir.Attr d ctx a) s))) = Some "attr:end")
  /\ (forall req resp,
         (result (run h (Dir.Lookup d ctx req resp) s)).2 = None ->
         last (dispatched (trace (run h (Dir.Lookup d ctx req resp) s))) = Some "Lookup:end")
  /\ ((result (run h (Dir.ReadDirAll d ctx) s)).2 = None ->
      last (dispatched (trace (run h (Dir.ReadDirAll d ctx) s))) = Some "ReadDirAll:end")
  /\ (forall req resp,
         last (dispatched (trace (run h (Dir.Setattr d ctx req resp) s))) = Some "Setattr:end")
  /\ (forall req resp,
         (result (run h (Dir.Create d ctx req resp) s)).2 = None ->
         last (dispatched (trace (run h (Dir.Create d ctx req resp) s))) = Some "Create:end")
  /\ (forall req,
         last (dispatched (trace (run h (Dir.Remove d ctx req) s))) = Some "Remove:end")
  /\ (forall req,
         (result (run h (Dir.Mkdir d ctx req) s)).2 = None ->
         last (dispatched (trace (run h (Dir.Mkdir d ctx req) s))) = Some "Mkdir:end")
  /\ (forall req node,
         last (dispatched (trace (run h (Dir2.Rename d ctx req node) s))) = Some "Rename:end")
  /\ (forall a, (result (run h (File.Attr f ctx a) s)).2 = None ->
                last (dispatched (trace (run h (File.Attr f ctx a) s))) = Some "Attr:end")
  /\ last (dispatched (trace (run h (File.ReadAll f ctx) s))) = Some "ReadAll:end"
  /\ (forall req resp,
         (result (run h (File.Write f ctx req resp) s)).2 = None ->
         last (dispatched (trace (run h (File.Write f ctx req resp) s))) = Some "Write:end").
Proof.
  split; [intros a; ends|].
  split; [intros req resp; ends|].
  split; [ends|].
  split; [intros req resp; ends|].
  split; [intros req resp; ends|].
  split; [intros req; ends|].
  split; [intros req; ends|].
  split; [intros req node; ends|].
  split; [intros a; ends|].
  split; [ends|].
  intros req resp; ends.
Qed.

(** C3 (code_bug): three operations on [/tmp/src] that end in an error.
    [Mkdir] of the existing [a] returns the error of [os.Mkdir] and
    dispatches [Mkdir:end] with the payload's error [nil]; [Attr] of a
    directory that is gone returns [ENOENT] and dispatches no end event;
    [Write] to a file that is gone returns the error of [os.Stat] and
    dispatches no end event. *)
Theorem C3_end_events_on_error_paths :
  let root := NewDirectory ∅ "/tmp/src" in
  let gone := NewDirectory ∅ "/tmp/src/gone" in
  let nofile := NewFile ∅ "/tmp/src/gone.txt" in
  let mk := run OS.handle
                (Dir.Mkdir root 0%nat {| fuse.MkdirRequest_Name := "a"; fuse.MkdirRequest_Mode := 493 |})
                tmp_src in
  let at_ := run OS.handle (Dir.Attr gone 0%nat Attr_zero) tmp_src in
  let wr := run OS.handle
                (File.Write nofile 0%nat
                   {| fuse.WriteRequest_Offset := 0; fuse.WriteRequest_Data := [x78];
                      fuse.WriteRequest_Flags := 0 |}
                   {| fuse.WriteResponse_Size := 0 |})
                tmp_src in
  (result mk = (None, Some (PathError "mkdir" "/tmp/src/a" 17))
   /\ dispatched (trace mk) = ["Mkdir:start"; "Mkdir:end"]
   /\ errors_dispatched "Mkdir:end" (trace mk) = [Some VNil])
  /\ (result at_ = (Attr_zero, Some syscall.ENOENT)
      /\ dispatched (trace at_) = ["attr:start"])
  /\ (result wr = ({| fuse.WriteResponse_Size := 0 |}, Some (PathError "stat" "/tmp/src/gone.txt" 2))
      /\ dispatched (trace wr) = ["Write:start"]).
Proof.
  repeat split; vm_compute; reflexivity.
Qed.

(** ** Setattr *)

(** C9 (confirmed): for every directory node and every request, whatever
    the world answers, [Setattr] makes no filesystem call, dispatches
    [Setattr:start] and [Setattr:end] and nothing else, leaves the response
    as it was and returns [nil]; run on the file tree, it leaves the whole
    state of the system as it was. *)
Theorem C9_Setattr_changes_nothing (d : dir) (ctx : Context)
        (req : fuse.SetattrRequest) (resp : fuse.SetattrResponse) :
  (forall (S : Type) (h : handler S) (s : S),
      let r := run h (Dir.Setattr d ctx req resp) s in
      fs_calls (trace r) = []
      /\ dispatched (trace r) = ["Setattr:start"; "Setattr:end"]
      /\ result r = (resp, None))
  /\ (forall st : OS.state, final (run OS.handle (Dir.Setattr d ctx req resp) st) = st).
Proof.
  split.
  - intros S h s. unfold trace, result, dispatched. cbn. repeat run_call. cbn.
    repeat split; reflexivity.
  - intros st. reflexivity.
Qed.

(** ** Attr of a directory *)

(** C10 (confirmed): when the [os.Stat] of the directory's path succeeds,
    the attribute structure [Attr] leaves behind agrees with the one it was
    given on every field but [Inode] and [Mode] ([Size] among them); and
    when [Attr] then returns [nil], the structure is the given one with
    [Inode] set to the inode number and [Mode] to the mode of the stat. *)
Theorem C10_Attr_dir_writes_Inode_and_Mode_only {S : Type} (h : handler S) (s : S)
        (d : dir) (ctx : Context) (a : fuse.Attr) (fi : os.FileInfo) :
  let r := run h (Dir.Attr d ctx a) s in
  In (EvStat (dir_path d) (inl fi)) (trace r) ->
  same_but_Inode_Mode a (result r).1
  /\ ((result r).2 = None ->
      exists stat, os.Sys fi = Some stat
                   /\ (result r).1 = fuse.set_Mode (os.Mode fi) (fuse.set_Inode (syscall.Ino stat) a)).
Proof.
  unfold trace, result. cbn. repeat run_call. cbn.
  destruct x1 as [fileInfo|err]; cbn.
  - destruct (os.Sys fileInfo) as [stat|] eqn:Hsys; cbn; repeat run_call; cbn.
    + intros [[=]|[[=]|[[= <-]|[[=]|[[=]|[]]]]]].
      split.
      * repeat split; reflexivity.
      * intros _. exists stat. split; [exact Hsys|reflexivity].
    + intros [[=]|[[=]|[[= <-]|[[=]|[]]]]].
      split.
      * repeat split; reflexivity.
      * intros [=].
  - repeat run_call. cbn.
    intros [[=]|[[=]|[[=]|[[=]|[]]]]].
Qed.

Lemma C10_Attr_dir_witness :
  let a := fuse.set_Size 77 Attr_zero in
  let r := run OS.handle (Dir.Attr (NewDirectory ∅ "/tmp/src") 0%nat a) tmp_src in
  same_but_Inode_Mode a (result r).1
  /\ ((result r).2 = None ->
      exists stat, os.Sys (OS.info "/tmp/src" (OS.a_dir 3)) = Some stat
                   /\ (result r).1
                      = fuse.set_Mode (os.Mode (OS.info "/tmp/src" (OS.a_dir 3)))
                                      (fuse.set_Inode (syscall.Ino stat) a)).
Proof.
  apply (C10_Attr_dir_writes_Inode_and_Mode_only OS.handle tmp_src
           (NewDirectory ∅ "/tmp/src") 0%nat (fuse.set_Size 77 Attr_zero)
           (OS.info "/tmp/src" (OS.a_dir 3))).
  vm_compute. right. right. left. reflexivity.
Defined.

(** ** Write *)

Lemma wrap_int_is_int (z : Z) : is_int z -> wrap_int z = z.
Proof.
  unfold is_int, wrap_int. intros Hz.
  rewrite Z.mod_small; lia.
Qed.

(** C7 (confirmed): a [Write] that returns [nil] has made exactly four
    filesystem calls, in this order: [os.Stat] of the file's path;
    [os.OpenFile] of the path with the request's flags or'ed with
    [O_WRONLY] and the mode the stat gave; [WriteAt] of the request's data
    at the request's offset; [Close] of the handle.  The response's [Size]
    is the offset plus the number of bytes written, in Go's [int], which is
    their sum whenever offset and sum are values of an [int]. *)
Theorem C7_Write_calls_and_size {S : Type} (h : handler S) (s : S)
        (f : file) (ctx : Context) (req : fuse.WriteRequest) (resp : fuse.WriteResponse) :
  let r := run h (File.Write f ctx req resp) s in
  (result r).2 = None ->
  exists (fInfo : os.FileInfo) (file : os.File) (n : Z),
    fs_calls (trace r)
    = [EvStat (file_path f) (inl fInfo);
       EvOpenFile (file_path f) (Z.lor (fuse.WriteRequest_Flags req) os.O_WRONLY)
                  (os.Mode fInfo) (inl file);
       EvWriteAt file (fuse.WriteRequest_Data req) (fuse.WriteRequest_Offset req) (n, None);
       EvClose file None]
    /\ fuse.WriteResponse_Size (result r).1
       = wrap_int (wrap_int (fuse.WriteRequest_Offset req) + n)
    /\ (is_int (fuse.WriteRequest_Offset req) ->
        is_int (fuse.WriteRequest_Offset req + n) ->
        fuse.WriteResponse_Size (result r).1 = fuse.WriteRequest_Offset req + n).
Proof.
  unfold trace, result. cbn. repeat run_call. cbn.
  destruct x1 as [fi|e]; cbn; repeat run_call; cbn; [|intros [=]].
  destruct x1 as [fd|e]; cbn; repeat run_call; cbn; [|intros [=]].
  destruct x1 as [n [e|]]; cbn; repeat run_call; cbn; [intros [=]|].
  destruct x1 as [e|]; cbn; repeat run_call; cbn; [intros [=]|].
  intros _. exists fi, fd, n. repeat split.
  intros Hoff Hsum. rewrite (wrap_int_is_int _ Hoff). apply wrap_int_is_int. exact Hsum.
Qed.

Lemma C7_Write_witness :
  let req := {| fuse.WriteRequest_Offset := 1; fuse.WriteRequest_Data := [x78; x79];
                fuse.WriteRequest_Flags := 0 |} in
  let r := run OS.handle
               (File.Write (NewFile ∅ "/tmp/src/f.txt") 0%nat req {| fuse.WriteResponse_Size := 0 |})
               tmp_src in
  exists (fInfo : os.FileInfo) (file : os.File) (n : Z),
    fs_calls (trace r)
    = [EvStat "/tmp/src/f.txt" (inl fInfo);
       EvOpenFile "/tmp/src/f.txt" (Z.lor 0 os.O_WRONLY) (os.Mode fInfo) (inl file);
       EvWriteAt file [x78; x79] 1 (n, None);
       EvClose file None]
    /\ fuse.WriteResponse_Size (result r).1 = wrap_int (wrap_int 1 + n)
    /\ (is_int 1 -> is_int (1 + n) -> fuse.WriteResponse_Size (result r).1 = 1 + n).
Proof.
  apply (C7_Write_calls_and_size OS.handle tmp_src (NewFile ∅ "/tmp/src/f.txt") 0%nat
           {| fuse.WriteRequest_Offset := 1; fuse.WriteRequest_Data := [x78; x79];
              fuse.WriteRequest_Flags := 0 |}
           {| fuse.WriteResponse_Size := 0 |}).
  vm_compute. reflexivity.
Defined.

(** ** Failing stats *)

(** A failed stat among the first events of an execution that ended as the
    goal says. *)
Ltac stat_failed :=
  let H := fresh "H" in
  intros H; simpl In in H;
  repeat (destruct H as [H|H]; [try discriminate H|]);
  try contradiction; try reflexivity; try (split; reflexivity).

(** C8 (confirmed): whatever the world answers, if an [os.Stat] fails
    during [Attr] of a directory, during [Attr] of a file, or during
    [Lookup] (the stat of the joined child path, or the stat the new node's
    [Attr] makes of it again), with whatever error, the operation returns
    [syscall.ENOENT], and [Lookup] returns no node. *)
Theorem C8_stat_failure_is_ENOENT {S : Type} (h : handler S) (s : S) (ctx : Context)
        (p : string) (e : error) :
  (forall d a,
      In (EvStat p (inr e)) (trace (run h (Dir.Attr d ctx a) s)) ->
      (result (run h (Dir.Attr d ctx a) s)).2 = Some syscall.ENOENT)
  /\ (forall f a,
         In (EvStat p (inr e)) (trace (run h (File.Attr f ctx a) s)) ->
         (result (run h (File.Attr f ctx a) s)).2 = Some syscall.ENOENT)
  /\ (forall d req resp,
         In (EvStat p (inr e)) (trace (run h (Dir.Lookup d ctx req resp) s)) ->
         (result (run h (Dir.Lookup d ctx req resp) s)).1.2 = None
         /\ (result (run h (Dir.Lookup d ctx req resp) s)).2 = Some syscall.ENOENT).
Proof.
  unfold trace, result. split; [|split].
  - intros d a. cbn. repeat run_call. cbn.
    repeat (branch; cbn; repeat run_call; cbn); stat_failed.
  - intros f a. cbn. repeat run_call. cbn.
    repeat (branch; cbn; repeat run_call; cbn); stat_failed.
  - intros d req resp. cbn. repeat run_call. cbn.
    repeat (branch; cbn; repeat run_call; cbn); stat_failed.
Qed.

Lemma C8_stat_failure_witness :
  let gone := NewDirectory ∅ "/tmp/src/gone" in
  let nofile := NewFile ∅ "/tmp/src/gone.txt" in
  let root := NewDirectory ∅ "/tmp/src" in
  let req := {| fuse.LookupRequest_Name := "gone" |} in
  let resp := {| fuse.LookupResponse_Attr := Attr_zero |} in
  let e := PathError "stat" "/tmp/src/gone" 2 in
  (result (run OS.handle (Dir.Attr gone 0%nat Attr_zero) tmp_src)).2 = Some syscall.ENOENT
  /\ (result (run OS.handle (Dir.Lookup root 0%nat req resp) tmp_src)).1.2 = None
  /\ (result (run OS.handle (Dir.Lookup root 0%nat req resp) tmp_src)).2 = Some syscall.ENOENT
  /\ (result (run OS.handle (File.Attr nofile 0%nat Attr_zero) tmp_src)).2 = Some syscall.ENOENT.
Proof.
  intros gone nofile root req resp e.
  pose proof (C8_stat_failure_is_ENOENT OS.handle tmp_src 0%nat "/tmp/src/gone" e)
    as [HAttr [_ HLookup]].
  pose proof (C8_stat_failure_is_ENOENT OS.handle tmp_src 0%nat "/tmp/src/gone.txt"
                (PathError "stat" "/tmp/src/gone.txt" 2))
    as [_ [HFile _]].
  split; [|split; [|split]].
  - apply HAttr. vm_compute. right. right. left. reflexivity.
  - apply (HLookup root req resp). vm_compute. right. right. left. reflexivity.
  - apply (HLookup root req resp). vm_compute. right. right. left. reflexivity.
  - apply HFile. vm_compute. right. right. left. reflexivity.
Defined.

(** ** Write, then ReadAll *)

Arguments OS.resolve : simpl never.
Arguments OS.has_flag : simpl never.
Arguments OS.is_dir : simpl never.
Arguments OS.parent_is_dir : simpl never.
Arguments OS.Stat : simpl never.
Arguments OS.OpenFile : simpl never.
Arguments OS.WriteAt : simpl never.
Arguments OS.Close : simpl never.
Arguments OS.ReadFile : simpl never.

Lemma write_at_0 (data B : list byte) :
  OS.write_at data 0 B = B ++ drop (length B) data.
Proof.
  destruct B as [|b B]; simpl.
  - rewrite drop_0. reflexivity.
  - reflexivity.
Qed.

Lemma resolve_cwd (st st' : OS.state) (name : string) :
  OS.cwd st' = OS.cwd st -> OS.resolve st' name = OS.resolve st name.
Proof.
  unfold OS.resolve. intros ->. reflexivity.
Qed.

(** A flag word or'ed with [O_WRONLY] asks for write access. *)
Lemma has_flag_WRONLY (flag : Z) : OS.has_flag (Z.lor flag os.O_WRONLY) 3 = true.
Proof.
  unfold OS.has_flag, os.O_WRONLY.
  destruct (Z.eqb_spec (Z.land (Z.lor flag 1) 3) 0) as [H0|]; [|reflexivity].
  exfalso.
  assert (Hbit : Z.testbit (Z.land (Z.lor flag 1) 3) 0 = true).
  { rewrite Z.land_spec, Z.lor_spec. simpl. rewrite orb_true_r. reflexivity. }
  rewrite H0 in Hbit. simpl in Hbit. discriminate Hbit.
Qed.

Lemma new_inode_not_dir (ino : Z) (perm : FileMode) (data : list byte) :
  OS.is_dir {| OS.i_ino := ino; OS.i_mode := Z.land perm 511; OS.i_data := data |} = false.
Proof.
  unfold OS.is_dir. simpl OS.i_mode. rewrite Z.land_spec. simpl. apply andb_false_r.
Qed.

(** What a successful [os.OpenFile] has done. *)
Lemma OpenFile_inl (st st1 : OS.state) (name : string) (flag : Z) (perm : FileMode)
      (fd : os.File) :
  OS.OpenFile name flag perm st = (inl fd, st1) ->
  exists path,
    OS.resolve st name = Some path
    /\ OS.cwd st1 = OS.cwd st
    /\ OS.fds st1 !! fd = Some {| OS.of_path := path; OS.of_flag := flag |}
    /\ match OS.tree st !! path with
       | Some i =>
           if OS.is_dir i
           then OS.has_flag flag 3 = false /\ OS.tree st1 = OS.tree st
           else OS.tree st1
                = if OS.has_flag flag os.O_TRUNC
                  then <[path := {| OS.i_ino := OS.i_ino i; OS.i_mode := OS.i_mode i;
                                    OS.i_data := [] |}]> (OS.tree st)
                  else OS.tree st
       | None =>
           exists i, OS.tree st1 = <[path := i]> (OS.tree st)
                     /\ OS.i_data i = [] /\ OS.is_dir i = false
       end.
Proof.
  unfold OS.OpenFile.
  destruct (OS.resolve st name) as [path|]; [|intros [=]].
  intros H. exists path. split; [reflexivity|].
  destruct (OS.tree st !! path) as [i|].
  - destruct (OS.is_dir i).
    + destruct (OS.has_flag flag 3) eqn:Hacc; simpl in H; [discriminate H|].
      destruct (OS.has_flag flag os.O_CREATE); simpl in H; [discriminate H|].
      injection H as <- <-. simpl. rewrite lookup_insert_eq. auto.
    + destruct (OS.has_flag flag os.O_CREATE && OS.has_flag flag os.O_EXCL);
        [discriminate H|].
      destruct (OS.has_flag flag os.O_TRUNC);
        injection H as <- <-; simpl; rewrite lookup_insert_eq; auto.
  - destruct (OS.has_flag flag os.O_CREATE); [|discriminate H].
    destruct (OS.parent_is_dir st path); [discriminate H|].
    simpl in H. injection H as <- <-. simpl. rewrite lookup_insert_eq.
    repeat split; try reflexivity.
    eexists. split; [reflexivity|]. split; [reflexivity|]. apply new_inode_not_dir.
Qed.

Lemma Close_ok (st st1 : OS.state) (fd : os.File) :
  OS.Close fd st = (None, st1) ->
  OS.cwd st1 = OS.cwd st /\ OS.tree st1 = OS.tree st.
Proof.
  unfold OS.Close. destruct (OS.fds st !! fd); intros [= <-]; split; reflexivity.
Qed.

Lemma Stat_state (st st1 : OS.state) (name : string) (r : os.FileInfo + error) :
  OS.Stat name st = (r, st1) -> st1 = st.
Proof.
  unfold OS.Stat.
  destruct (OS.resolve st name) as [path|]; [destruct (OS.tree st !! path)|];
    intros [= _ <-]; reflexivity.
Qed.

(** What a successful [WriteAt] has done. *)
Lemma WriteAt_ok (st st1 : OS.state) (fd : os.File) (b : list byte) (off n : Z) :
  OS.WriteAt fd b off st = ((n, None), st1) ->
  exists o i,
    OS.fds st !! fd = Some o
    /\ OS.tree st !! OS.of_path o = Some i
    /\ OS.cwd st1 = OS.cwd st
    /\ OS.tree st1
       = <[OS.of_path o := {| OS.i_ino := OS.i_ino i; OS.i_mode := OS.i_mode i;
                              OS.i_data := OS.write_at (OS.i_data i) (Z.to_nat off) b |}]>
           (OS.tree st)
    /\ n = Z.of_nat (length b).
Proof.
  unfold OS.WriteAt.
  destruct (OS.fds st !! fd) as [o|] eqn:Hfd; [|intros [=]].
  destruct (Z.ltb off 0); [intros [=]|].
  destruct (OS.has_flag (OS.of_flag o) os.O_APPEND); [intros [=]|].
  destruct (negb _); [intros [=]|].
  destruct (OS.tree st !! OS.of_path o) as [i|] eqn:Hi; [|intros [=]].
  intros [= <- <-]. exists o, i. repeat split; assumption || reflexivity.
Qed.

(** [Create] on a path, then [Write] at offset 0 to the node it returned,
    then [ReadAll] of that node, on the file tree: when [Create] and
    [Write] succeed, [ReadAll] succeeds with the written bytes followed by
    what the file held beyond them when [Write] opened it. *)
Lemma roundtrip_at (st : OS.state) (p : string) (d : dir) (ctx : Context)
      (creq : fuse.CreateRequest) (cresp : fuse.CreateResponse)
      (F : file) (B : list byte) (wflags : Z) :
  let c := run OS.handle (Dir.Create_at p d ctx creq cresp) st in
  let w := run OS.handle (Write0 F ctx B wflags) (final c) in
  let rd := run OS.handle (File.ReadAll F ctx) (final w) in
  (result c).1.1 = Some (NodeFile F) ->
  (result w).2 = None ->
  exists old,
    file_content (final c) (file_path F) = Some old
    /\ result rd
       = (B ++ drop (length B)
                    (if OS.has_flag (Z.lor wflags os.O_WRONLY) os.O_TRUNC then [] else old),
          None)
    /\ (file_content st (file_path F) = None
        \/ OS.has_flag (fuse.CreateRequest_Flags creq) os.O_TRUNC = true ->
        old = []).
Proof.
  unfold result, final, Write0. cbn.
  (* Create *)
  destruct (OS.OpenFile p _ _ st) as [[cfd|cerr] st1] eqn:Hcopen; cbn; [|intros [=]].
  destruct (OS.Close cfd st1) as [[cerr|] st2] eqn:Hcclose; cbn; [intros [=]|].
  intros [= <-]. cbn.
  apply OpenFile_inl in Hcopen as (path & Hres & Hcwd1 & _ & Htree1).
  apply Close_ok in Hcclose as [Hcwd2 Htree2].
  assert (Hres2 : OS.resolve st2 p = Some path).
  { rewrite (resolve_cwd st st2) by congruence. exact Hres. }
  (* Write *)
  destruct (OS.Stat p st2) as [[fInfo|serr] st3] eqn:Hstat; cbn; [|intros [=]].
  apply Stat_state in Hstat as ->.
  destruct (OS.OpenFile p _ _ st2) as [[wfd|werr] st4] eqn:Hwopen; cbn; [|intros [=]].
  destruct (OS.WriteAt wfd B 0 st4) as [[n [werr|]] st5] eqn:Hwrite; cbn; [intros [=]|].
  destruct (OS.Close wfd st5) as [[werr|] st6] eqn:Hwclose; cbn; [intros [=]|].
  intros _.
  apply OpenFile_inl in Hwopen as (path' & Hres' & Hcwd4 & Hfd4 & Htree4).
  rewrite Hres2 in Hres'. injection Hres' as <-.
  apply WriteAt_ok in Hwrite as (o & i4 & Hfd & Hi4 & Hcwd5 & Htree5 & _).
  rewrite Hfd4 in Hfd. injection Hfd as <-. simpl in Hi4, Htree5.
  apply Close_ok in Hwclose as [Hcwd6 Htree6].
  (* the file between Create and Write *)
  destruct (OS.tree st2 !! path) as [i2|] eqn:Hi2.
  2: { destruct Htree4 as (i & Ht & _). (* Write never creates: the path is there *)
       exfalso. rewrite Htree2 in Hi2.
       destruct (OS.tree st !! path) as [i0|] eqn:Hi0.
       - destruct (OS.is_dir i0).
         + destruct Htree1 as [_ Ht1]. rewrite Ht1, Hi0 in Hi2. discriminate Hi2.
         + rewrite Htree1 in Hi2. destruct (OS.has_flag _ os.O_TRUNC).
           * rewrite lookup_insert_eq in Hi2. discriminate Hi2.
           * rewrite Hi0 in Hi2. discriminate Hi2.
       - destruct Htree1 as (i1 & Ht1 & _). rewrite Ht1, lookup_insert_eq in Hi2.
         discriminate Hi2. }
  destruct (OS.is_dir i2) eqn:Hdir2.
  { destruct Htree4 as [Hacc _]. rewrite has_flag_WRONLY in Hacc. discriminate Hacc. }
  exists (OS.i_data i2).
  assert (Hdata4 : OS.i_data i4
                   = (if OS.has_flag (Z.lor wflags os.O_WRONLY) os.O_TRUNC
                      then [] else OS.i_data i2)
                   /\ OS.is_dir i4 = false).
  { rewrite Htree4 in Hi4.
    destruct (OS.has_flag (Z.lor wflags os.O_WRONLY) os.O_TRUNC).
    - rewrite lookup_insert_eq in Hi4. injection Hi4 as <-. split; [reflexivity|].
      exact Hdir2.
    - rewrite Hi2 in Hi4. injection Hi4 as <-. split; [reflexivity|exact Hdir2]. }
  destruct Hdata4 as [Hdata4 Hdir4].
  split; [|split].
  - unfold file_content. rewrite Hres2, Hi2, Hdir2. reflexivity.
  - unfold OS.ReadFile.
    rewrite (resolve_cwd st2 st6) by congruence. rewrite Hres2.
    rewrite Htree6, Htree5, lookup_insert_eq.
    change (OS.is_dir _) with (OS.is_dir i4). rewrite Hdir4. cbn.
    rewrite write_at_0, Hdata4. reflexivity.
  - rewrite Htree2 in Hi2. unfold file_content. rewrite Hres.
    destruct (OS.tree st !! path) as [i0|] eqn:Hi0.
    + destruct (OS.is_dir i0) eqn:Hdir0.
      * destruct Htree1 as [_ Ht1]. rewrite Ht1, Hi0 in Hi2. injection Hi2 as <-.
        congruence.
      * intros [Hnone|Htrunc]; [discriminate Hnone|].
        rewrite Htree1, Htrunc, lookup_insert_eq in Hi2. injection Hi2 as <-. reflexivity.
    + intros _. destruct Htree1 as (i1 & Ht1 & Hd1 & _).
      rewrite Ht1, lookup_insert_eq in Hi2. injection Hi2 as <-. exact Hd1.
Qed.

(** C6 (corrected): for a file node [F] that [Create] returned, if
    [Write(F, offset 0, data B)] succeeds then [ReadAll(F)] succeeds with
    [B] followed by the bytes the file held beyond the first [length B]
    when [Write] opened it (none if [Write]'s flags truncate).  It yields
    exactly [B] when [Create] left the file empty: the file was not there
    before, or [Create]'s flags had [O_TRUNC]. *)
Theorem C6_Write_then_ReadAll (st : OS.state) (d : dir) (ctx : Context)
        (creq : fuse.CreateRequest) (cresp : fuse.CreateResponse)
        (F : file) (B : list byte) (wflags : Z) :
  let c := run OS.handle (Dir.Create d ctx creq cresp) st in
  let w := run OS.handle (Write0 F ctx B wflags) (final c) in
  let rd := run OS.handle (File.ReadAll F ctx) (final w) in
  (result c).1.1 = Some (NodeFile F) ->
  (result w).2 = None ->
  exists old,
    file_content (final c) (file_path F) = Some old
    /\ result rd
       = (B ++ drop (length B)
                    (if OS.has_flag (Z.lor wflags os.O_WRONLY) os.O_TRUNC then [] else old),
          None)
    /\ (file_content st (file_path F) = None
        \/ OS.has_flag (fuse.CreateRequest_Flags creq) os.O_TRUNC = true ->
        result rd = (B, None)).
Proof.
  intros c w rd Hc Hw.
  destruct (roundtrip_at st (fuse.CreateRequest_Name creq) d ctx creq cresp F B wflags Hc Hw)
    as (old & Hold & Hrd & Hempty).
  exists old. split; [exact Hold|]. split; [exact Hrd|].
  intros Hnew. specialize (Hempty Hnew). subst old.
  assert (Hnil : (if OS.has_flag (Z.lor wflags os.O_WRONLY) os.O_TRUNC then [] else [])
                 = ([] : list byte))
    by (destruct (OS.has_flag (Z.lor wflags os.O_WRONLY) os.O_TRUNC); reflexivity).
  rewrite Hnil, drop_nil, app_nil_r in Hrd. exact Hrd.
Qed.

(** The same for [Create] of the second copy of dir.go, which opens the
    joined path. *)
Lemma Write_then_ReadAll_joined (st : OS.state) (d : dir) (ctx : Context)
      (creq : fuse.CreateRequest) (cresp : fuse.CreateResponse)
      (F : file) (B : list byte) (wflags : Z) :
  let c := run OS.handle (Dir2.Create d ctx creq cresp) st in
  let w := run OS.handle (Write0 F ctx B wflags) (final c) in
  let rd := run OS.handle (File.ReadAll F ctx) (final w) in
  (result c).1.1 = Some (NodeFile F) ->
  (result w).2 = None ->
  exists old,
    file_content (final c) (file_path F) = Some old
    /\ result rd
       = (B ++ drop (length B)
                    (if OS.has_flag (Z.lor wflags os.O_WRONLY) os.O_TRUNC then [] else old),
          None)
    /\ (file_content st (file_path F) = None
        \/ OS.has_flag (fuse.CreateRequest_Flags creq) os.O_TRUNC = true ->
        result rd = (B, None)).
Proof.
  intros c w rd Hc Hw.
  destruct (roundtrip_at st (filepath.Join (dir_path d) (fuse.CreateRequest_Name creq))
                         d ctx creq cresp F B wflags Hc Hw)
    as (old & Hold & Hrd & Hempty).
  exists old. split; [exact Hold|]. split; [exact Hrd|].
  intros Hnew. specialize (Hempty Hnew). subst old.
  assert (Hnil : (if OS.has_flag (Z.lor wflags os.O_WRONLY) os.O_TRUNC then [] else [])
                 = ([] : list byte))
    by (destruct (OS.has_flag (Z.lor wflags os.O_WRONLY) os.O_TRUNC); reflexivity).
  rewrite Hnil, drop_nil, app_nil_r in Hrd. exact Hrd.
Qed.

Lemma C6_Write_then_ReadAll_witness :
  let d := NewDirectory ∅ "/tmp/src" in
  let creq := {| fuse.CreateRequest_Name := "new.txt";
                 fuse.CreateRequest_Flags := Z.lor os.O_CREATE os.O_WRONLY;
                 fuse.CreateRequest_Mode := 420 |} in
  let F := NewFile ∅ "new.txt" in
  let c := run OS.handle (Dir.Create d 0%nat creq {| fuse.CreateResponse_Attr := Attr_zero |})
               in_tmp_src in
  let w := run OS.handle (Write0 F 0%nat [x68; x69] 0) (final c) in
  let rd := run OS.handle (File.ReadAll F 0%nat) (final w) in
  exists old,
    file_content (final c) "new.txt" = Some old
    /\ result rd
       = ([x68; x69] ++ drop 2 (if OS.has_flag (Z.lor 0 os.O_WRONLY) os.O_TRUNC then [] else old),
          None)
    /\ (file_content in_tmp_src "new.txt" = None
        \/ OS.has_flag (Z.lor os.O_CREATE os.O_WRONLY) os.O_TRUNC = true ->
        result rd = ([x68; x69], None)).
Proof.
  apply (C6_Write_then_ReadAll in_tmp_src (NewDirectory ∅ "/tmp/src") 0%nat
           {| fuse.CreateRequest_Name := "new.txt";
              fuse.CreateRequest_Flags := Z.lor os.O_CREATE os.O_WRONLY;
              fuse.CreateRequest_Mode := 420 |}
           {| fuse.CreateResponse_Attr := Attr_zero |}
           (NewFile ∅ "new.txt") [x68; x69] 0).
  - vm_compute. reflexivity.
  - vm_compute. reflexivity.
Defined.

(** The round trip of the specification fails on a file that is there
    already: [Create]
    of [f.txt], which holds ["hello"], without [O_TRUNC]; [Write] of ["x"]
    at offset 0 succeeds; [ReadAll] yields ["xello"], not ["x"]. *)
Lemma C6_roundtrip_counterexample :
  let d := NewDirectory ∅ "/tmp/src" in
  let creq := {| fuse.CreateRequest_Name := "f.txt";
                 fuse.CreateRequest_Flags := Z.lor os.O_CREATE os.O_RDWR;
                 fuse.CreateRequest_Mode := 420 |} in
  let F := NewFile ∅ "f.txt" in
  let c := run OS.handle (Dir.Create d 0%nat creq {| fuse.CreateResponse_Attr := Attr_zero |})
               in_tmp_src in
  let w := run OS.handle (Write0 F 0%nat [x78] 0) (final c) in
  let rd := run OS.handle (File.ReadAll F 0%nat) (final w) in
  result c = (Some (NodeFile F), Some (NodeFile F), None)
  /\ result w = ({| fuse.WriteResponse_Size := 1 |}, None)
  /\ result rd = ([x78; x65; x6c; x6c; x6f], None)
  /\ result rd <> ([x78], None).
Proof.
  repeat split; try (vm_compute; reflexivity).
  vm_compute. intros H. discriminate H.
Qed.

(** ** Handle *)

Lemma weight_app (f : Hooks.goroutine -> nat) (l1 l2 : list Hooks.goroutine) :
  weight f (l1 ++ l2) = (weight f l1 + weight f l2)%nat.
Proof.
  apply sum_list_with_app.
Qed.

Lemma weight_insert (f : Hooks.goroutine -> nat) (l : list Hooks.goroutine) :
  forall (j : nat) (g g' : Hooks.goroutine),
    l !! j = Some g ->
    (weight f (<[j := g']> l) + f g = weight f l + f g')%nat.
Proof.
  unfold weight.
  induction l as [|x l IH]; intros [|j] g g' Hj; simpl in *; try discriminate.
  - injection Hj as ->. lia.
  - specialize (IH j g g' Hj). lia.
Qed.

Lemma weight_alive_zero (l : list Hooks.goroutine) :
  weight alive l = 0%nat -> Forall (fun g => Hooks.exited g = true) l.
Proof.
  unfold weight.
  induction l as [|g l IH]; simpl; intros H.
  - constructor.
  - destruct g; simpl in H; try discriminate H.
    constructor; [reflexivity|]. apply IH. exact H.
Qed.

Lemma weight_all_exited (f : Hooks.goroutine -> nat) (l : list Hooks.goroutine) :
  (forall x, f (Hooks.Exited x) = 1%nat) ->
  Forall (fun g => Hooks.exited g = true) l ->
  weight f l = length l.
Proof.
  unfold weight. intros Hf.
  induction 1 as [|g l Hg _ IH]; simpl.
  - reflexivity.
  - destruct g; try discriminate Hg. rewrite Hf, IH. reflexivity.
Qed.

(** The test for the early return is the emptiness of the list the loop
    would range over. *)
Lemma nothing_to_run_fns (hh : HookHandler) (event : string) :
  Hooks.nothing_to_run hh event = true -> Hooks.Handle_fns hh event = [].
Proof.
  unfold Hooks.nothing_to_run, Hooks.Handle_fns, HookHandler in *.
  rewrite (lookup_total_alt hh event).
  destruct (hh !! event) as [fns|]; simpl.
  - rewrite andb_true_iff, !bool_decide_eq_true.
    intros [H1 H2].
    apply length_zero_iff_nil in H1. apply length_zero_iff_nil in H2.
    rewrite H1, H2. reflexivity.
  - rewrite bool_decide_eq_true. intros H2.
    apply length_zero_iff_nil in H2. rewrite H2. reflexivity.
Qed.

Lemma counted_start (hh : HookHandler) (event : string) :
  counted (Hooks.Handle_start hh event).
Proof.
  unfold counted, Hooks.Handle_start. simpl.
  repeat split.
  destruct (Hooks.nothing_to_run hh event) eqn:Hn.
  - rewrite (nothing_to_run_fns _ _ Hn). split; reflexivity.
  - split; [reflexivity|lia].
Qed.

Lemma counted_step (sem : Hooks.loopvar) (cost : HookFN -> nat) (c : Hooks.choice)
      (m m' : Hooks.machine) :
  counted m -> Hooks.step sem cost c m = Some m' -> counted m'.
Proof.
  unfold counted. intros (Hwg & Hcalls & Hdone & Hmain) Hstep.
  destruct c as [|j]; simpl in Hstep.
  - unfold Hooks.step_main in Hstep.
    destruct (Hooks.main m) as [i| |] eqn:Hpc; [| |discriminate Hstep].
    + destruct Hmain as [Hlen Hle].
      destruct (Hooks.fns m !! i) as [f|] eqn:Hf; injection Hstep as <-; simpl.
      * rewrite !weight_app, length_app. simpl.
        apply lookup_lt_Some in Hf. unfold weight in *. simpl.
        repeat split; lia.
      * apply lookup_ge_None in Hf. repeat split; try assumption. lia.
    + destruct (Hooks.wg m) eqn:Hz; [|discriminate Hstep].
      injection Hstep as <-. simpl. destruct Hmain. repeat split; assumption.
  - unfold Hooks.step_go in Hstep.
    destruct (Hooks.pool m !! j) as [g|] eqn:Hj; [|discriminate Hstep].
    pose proof (fun f g' => weight_insert f (Hooks.pool m) j g g' Hj) as Hw.
    unfold weight in *.
    assert (Hmain' : forall (p : list Hooks.goroutine) (wg' : nat),
               (Hooks.main m = Hooks.Returned -> wg' = 0%nat) ->
               length p = length (Hooks.pool m) ->
               match Hooks.main m with
               | Hooks.Loop i => length p = i /\ (i <= length (Hooks.fns m))%nat
               | Hooks.Wait => length p = length (Hooks.fns m)
               | Hooks.Returned => length p = length (Hooks.fns m) /\ wg' = 0%nat
               end).
    { intros p wg' Hz Hp. destruct (Hooks.main m); rewrite Hp; try assumption.
      destruct Hmain as [? ?]. split; [assumption|]. apply Hz. reflexivity. }
    assert (Hret : Hooks.main m = Hooks.Returned -> Hooks.wg m = 0%nat).
    { intros Hr. rewrite Hr in Hmain. apply Hmain. }
    destruct g as [c|f [|k]|f|f].
    + destruct (Hooks.cells m !! c) as [f|]; [|discriminate Hstep].
      injection Hstep as <-. simpl.
      pose proof (Hw alive (Hooks.Running f (cost f))) as H1.
      pose proof (Hw called (Hooks.Running f (cost f))) as H2.
      pose proof (Hw returned (Hooks.Running f (cost f))) as H3.
      simpl in H1, H2, H3. rewrite length_app. simpl.
      repeat split; try lia.
      apply Hmain'; [exact Hret|apply length_insert].
    + injection Hstep as <-. simpl.
      pose proof (Hw alive (Hooks.Back f)) as H1.
      pose proof (Hw called (Hooks.Back f)) as H2.
      pose proof (Hw returned (Hooks.Back f)) as H3.
      simpl in H1, H2, H3. rewrite length_app. simpl.
      repeat split; try lia.
      apply Hmain'; [exact Hret|apply length_insert].
    + injection Hstep as <-. simpl.
      pose proof (Hw alive (Hooks.Running f k)) as H1.
      pose proof (Hw called (Hooks.Running f k)) as H2.
      pose proof (Hw returned (Hooks.Running f k)) as H3.
      simpl in H1, H2, H3.
      repeat split; try lia.
      apply Hmain'; [exact Hret|apply length_insert].
    + destruct (Hooks.wg m) as [|n] eqn:Hn; [discriminate Hstep|].
      injection Hstep as <-. simpl.
      pose proof (Hw alive (Hooks.Exited f)) as H1.
      pose proof (Hw called (Hooks.Exited f)) as H2.
      pose proof (Hw returned (Hooks.Exited f)) as H3.
      simpl in H1, H2, H3.
      repeat split; try lia.
      apply Hmain'; [|apply length_insert].
      intros Hr. specialize (Hret Hr). discriminate Hret.
    + discriminate Hstep.
Qed.

Lemma counted_exec (sem : Hooks.loopvar) (cost : HookFN -> nat) (sched : list Hooks.choice) :
  forall m m' : Hooks.machine,
    counted m -> Hooks.exec sem cost sched m = Some m' -> counted m'.
Proof.
  induction sched as [|c sched IH]; intros m m' Hm Hexec; simpl in Hexec.
  - injection Hexec as <-. exact Hm.
  - destruct (Hooks.step sem cost c m) as [m1|] eqn:Hstep; [|discriminate Hexec].
    apply (IH m1 m'); [|exact Hexec].
    apply (counted_step sem cost c m m1 Hm Hstep).
Qed.

Lemma exec_fns (sem : Hooks.loopvar) (cost : HookFN -> nat) (sched : list Hooks.choice) :
  forall m m' : Hooks.machine,
    Hooks.exec sem cost sched m = Some m' -> Hooks.fns m' = Hooks.fns m.
Proof.
  induction sched as [|c sched IH]; intros m m' Hexec; simpl in Hexec.
  - injection Hexec as <-. reflexivity.
  - destruct (Hooks.step sem cost c m) as [m1|] eqn:Hstep; [|discriminate Hexec].
    rewrite (IH m1 m' Hexec).
    destruct c as [|j]; simpl in Hstep.
    + unfold Hooks.step_main in Hstep.
      repeat case_match; simplify_eq; reflexivity.
    + unfold Hooks.step_go in Hstep.
      repeat case_match; simplify_eq; reflexivity.
Qed.

(** The barrier, under either rule for the loop variable and for every
    schedule and every duration of the callbacks: when [Handle] has
    returned, it has launched one goroutine per subscriber (those of the
    event, then those of ["*"]), every goroutine has called a callback,
    has seen it return and has left through [wg.Done()]. *)
Lemma Handle_waits_for_all (sem : Hooks.loopvar) (cost : HookFN -> nat)
      (hh : HookHandler) (event : string) (sched : list Hooks.choice) (m : Hooks.machine) :
  Hooks.exec sem cost sched (Hooks.Handle_start hh event) = Some m ->
  Hooks.main m = Hooks.Returned ->
  length (Hooks.pool m) = length (Hooks.Handle_fns hh event)
  /\ Forall (fun g => Hooks.exited g = true) (Hooks.pool m)
  /\ length (Hooks.calls m) = length (Hooks.Handle_fns hh event)
  /\ length (Hooks.completed m) = length (Hooks.Handle_fns hh event).
Proof.
  intros Hexec Hret.
  pose proof (counted_exec sem cost sched _ _ (counted_start hh event) Hexec)
    as (Hwg & Hcalls & Hdone & Hmain).
  pose proof (exec_fns sem cost sched _ _ Hexec) as Hfns. simpl in Hfns.
  rewrite Hret in Hmain. destruct Hmain as [Hlen Hzero].
  rewrite Hzero in Hwg. symmetry in Hwg. apply weight_alive_zero in Hwg.
  rewrite Hfns in Hlen.
  repeat split; try assumption.
  - rewrite Hcalls, (weight_all_exited called) by (auto || reflexivity). exact Hlen.
  - rewrite Hdone, (weight_all_exited returned) by (auto || reflexivity). exact Hlen.
Qed.

Lemma called_fns_app (l1 l2 : list Hooks.goroutine) :
  called_fns (l1 ++ l2) = called_fns l1 ++ called_fns l2.
Proof.
  unfold called_fns. apply omap_app.
Qed.

(** A goroutine that enters its callback adds that callback to those
    called. *)
Lemma called_fns_enter (l : list Hooks.goroutine) :
  forall (j c : nat) (g' : Hooks.goroutine) (f : HookFN),
    l !! j = Some (Hooks.Launched c) ->
    fn_of g' = Some f ->
    called_fns (<[j := g']> l) ≡ₚ f :: called_fns l.
Proof.
  unfold called_fns.
  induction l as [|x l IH]; intros [|j] c g' f Hj Hg'; simpl in *; try discriminate.
  - injection Hj as ->. simpl. rewrite Hg'. reflexivity.
  - specialize (IH j c g' f Hj Hg').
    destruct (fn_of x); simpl.
    + rewrite IH. apply Permutation_swap.
    + exact IH.
Qed.

Lemma called_fns_same (l : list Hooks.goroutine) :
  forall (j : nat) (g g' : Hooks.goroutine),
    l !! j = Some g ->
    fn_of g' = fn_of g ->
    called_fns (<[j := g']> l) = called_fns l.
Proof.
  unfold called_fns.
  induction l as [|x l IH]; intros [|j] g g' Hj Hg'; simpl in *; try discriminate.
  - injection Hj as ->. rewrite Hg'. reflexivity.
  - specialize (IH j g g' Hj Hg').
    destruct (fn_of x); simpl; [f_equal|]; exact IH.
Qed.

(** When every goroutine has called the callback at its own index, the
    callbacks called are the subscribers, in order. *)
Lemma called_fns_all (l : list Hooks.goroutine) :
  forall fns : list HookFN,
    length l = length fns ->
    (forall j g, l !! j = Some g -> is_Some (fn_of g) /\ fn_of g = fns !! j) ->
    called_fns l = fns.
Proof.
  unfold called_fns.
  induction l as [|g l IH]; intros [|f fns] Hlen Hall; simpl in *; try discriminate.
  - reflexivity.
  - destruct (Hall 0%nat g eq_refl) as [_ Hg]. simpl in Hg. rewrite Hg. simpl.
    f_equal. apply IH.
    + lia.
    + intros j g' Hj. apply (Hall (S j) g' Hj).
Qed.

Lemma own_variable_start (hh : HookHandler) (event : string) :
  own_variable (Hooks.Handle_start hh event).
Proof.
  unfold own_variable, Hooks.Handle_start. simpl.
  split; [|split; [|split]].
  - intros j g Hj. rewrite lookup_nil in Hj. discriminate Hj.
  - intros j Hj. simpl in Hj. lia.
  - reflexivity.
  - destruct (Hooks.nothing_to_run hh event); reflexivity || exact I.
Qed.

Lemma own_variable_step (cost : HookFN -> nat) (c : Hooks.choice) (m m' : Hooks.machine) :
  own_variable m -> Hooks.step Hooks.PerIteration cost c m = Some m' -> own_variable m'.
Proof.
  unfold own_variable. intros (Hpool & Hfns & Hcalls & Hmain) Hstep.
  destruct c as [|j]; simpl in Hstep.
  - unfold Hooks.step_main in Hstep.
    destruct (Hooks.main m) as [i| |] eqn:Hpc; [| |discriminate Hstep].
    + destruct (Hooks.fns m !! i) as [f|] eqn:Hf; injection Hstep as <-; simpl.
      * split; [|split; [|split]].
        -- intros j g Hj.
           destruct (decide (j < length (Hooks.pool m))%nat) as [Hlt|Hge].
           ++ rewrite lookup_app_l in Hj by exact Hlt.
              specialize (Hpool j g Hj). destruct g; try exact Hpool.
              destruct Hpool as [-> Hcell]. split; [reflexivity|].
              rewrite lookup_insert_ne by lia. exact Hcell.
           ++ rewrite lookup_app_r in Hj by lia.
              destruct (j - length (Hooks.pool m))%nat as [|k] eqn:Hk; [|discriminate Hj].
              injection Hj as <-. assert (j = i) as -> by lia.
              split; [reflexivity|]. rewrite lookup_insert_eq. symmetry. exact Hf.
        -- intros j Hj. rewrite length_app in Hj. simpl in Hj.
           destruct (decide (j < length (Hooks.pool m))%nat) as [Hlt|Hge].
           ++ apply Hfns. exact Hlt.
           ++ assert (j = i) as -> by lia. rewrite Hf. eexists. reflexivity.
        -- rewrite called_fns_app. simpl. rewrite app_nil_r. exact Hcalls.
        -- rewrite length_app. simpl. lia.
      * split; [|split; [|split]]; solve [assumption|exact I].
    + destruct (Hooks.wg m); [|discriminate Hstep].
      injection Hstep as <-. simpl.
      split; [|split; [|split]]; solve [assumption|exact I].
  - unfold Hooks.step_go in Hstep.
    destruct (Hooks.pool m !! j) as [g|] eqn:Hj; [|discriminate Hstep].
    pose proof (Hpool j g Hj) as Hg.
    assert (Hother : forall (g' : Hooks.goroutine) (cells : gmap nat HookFN),
               cells = Hooks.cells m ->
               fn_of g' = Hooks.fns m !! j ->
               is_Some (fn_of g') ->
               forall j0 g0, <[j := g']> (Hooks.pool m) !! j0 = Some g0 ->
                             match g0 with
                             | Hooks.Launched c0 => c0 = j0 /\ cells !! j0 = Hooks.fns m !! j0
                             | _ => fn_of g0 = Hooks.fns m !! j0
                             end).
    { intros g' cells -> Hg' Hsome j0 g0 Hj0.
      destruct (decide (j0 = j)) as [->|Hne].
      - rewrite list_lookup_insert_eq in Hj0 by (eapply lookup_lt_Some; exact Hj).
        injection Hj0 as <-. destruct g'; try exact Hg'.
        destruct Hsome as [? Hs]. discriminate Hs.
      - rewrite list_lookup_insert_ne in Hj0 by congruence.
        apply Hpool. exact Hj0. }
    assert (Hlen : forall g' : Hooks.goroutine,
               forall j0, (j0 < length (<[j := g']> (Hooks.pool m)))%nat ->
                          is_Some (Hooks.fns m !! j0)).
    { intros g' j0. rewrite length_insert. apply Hfns. }
    assert (Hmain' : forall g' : Hooks.goroutine,
               match Hooks.main m with
               | Hooks.Loop i => length (<[j := g']> (Hooks.pool m)) = i
               | _ => True
               end).
    { intros g'. rewrite length_insert. exact Hmain. }
    destruct g as [c|f [|k]|f|f].
    + destruct Hg as [-> Hcell].
      destruct (Hooks.cells m !! j) as [f|] eqn:Hc; [|discriminate Hstep].
      injection Hstep as <-. simpl.
      split; [|split; [|split]].
      * apply Hother; [reflexivity|simpl; congruence|eexists; reflexivity].
      * apply Hlen.
      * rewrite (called_fns_enter _ j j (Hooks.Running f (cost f)) f Hj eq_refl).
        rewrite <- Hcalls. symmetry. apply Permutation_cons_append.
      * apply Hmain'.
    + injection Hstep as <-. simpl.
      split; [|split; [|split]].
      * apply Hother; [reflexivity|exact Hg|eexists; reflexivity].
      * apply Hlen.
      * rewrite (called_fns_same _ j _ (Hooks.Back f) Hj eq_refl). exact Hcalls.
      * apply Hmain'.
    + injection Hstep as <-. simpl.
      split; [|split; [|split]].
      * apply Hother; [reflexivity|exact Hg|eexists; reflexivity].
      * apply Hlen.
      * rewrite (called_fns_same _ j _ (Hooks.Running f k) Hj eq_refl). exact Hcalls.
      * apply Hmain'.
    + destruct (Hooks.wg m); [discriminate Hstep|].
      injection Hstep as <-. simpl.
      split; [|split; [|split]].
      * apply Hother; [reflexivity|exact Hg|eexists; reflexivity].
      * apply Hlen.
      * rewrite (called_fns_same _ j _ (Hooks.Exited f) Hj eq_refl). exact Hcalls.
      * apply Hmain'.
    + discriminate Hstep.
Qed.

Lemma own_variable_exec (cost : HookFN -> nat) (sched : list Hooks.choice) :
  forall m m' : Hooks.machine,
    own_variable m -> Hooks.exec Hooks.PerIteration cost sched m = Some m' -> own_variable m'.
Proof.
  induction sched as [|c sched IH]; intros m m' Hm Hexec; simpl in Hexec.
  - injection Hexec as <-. exact Hm.
  - destruct (Hooks.step Hooks.PerIteration cost c m) as [m1|] eqn:Hstep;
      [|discriminate Hexec].
    apply (IH m1 m'); [|exact Hexec].
    apply (own_variable_step cost c m m1 Hm Hstep).
Qed.

(** With a loop variable per iteration (Go 1.22 on), for every schedule
    and every duration of the callbacks: when [Handle] has returned, the
    callbacks called are the subscribers of the event followed by those of
    ["*"], each as often as it is subscribed, in some order. *)
Lemma Handle_calls_each_once_per_iteration (cost : HookFN -> nat)
      (hh : HookHandler) (event : string) (sched : list Hooks.choice) (m : Hooks.machine) :
  Hooks.exec Hooks.PerIteration cost sched (Hooks.Handle_start hh event) = Some m ->
  Hooks.main m = Hooks.Returned ->
  Hooks.calls m ≡ₚ Hooks.Handle_fns hh event.
Proof.
  intros Hexec Hret.
  destruct (Handle_waits_for_all _ cost hh event sched m Hexec Hret)
    as (Hlen & Hexited & _ & _).
  pose proof (own_variable_exec cost sched _ _ (own_variable_start hh event) Hexec)
    as (Hpool & _ & Hcalls & _).
  pose proof (exec_fns _ cost sched _ _ Hexec) as Hfns. simpl in Hfns.
  rewrite Hcalls. rewrite Hfns in Hpool.
  rewrite (called_fns_all (Hooks.pool m) (Hooks.Handle_fns hh event)); [reflexivity|exact Hlen|].
  intros j g Hj.
  rewrite Forall_lookup in Hexited. specialize (Hexited j g Hj).
  specialize (Hpool j g Hj).
  destruct g; try discriminate Hexited.
  split; [eexists; reflexivity|exact Hpool].
Qed.

(** *** [Handle] returns *)

Lemma exec_app (sem : Hooks.loopvar) (cost : HookFN -> nat) (s1 s2 : list Hooks.choice) :
  forall m m1 : Hooks.machine,
    Hooks.exec sem cost s1 m = Some m1 ->
    Hooks.exec sem cost (s1 ++ s2) m = Hooks.exec sem cost s2 m1.
Proof.
  induction s1 as [|c s1 IH]; intros m m1 H; simpl in *.
  - injection H as <-. reflexivity.
  - destruct (Hooks.step sem cost c m) as [m'|]; [|discriminate H].
    apply IH. exact H.
Qed.

Lemma exec_cons (sem : Hooks.loopvar) (cost : HookFN -> nat) (c : Hooks.choice)
      (sched : list Hooks.choice) (m m1 : Hooks.machine) :
  Hooks.step sem cost c m = Some m1 ->
  Hooks.exec sem cost (c :: sched) m = Hooks.exec sem cost sched m1.
Proof.
  intros H. simpl. rewrite H. reflexivity.
Qed.

Lemma cells_assigned_step (sem : Hooks.loopvar) (cost : HookFN -> nat) (c : Hooks.choice)
      (m m' : Hooks.machine) :
  cells_assigned m -> Hooks.step sem cost c m = Some m' -> cells_assigned m'.
Proof.
  unfold cells_assigned. intros Hm Hstep.
  destruct c as [|j]; simpl in Hstep.
  - unfold Hooks.step_main in Hstep.
    destruct (Hooks.main m) as [i| |]; [| |discriminate Hstep].
    + destruct (Hooks.fns m !! i) as [f|]; injection Hstep as <-; simpl; [|exact Hm].
      intros j c Hj.
      destruct (decide (c = Hooks.cell_of sem i)) as [->|Hne].
      * rewrite lookup_insert_eq. eexists. reflexivity.
      * rewrite lookup_insert_ne by congruence.
        destruct (decide (j < length (Hooks.pool m))%nat) as [Hlt|Hge].
        -- rewrite lookup_app_l in Hj by exact Hlt. apply (Hm j c Hj).
        -- rewrite lookup_app_r in Hj by lia.
           destruct (j - length (Hooks.pool m))%nat; [|discriminate Hj].
           injection Hj as Hc. congruence.
    + destruct (Hooks.wg m); [|discriminate Hstep].
      injection Hstep as <-. exact Hm.
  - unfold Hooks.step_go in Hstep.
    destruct (Hooks.pool m !! j) as [g|] eqn:Hj; [|discriminate Hstep].
    assert (Hins : forall g' : Hooks.goroutine,
               (forall c, g' <> Hooks.Launched c) ->
               forall j0 c, <[j := g']> (Hooks.pool m) !! j0 = Some (Hooks.Launched c) ->
                            is_Some (Hooks.cells m !! c)).
    { intros g' Hg' j0 c Hj0.
      destruct (decide (j0 = j)) as [->|Hne].
      - rewrite list_lookup_insert_eq in Hj0 by (eapply lookup_lt_Some; exact Hj).
        injection Hj0 as ->. exfalso. apply (Hg' c). reflexivity.
      - rewrite list_lookup_insert_ne in Hj0 by congruence. apply (Hm j0 c Hj0). }
    destruct g as [c|f [|k]|f|f].
    + destruct (Hooks.cells m !! c); [|discriminate Hstep].
      injection Hstep as <-. simpl. apply Hins. discriminate.
    + injection Hstep as <-. simpl. apply Hins. discriminate.
    + injection Hstep as <-. simpl. apply Hins. discriminate.
    + destruct (Hooks.wg m); [discriminate Hstep|].
      injection Hstep as <-. simpl. apply Hins. discriminate.
    + discriminate Hstep.
Qed.

(** The loop runs to its end when it is given the steps. *)
Lemma loop_reaches_Wait (sem : Hooks.loopvar) (cost : HookFN -> nat) (k : nat) :
  forall (m : Hooks.machine) (i : nat),
    counted m -> cells_assigned m ->
    Hooks.main m = Hooks.Loop i ->
    (length (Hooks.fns m) - i <= k)%nat ->
    exists sched m',
      Hooks.exec sem cost sched m = Some m'
      /\ counted m' /\ cells_assigned m' /\ Hooks.main m' = Hooks.Wait.
Proof.
  induction k as [|k IH]; intros m i Hc Ha Hpc Hk.
  - exists [Hooks.Main].
    destruct (Hooks.step sem cost Hooks.Main m) as [m'|] eqn:Hstep.
    + exists m'. rewrite (exec_cons _ _ _ _ _ _ Hstep).
      split; [reflexivity|].
      split; [apply (counted_step _ _ _ _ _ Hc Hstep)|].
      split; [apply (cells_assigned_step _ _ _ _ _ Ha Hstep)|].
      simpl in Hstep. unfold Hooks.step_main in Hstep. rewrite Hpc in Hstep.
      destruct (Hooks.fns m !! i) eqn:Hf; injection Hstep as <-; [|reflexivity].
      apply lookup_lt_Some in Hf. lia.
    + simpl in Hstep. unfold Hooks.step_main in Hstep. rewrite Hpc in Hstep.
      destruct (Hooks.fns m !! i); discriminate Hstep.
  - destruct (Hooks.step sem cost Hooks.Main m) as [m1|] eqn:Hstep.
    + pose proof (counted_step _ _ _ _ _ Hc Hstep) as Hc1.
      pose proof (cells_assigned_step _ _ _ _ _ Ha Hstep) as Ha1.
      pose proof Hstep as Hstep'.
      simpl in Hstep'. unfold Hooks.step_main in Hstep'. rewrite Hpc in Hstep'.
      destruct (Hooks.fns m !! i) eqn:Hf; injection Hstep' as Hm1.
      * destruct (IH m1 (S i) Hc1 Ha1) as (sched & m' & Hexec & H').
        -- rewrite <- Hm1. reflexivity.
        -- rewrite <- Hm1. simpl. lia.
        -- exists (Hooks.Main :: sched), m'. rewrite (exec_cons _ _ _ _ _ _ Hstep).
           split; assumption.
      * exists [Hooks.Main], m1. rewrite (exec_cons _ _ _ _ _ _ Hstep).
        split; [reflexivity|]. split; [exact Hc1|]. split; [exact Ha1|].
        rewrite <- Hm1. reflexivity.
    + simpl in Hstep. unfold Hooks.step_main in Hstep. rewrite Hpc in Hstep.
      destruct (Hooks.fns m !! i); discriminate Hstep.
Qed.

(** A goroutine that has not left can take a step, and that step leaves
    fewer steps to take. *)
Lemma goroutine_steps (sem : Hooks.loopvar) (cost : HookFN -> nat)
      (m : Hooks.machine) (j : nat) (g : Hooks.goroutine) :
  counted m -> cells_assigned m ->
  Hooks.pool m !! j = Some g -> Hooks.exited g = false ->
  exists m',
    Hooks.step sem cost (Hooks.Go j) m = Some m'
    /\ Hooks.main m' = Hooks.main m
    /\ (weight (steps_left cost (Hooks.cells m')) (Hooks.pool m')
        < weight (steps_left cost (Hooks.cells m)) (Hooks.pool m))%nat.
Proof.
  intros (Hwg & _) Ha Hj Hg.
  pose proof (fun g' => weight_insert (steps_left cost (Hooks.cells m)) (Hooks.pool m) j g g' Hj)
    as Hw.
  pose proof (weight_insert alive (Hooks.pool m) j g g Hj) as Halive.
  assert (Hpos : (1 <= Hooks.wg m)%nat).
  { rewrite Hwg. clear - Hj Hg. revert j Hj.
    unfold weight. induction (Hooks.pool m) as [|x l IH]; intros [|j] Hj; simpl in *;
      try discriminate.
    - injection Hj as ->. destruct g; simpl in *; try discriminate; lia.
    - specialize (IH j Hj). lia. }
  simpl. unfold Hooks.step_go. rewrite Hj.
  destruct g as [c|f [|k]|f|f]; try discriminate Hg.
  - destruct (Ha j c Hj) as [f Hc]. rewrite Hc.
    eexists. split; [reflexivity|]. split; [reflexivity|]. simpl.
    specialize (Hw (Hooks.Running f (cost f))). simpl in Hw. rewrite Hc in Hw. lia.
  - eexists. split; [reflexivity|]. split; [reflexivity|]. simpl.
    specialize (Hw (Hooks.Back f)). simpl in Hw. lia.
  - eexists. split; [reflexivity|]. split; [reflexivity|]. simpl.
    specialize (Hw (Hooks.Running f k)). simpl in Hw. lia.
  - destruct (Hooks.wg m) as [|n]; [lia|].
    eexists. split; [reflexivity|]. split; [reflexivity|]. simpl.
    specialize (Hw (Hooks.Exited f)). simpl in Hw. lia.
Qed.

Lemma some_goroutine_alive (l : list Hooks.goroutine) :
  weight alive l <> 0%nat ->
  exists j g, l !! j = Some g /\ Hooks.exited g = false.
Proof.
  unfold weight. induction l as [|x l IH]; simpl; intros H.
  - contradiction.
  - destruct (Hooks.exited x) eqn:Hx.
    + destruct x; try discriminate Hx. simpl in H.
      destruct (IH H) as (j & g & Hj & Hg). exists (S j), g. split; assumption.
    + exists 0%nat, x. split; [reflexivity|exact Hx].
Qed.

(** Once the loop is over, the goroutines run to their ends and [Handle]
    returns, when they are given the steps. *)
Lemma Wait_reaches_Returned (sem : Hooks.loopvar) (cost : HookFN -> nat) (n : nat) :
  forall m : Hooks.machine,
    counted m -> cells_assigned m ->
    Hooks.main m = Hooks.Wait ->
    (weight (steps_left cost (Hooks.cells m)) (Hooks.pool m) <= n)%nat ->
    exists sched m',
      Hooks.exec sem cost sched m = Some m' /\ Hooks.main m' = Hooks.Returned.
Proof.
  induction n as [|n IH]; intros m Hc Ha Hpc Hn;
    (destruct (decide (weight alive (Hooks.pool m) = 0%nat)) as [Hz|Hnz];
     [ exists [Hooks.Main]; simpl; unfold Hooks.step_main; rewrite Hpc;
       destruct Hc as (Hwg & _); rewrite Hwg, Hz; eexists; split; reflexivity
     | destruct (some_goroutine_alive _ Hnz) as (j & g & Hj & Hg);
       destruct (goroutine_steps sem cost m j g Hc Ha Hj Hg) as (m1 & Hstep & Hpc1 & Hlt) ]).
  - lia.
  - destruct (IH m1) as (sched & m' & Hexec & Hret).
    + apply (counted_step _ _ _ _ _ Hc Hstep).
    + apply (cells_assigned_step _ _ _ _ _ Ha Hstep).
    + rewrite Hpc1. exact Hpc.
    + lia.
    + exists (Hooks.Go j :: sched), m'. rewrite (exec_cons _ _ _ _ _ _ Hstep).
      split; assumption.
Qed.

(** [Handle] can always return: for every registry, event, duration of
    the callbacks and rule for the loop variable there is a schedule that
    takes it to its return. *)
Lemma Handle_can_return (sem : Hooks.loopvar) (cost : HookFN -> nat)
      (hh : HookHandler) (event : string) :
  exists sched m,
    Hooks.exec sem cost sched (Hooks.Handle_start hh event) = Some m
    /\ Hooks.main m = Hooks.Returned.
Proof.
  pose proof (counted_start hh event) as Hc.
  assert (Ha : cells_assigned (Hooks.Handle_start hh event)).
  { intros j c Hj. simpl in Hj. rewrite lookup_nil in Hj. discriminate Hj. }
  destruct (Hooks.main (Hooks.Handle_start hh event)) as [i| |] eqn:Hpc.
  - destruct (loop_reaches_Wait sem cost _ _ i Hc Ha Hpc (le_n _))
      as (s1 & m1 & Hexec1 & Hc1 & Ha1 & Hpc1).
    destruct (Wait_reaches_Returned sem cost _ m1 Hc1 Ha1 Hpc1 (le_n _))
      as (s2 & m2 & Hexec2 & Hret).
    exists (s1 ++ s2), m2. rewrite (exec_app _ _ _ _ _ _ Hexec1). split; assumption.
  - simpl in Hpc. destruct (Hooks.nothing_to_run hh event); discriminate Hpc.
  - exists [], (Hooks.Handle_start hh event). split; [reflexivity|exact Hpc].
Qed.

(** An event named ["*"] reaches the subscribers of ["*"] twice: once as
    the subscribers of the event, once as the global ones. *)
Lemma Handle_fns_star (hh : HookHandler) :
  Hooks.Handle_fns hh "*" = hh !!! "*" ++ hh !!! "*".
Proof. reflexivity. Qed.

(** [Register] appends to the subscribers of the event. *)
Lemma Register_appends (hh : HookHandler) (event : string) (fn : HookFN) :
  Hooks.Register hh event fn !!! event = hh !!! event ++ [fn].
Proof.
  unfold Hooks.Register, HookHandler in *. apply lookup_total_insert_eq.
Qed.

(** C4 (code_bug): two callbacks, 1 and 2, subscribed to [Write:end], and
    one [Handle] of that event with the loop variable [fn] shared by the
    iterations (Go before 1.22).  In the schedule in which the loop
    finishes before the goroutines start, both goroutines read [fn] after
    its last assignment: callback 2 is called twice and callback 1 never,
    and [Handle] returns after both calls have completed. *)
Theorem C4_Handle_calls_last_callback_twice :
  let hh := Hooks.Register (Hooks.Register ∅ "Write:end" 1%nat) "Write:end" 2%nat in
  let sched := [Hooks.Main; Hooks.Main; Hooks.Main;
                Hooks.Go 0; Hooks.Go 0; Hooks.Go 0; Hooks.Go 0;
                Hooks.Go 1; Hooks.Go 1; Hooks.Go 1; Hooks.Go 1;
                Hooks.Main] in
  Hooks.Handle_fns hh "Write:end" = [1%nat; 2%nat]
  /\ exists m,
      Hooks.exec Hooks.PerLoop (fun _ => 1%nat) sched (Hooks.Handle_start hh "Write:end") = Some m
      /\ Hooks.main m = Hooks.Returned
      /\ Hooks.pool m = [Hooks.Exited 2%nat; Hooks.Exited 2%nat]
      /\ Hooks.calls m = [2%nat; 2%nat]
      /\ Hooks.completed m = [2%nat; 2%nat]
      /\ Hooks.times_called 1%nat m = 0%nat
      /\ Hooks.times_called 2%nat m = 2%nat.
Proof.
  split; [vm_compute; reflexivity|].
  eexists. split; [vm_compute; reflexivity|].
  repeat split.
Qed.

(** The same schedule with a loop variable per iteration calls each
    callback once. *)
Example Handle_per_iteration_schedule :
  let hh := Hooks.Register (Hooks.Register ∅ "Write:end" 1%nat) "Write:end" 2%nat in
  let sched := [Hooks.Main; Hooks.Main; Hooks.Main;
                Hooks.Go 0; Hooks.Go 0; Hooks.Go 0; Hooks.Go 0;
                Hooks.Go 1; Hooks.Go 1; Hooks.Go 1; Hooks.Go 1;
                Hooks.Main] in
  exists m,
    Hooks.exec Hooks.PerIteration (fun _ => 1%nat) sched (Hooks.Handle_start hh "Write:end")
    = Some m
    /\ Hooks.main m = Hooks.Returned
    /\ Hooks.calls m = [1%nat; 2%nat].
Proof.
  eexists. split; [vm_compute; reflexivity|]. split; reflexivity.
Qed.

(** ** The scenarios of the specification, on the file tree *)

(** [Lookup(root, "a")], then [Lookup(a, "b.txt")], then [ReadAll] returns
    ["hi"]. *)
Example scenario_lookup_read :
  let root := NewDirectory ∅ "/tmp/src" in
  let resp := {| fuse.LookupResponse_Attr := Attr_zero |} in
  let l1 := run OS.handle (Dir.Lookup root 0%nat {| fuse.LookupRequest_Name := "a" |} resp)
                tmp_src in
  let a := NewDirectory ∅ "/tmp/src/a" in
  let l2 := run OS.handle (Dir.Lookup a 0%nat {| fuse.LookupRequest_Name := "b.txt" |} resp)
                (final l1) in
  let b := NewFile ∅ "/tmp/src/a/b.txt" in
  let rd := run OS.handle (File.ReadAll b 0%nat) (final l2) in
  (result l1).1.2 = Some (NodeDir a)
  /\ (result l2).1.2 = Some (NodeFile b)
  /\ fuse.Size (fuse.LookupResponse_Attr (result l2).1.1) = 2
  /\ fuse.Inode (fuse.LookupResponse_Attr (result l2).1.1) = 5
  /\ result rd = ([x68; x69], None).
Proof. repeat split; vm_compute; reflexivity. Qed.

(** [Mkdir(root, "newdir", 0755)] makes [/tmp/src/newdir] and returns a
    directory node whose [ReadDirAll] reports no entries. *)
Example scenario_mkdir :
  let root := NewDirectory ∅ "/tmp/src" in
  let mk := run OS.handle
                (Dir.Mkdir root 0%nat
                   {| fuse.MkdirRequest_Name := "newdir"; fuse.MkdirRequest_Mode := 493 |})
                tmp_src in
  let newdir := NewDirectory ∅ "/tmp/src/newdir" in
  result mk = (Some (NodeDir newdir), None)
  /\ OS.tree (final mk) !! "/tmp/src/newdir"
     = Some {| OS.i_ino := 1000; OS.i_mode := Z.lor os.ModeDir 493; OS.i_data := [] |}
  /\ result (run OS.handle (Dir.ReadDirAll newdir 0%nat) (final mk)) = ([], None).
Proof. repeat split; vm_compute; reflexivity. Qed.

(** [Write] of ["xy"] at offset 1 into [f.txt], which holds ["hello"],
    leaves ["hxylo"] and reports the end offset 3. *)
Example scenario_write_in_place :
  let f := NewFile ∅ "/tmp/src/f.txt" in
  let w := run OS.handle
               (File.Write f 0%nat
                  {| fuse.WriteRequest_Offset := 1; fuse.WriteRequest_Data := [x78; x79];
                     fuse.WriteRequest_Flags := 0 |}
                  {| fuse.WriteResponse_Size := 0 |})
               tmp_src in
  result w = ({| fuse.WriteResponse_Size := 3 |}, None)
  /\ file_content (final w) "/tmp/src/f.txt" = Some [x68; x78; x79; x6c; x6f].
Proof. repeat split; vm_compute; reflexivity. Qed.

(** ** The registry and the filesystem object *)

Lemma Register_lookup (hh : HookHandler) (event event' : string) (fn : HookFN) :
  Hooks.Register hh event fn !!! event'
  = if decide (event = event') then hh !!! event ++ [fn] else hh !!! event'.
Proof.
  unfold Hooks.Register, HookHandler in *.
  destruct (decide (event = event')) as [<-|Hne].
  - apply lookup_total_insert_eq.
  - apply lookup_total_insert_ne. exact Hne.
Qed.




(** ** Handle: the edges *)

Lemma nothing_to_run_iff (hh : HookHandler) (event : string) :
  Hooks.nothing_to_run hh event = true <-> Hooks.Handle_fns hh event = [].
Proof.
  split; [apply nothing_to_run_fns|].
  unfold Hooks.nothing_to_run, Hooks.Handle_fns, HookHandler in *.
  rewrite (lookup_total_alt hh event).
  intros H. apply app_eq_nil in H as [He Hs]. rewrite Hs.
  destruct (hh !! event) as [fns|]; simpl in *.
  - rewrite He. reflexivity.
  - reflexivity.
Qed.

(** X3: [Handle] returns at once, without launching a goroutine, exactly
    when the event has no subscriber and ["*"] has none (an event that was
    never registered and one registered with an empty list are alike);
    nothing can run then, whatever the scheduler picks. *)
Theorem Handle_without_subscribers (hh : HookHandler) (event : string) :
  (Hooks.main (Hooks.Handle_start hh event) = Hooks.Returned
   <-> Hooks.Handle_fns hh event = [])
  /\ (Hooks.Handle_fns hh event = [] ->
      Hooks.pool (Hooks.Handle_start hh event) = []
      /\ forall sem cost c, Hooks.step sem cost c (Hooks.Handle_start hh event) = None).
Proof.
  split.
  - rewrite <- nothing_to_run_iff. simpl.
    destruct (Hooks.nothing_to_run hh event); split; intros H; try reflexivity; discriminate H.
  - intros H. split; [reflexivity|].
    apply nothing_to_run_iff in H.
    intros sem cost [|j]; simpl.
    + unfold Hooks.step_main. simpl. rewrite H. reflexivity.
    + unfold Hooks.step_go. simpl. reflexivity.
Qed.

(** X4: the barrier of [Handle], under either rule for the loop variable,
    for every schedule and however long a callback works or sleeps: when
    [Handle] has returned, it has launched as many goroutines as the event
    and ["*"] have subscribers together, each goroutine has called a
    callback, has seen it return and has called [wg.Done()]. *)
Theorem Handle_returns_after_all_callbacks (sem : Hooks.loopvar) (cost : HookFN -> nat)
        (hh : HookHandler) (event : string) (sched : list Hooks.choice) (m : Hooks.machine) :
  Hooks.exec sem cost sched (Hooks.Handle_start hh event) = Some m ->
  Hooks.main m = Hooks.Returned ->
  length (Hooks.pool m) = length (hh !!! event ++ hh !!! "*")
  /\ Forall (fun g => Hooks.exited g = true) (Hooks.pool m)
  /\ length (Hooks.calls m) = length (Hooks.pool m)
  /\ length (Hooks.completed m) = length (Hooks.pool m).
Proof.
  intros Hexec Hret.
  destruct (Handle_waits_for_all sem cost hh event sched m Hexec Hret)
    as (Hlen & Hex & Hcalls & Hdone).
  repeat split; try assumption; congruence.
Qed.

Lemma Handle_returns_after_all_callbacks_witness :
  let hh := Hooks.Register (Hooks.Register ∅ "Write:end" 1%nat) "*" 2%nat in
  let sched := [Hooks.Main; Hooks.Go 0; Hooks.Main; Hooks.Main;
                Hooks.Go 1; Hooks.Go 1; Hooks.Go 1; Hooks.Go 1;
                Hooks.Go 0; Hooks.Go 0; Hooks.Go 0; Hooks.Go 0; Hooks.Go 0; Hooks.Go 0;
                Hooks.Go 0; Hooks.Main] in
  let m := {| Hooks.main := Hooks.Returned; Hooks.fns := [1%nat; 2%nat];
              Hooks.cells := <[0%nat := 2%nat]> ∅; Hooks.wg := 0;
              Hooks.pool := [Hooks.Exited 1%nat; Hooks.Exited 2%nat];
              Hooks.calls := [1%nat; 2%nat]; Hooks.completed := [2%nat; 1%nat] |} in
  length (Hooks.pool m) = length (hh !!! "Write:end" ++ hh !!! "*")
  /\ Forall (fun g => Hooks.exited g = true) (Hooks.pool m)
  /\ length (Hooks.calls m) = length (Hooks.pool m)
  /\ length (Hooks.completed m) = length (Hooks.pool m).
Proof.
  apply (Handle_returns_after_all_callbacks Hooks.PerLoop
           (fun f => if decide (f = 1%nat) then 5%nat else 1%nat)
           (Hooks.Register (Hooks.Register ∅ "Write:end" 1%nat) "*" 2%nat) "Write:end"
           [Hooks.Main; Hooks.Go 0; Hooks.Main; Hooks.Main;
            Hooks.Go 1; Hooks.Go 1; Hooks.Go 1; Hooks.Go 1;
            Hooks.Go 0; Hooks.Go 0; Hooks.Go 0; Hooks.Go 0; Hooks.Go 0; Hooks.Go 0;
            Hooks.Go 0; Hooks.Main]).
  - vm_compute. reflexivity.
  - reflexivity.
Defined.

(** X5: [Handle] never blocks for good: for every registry, every event,
    every duration of the callbacks and either rule for the loop variable
    there is a schedule that takes it to its return. *)
Theorem Handle_has_a_returning_schedule (sem : Hooks.loopvar) (cost : HookFN -> nat)
        (hh : HookHandler) (event : string) :
  exists sched m,
    Hooks.exec sem cost sched (Hooks.Handle_start hh event) = Some m
    /\ Hooks.main m = Hooks.Returned.
Proof.
  exact (Handle_can_return sem cost hh event).
Qed.

(** X6: an event named ["*"] runs twice as many callbacks as ["*"] has
    subscribers: they are taken once as the subscribers of the event and
    once as the global ones. *)
Theorem Handle_of_star_runs_twice (sem : Hooks.loopvar) (cost : HookFN -> nat)
        (hh : HookHandler) (sched : list Hooks.choice) (m : Hooks.machine) :
  Hooks.exec sem cost sched (Hooks.Handle_start hh "*") = Some m ->
  Hooks.main m = Hooks.Returned ->
  length (Hooks.calls m) = (2 * length (hh !!! "*"))%nat
  /\ length (Hooks.completed m) = (2 * length (hh !!! "*"))%nat.
Proof.
  intros Hexec Hret.
  destruct (Handle_waits_for_all sem cost hh "*" sched m Hexec Hret)
    as (_ & _ & Hcalls & Hdone).
  rewrite Hcalls, Hdone, Handle_fns_star, length_app. split; lia.
Qed.

Lemma Handle_of_star_runs_twice_witness :
  let hh := Hooks.Register ∅ "*" 7%nat in
  let m := {| Hooks.main := Hooks.Returned; Hooks.fns := [7%nat; 7%nat];
              Hooks.cells := <[1%nat := 7%nat]> (<[0%nat := 7%nat]> ∅); Hooks.wg := 0;
              Hooks.pool := [Hooks.Exited 7%nat; Hooks.Exited 7%nat];
              Hooks.calls := [7%nat; 7%nat]; Hooks.completed := [7%nat; 7%nat] |} in
  length (Hooks.calls m) = (2 * length (hh !!! "*"))%nat
  /\ length (Hooks.completed m) = (2 * length (hh !!! "*"))%nat.
Proof.
  apply (Handle_of_star_runs_twice Hooks.PerIteration (fun _ => 0%nat)
           (Hooks.Register ∅ "*" 7%nat)
           [Hooks.Main; Hooks.Main; Hooks.Main;
            Hooks.Go 0; Hooks.Go 0; Hooks.Go 0; Hooks.Go 1; Hooks.Go 1; Hooks.Go 1;
            Hooks.Main]).
  - vm_compute. reflexivity.
  - reflexivity.
Defined.

(** ** Rename, Mkdir, ReadAll: the calls they make *)

(** X7: [Rename] to a node that is not a directory node of this package (a
    file node, or a node of another kind) makes no filesystem call: it
    returns the error "unexpected node type" and dispatches [Rename:end]
    with that error, whatever the world answers. *)
Theorem Rename_refuses_a_node_that_is_no_dir {S : Type} (h : handler S) (s : S)
        (d : dir) (ctx : Context) (req : fuse.RenameRequest) (f : file) :
  let err := ErrorString "unexpected node type" in
  let to_file := run h (Dir2.Rename d ctx req (NodeFile f)) s in
  let to_other := run h (Dir2.Rename d ctx req NodeOther) s in
  (fs_calls (trace to_file) = []
   /\ result to_file = Some err
   /\ dispatched (trace to_file) = ["Rename:start"; "Rename:end"]
   /\ errors_dispatched "Rename:end" (trace to_file) = [Some (VError err)])
  /\ (fs_calls (trace to_other) = []
      /\ result to_other = Some err
      /\ dispatched (trace to_other) = ["Rename:start"; "Rename:end"]
      /\ errors_dispatched "Rename:end" (trace to_other) = [Some (VError err)]).
Proof.
  unfold trace, result, dispatched, errors_dispatched. cbn. repeat run_call. cbn.
  repeat split; reflexivity.
Qed.

(** X8: [Rename] to a directory node makes one filesystem call,
    [os.Rename] from the old name joined with this directory's path to the
    new name joined with the target directory's path; it returns what that
    call answered and dispatches [Rename:end] with the same error, or with
    [nil]. *)
Theorem Rename_joins_both_paths {S : Type} (h : handler S) (s : S)
        (d newDir : dir) (ctx : Context) (req : fuse.RenameRequest) :
  let r := run h (Dir2.Rename d ctx req (NodeDir newDir)) s in
  fs_calls (trace r)
  = [EvRename (filepath.Join (dir_path d) (fuse.RenameRequest_OldName req))
              (filepath.Join (dir_path newDir) (fuse.RenameRequest_NewName req))
              (result r)]
  /\ dispatched (trace r) = ["Rename:start"; "Rename:end"]
  /\ errors_dispatched "Rename:end" (trace r) = [Some (VErr (result r))].
Proof.
  unfold trace, result, dispatched, errors_dispatched. cbn. repeat run_call. cbn.
  destruct x1 as [err|]; cbn; repeat run_call; cbn; repeat split; reflexivity.
Qed.

(** X9: [Mkdir] makes one filesystem call, [os.Mkdir] of the name joined
    with the directory's path, with the mode of the request.  When the
    call succeeds [Mkdir] returns a directory node on the joined path that
    shares the registry; when it fails [Mkdir] returns no node and the
    error as it came. *)
Theorem Mkdir_joins_the_path {S : Type} (h : handler S) (s : S)
        (d : dir) (ctx : Context) (req : fuse.MkdirRequest) :
  let r := run h (Dir.Mkdir d ctx req) s in
  let fullPath := filepath.Join (dir_path d) (fuse.MkdirRequest_Name req) in
  fs_calls (trace r) = [EvMkdir fullPath (fuse.MkdirRequest_Mode req) (result r).2]
  /\ (result r).1
     = match (result r).2 with
       | None => Some (NodeDir {| dir_HookHandler := dir_HookHandler d; dir_path := fullPath |})
       | Some _ => None
       end.
Proof.
  unfold trace, result. cbn. repeat run_call. cbn.
  destruct x1 as [err|]; cbn; repeat run_call; cbn; split; reflexivity.
Qed.

(** X10: [ReadAll] makes one filesystem call, [ioutil.ReadFile] of the
    file's path, and hands on what came back unchanged, the bytes together
    with the error when there are both; [ReadAll:end] is dispatched on
    every path, with these bytes and this error. *)
Theorem ReadAll_hands_on_the_answer {S : Type} (h : handler S) (s : S)
        (f : file) (ctx : Context) :
  let r := run h (File.ReadAll f ctx) s in
  fs_calls (trace r) = [EvReadFile (file_path f) (result r)]
  /\ dispatches (trace r)
     = [("ReadAll:start", [("file", VNode (NodeFile f)); ("context", VContext ctx)]);
        ("ReadAll:end", [("file", VNode (NodeFile f)); ("content", VBytes (result r).1);
                         ("error", VErr (result r).2)])].
Proof.
  unfold trace, result. cbn. repeat run_call. cbn.
  destruct x1 as [data err]. cbn. repeat run_call. cbn. split; reflexivity.
Qed.

(** ** Write: the handle it leaves open *)

(** X11: when [WriteAt] fails, [Write] returns its error at once: the file
    it opened is never closed, the response is left as it was, and no
    [Write:end] is dispatched. *)
Theorem Write_leaves_the_file_open_when_WriteAt_fails {S : Type} (h : handler S) (s : S)
        (f : file) (ctx : Context) (req : fuse.WriteRequest) (resp : fuse.WriteResponse)
        (fd : os.File) (n : Z) (e : error) :
  let r := run h (File.Write f ctx req resp) s in
  In (EvWriteAt fd (fuse.WriteRequest_Data req) (fuse.WriteRequest_Offset req) (n, Some e))
     (trace r) ->
  Forall (fun ev => is_close ev = false) (trace r)
  /\ (exists fi, fs_calls (trace r)
                 = [EvStat (file_path f) (inl fi);
                    EvOpenFile (file_path f) (Z.lor (fuse.WriteRequest_Flags req) os.O_WRONLY)
                               (os.Mode fi) (inl fd);
                    EvWriteAt fd (fuse.WriteRequest_Data req) (fuse.WriteRequest_Offset req)
                              (n, Some e)])
  /\ result r = (resp, Some e)
  /\ dispatched (trace r) = ["Write:start"].
Proof.
  unfold trace, result, dispatched. cbn. repeat run_call. cbn.
  destruct x1 as [fi|e1]; cbn; repeat run_call; cbn.
  2: { intros [[=]|[[=]|[[=]|[[=]|[]]]]]. }
  destruct x1 as [fd'|e1]; cbn; repeat run_call; cbn.
  2: { intros [[=]|[[=]|[[=]|[[=]|[[=]|[]]]]]]. }
  destruct x1 as [n' [e1|]]; cbn; repeat run_call; cbn.
  - intros [[=]|[[=]|[[=]|[[=]|[H|[[=]|[]]]]]]].
    injection H as -> -> ->.
    split; [repeat constructor|]. split; [exists fi; reflexivity|]. split; reflexivity.
  - destruct x1 as [e1|]; cbn; repeat run_call; cbn.
    + intros [[=]|[[=]|[[=]|[[=]|[[=]|[[=]|[[=]|[]]]]]]]].
    + intros [[=]|[[=]|[[=]|[[=]|[[=]|[[=]|[[=]|[[=]|[]]]]]]]]].
Qed.

Lemma Write_leaves_the_file_open_witness :
  let f := NewFile ∅ "/tmp/src/f.txt" in
  let req := {| fuse.WriteRequest_Offset := 0; fuse.WriteRequest_Data := [x78];
                fuse.WriteRequest_Flags := os.O_APPEND |} in
  let resp := {| fuse.WriteResponse_Size := 0 |} in
  let e := ErrorString "os: invalid use of WriteAt on file opened with O_APPEND" in
  let r := run OS.handle (File.Write f 0%nat req resp) tmp_src in
  Forall (fun ev => is_close ev = false) (trace r)
  /\ (exists fi, fs_calls (trace r)
                 = [EvStat "/tmp/src/f.txt" (inl fi);
                    EvOpenFile "/tmp/src/f.txt" (Z.lor os.O_APPEND os.O_WRONLY)
                               (os.Mode fi) (inl 3%nat);
                    EvWriteAt 3%nat [x78] 0 (0, Some e)])
  /\ result r = (resp, Some e)
  /\ dispatched (trace r) = ["Write:start"].
Proof.
  apply (Write_leaves_the_file_open_when_WriteAt_fails OS.handle tmp_src
           (NewFile ∅ "/tmp/src/f.txt") 0%nat
           {| fuse.WriteRequest_Offset := 0; fuse.WriteRequest_Data := [x78];
              fuse.WriteRequest_Flags := os.O_APPEND |}
           {| fuse.WriteResponse_Size := 0 |} 3%nat 0
           (ErrorString "os: invalid use of WriteAt on file opened with O_APPEND")).
  vm_compute. do 4 right. left. reflexivity.
Defined.

(** ** Lookup *)

(** X12: a [Lookup] that succeeds has stat'ed the child twice, both times
    at the name joined with the directory's path and nowhere else: the
    first stat decides the kind of the node (a directory node if
    [IsDir()], else a file node), the second, made by the new node's
    [Attr], gives the attributes of the response.  The node is bound to
    the joined path and shares the registry. *)
Theorem Lookup_stats_the_child_twice {S : Type} (h : handler S) (s : S)
        (d : dir) (ctx : Context) (req : fuse.LookupRequest) (resp : fuse.LookupResponse) :
  let r := run h (Dir.Lookup d ctx req resp) s in
  let fullPath := filepath.Join (dir_path d) (fuse.LookupRequest_Name req) in
  (result r).2 = None ->
  exists fi fi2 stat2,
    fs_calls (trace r) = [EvStat fullPath (inl fi); EvStat fullPath (inl fi2)]
    /\ os.Sys fi2 = Some stat2
    /\ (result r).1.2
       = Some (if os.IsDir fi
               then NodeDir {| dir_HookHandler := dir_HookHandler d; dir_path := fullPath |}
               else NodeFile {| file_HookHandler := dir_HookHandler d; file_path := fullPath |})
    /\ fuse.LookupResponse_Attr (result r).1.1
       = fuse.set_Mode (os.Mode fi2)
           (fuse.set_Inode (syscall.Ino stat2)
              (if os.IsDir fi
               then fuse.LookupResponse_Attr resp
               else fuse.set_Size (wrap_uint64 (os.Size fi2)) (fuse.LookupResponse_Attr resp))).
Proof.
  unfold trace, result. cbn. repeat run_call. cbn.
  destruct x1 as [fi|e1]; cbn; repeat run_call; cbn; [|intros [=]].
  destruct (os.IsDir fi) eqn:Hdir; cbn; repeat run_call; cbn.
  - destruct x3 as [fi2|e2]; cbn; repeat run_call; cbn; [|intros [=]].
    destruct (os.Sys fi2) as [stat2|] eqn:Hsys; cbn; repeat run_call; cbn; [|intros [=]].
    intros _. exists fi, fi2, stat2. rewrite Hdir. repeat split; assumption || reflexivity.
  - destruct x3 as [fi2|e2]; cbn; repeat run_call; cbn; [|intros [=]].
    destruct (os.Sys fi2) as [stat2|] eqn:Hsys; cbn; repeat run_call; cbn; [|intros [=]].
    intros _. exists fi, fi2, stat2. rewrite Hdir. repeat split; assumption || reflexivity.
Qed.

Lemma Lookup_stats_the_child_twice_witness :
  let d := NewDirectory ∅ "/tmp/src/a" in
  let req := {| fuse.LookupRequest_Name := "b.txt" |} in
  let resp := {| fuse.LookupResponse_Attr := Attr_zero |} in
  let r := run OS.handle (Dir.Lookup d 0%nat req resp) tmp_src in
  exists fi fi2 stat2,
    fs_calls (trace r)
    = [EvStat "/tmp/src/a/b.txt" (inl fi); EvStat "/tmp/src/a/b.txt" (inl fi2)]
    /\ os.Sys fi2 = Some stat2
    /\ (result r).1.2
       = Some (if os.IsDir fi
               then NodeDir {| dir_HookHandler := ∅; dir_path := "/tmp/src/a/b.txt" |}
               else NodeFile {| file_HookHandler := ∅; file_path := "/tmp/src/a/b.txt" |})
    /\ fuse.LookupResponse_Attr (result r).1.1
       = fuse.set_Mode (os.Mode fi2)
           (fuse.set_Inode (syscall.Ino stat2)
              (if os.IsDir fi
               then Attr_zero
               else fuse.set_Size (wrap_uint64 (os.Size fi2)) Attr_zero)).
Proof.
  apply (Lookup_stats_the_child_twice OS.handle tmp_src (NewDirectory ∅ "/tmp/src/a") 0%nat
           {| fuse.LookupRequest_Name := "b.txt" |}
           {| fuse.LookupResponse_Attr := Attr_zero |}).
  vm_compute. reflexivity.
Defined.

Lemma Stat_found (st : OS.state) (name path : string) (i : OS.inode) :
  OS.resolve st name = Some path ->
  OS.tree st !! path = Some i ->
  OS.Stat name st = (inl (OS.info path i), st).
Proof.
  unfold OS.Stat. intros -> ->. reflexivity.
Qed.

(** [Lookup] of a child that the tree holds. *)
Lemma Lookup_on_tree (st : OS.state) (d : dir) (ctx : Context)
      (req : fuse.LookupRequest) (resp : fuse.LookupResponse)
      (path : string) (i : OS.inode) :
  let fullPath := filepath.Join (dir_path d) (fuse.LookupRequest_Name req) in
  let r := run OS.handle (Dir.Lookup d ctx req resp) st in
  OS.resolve st fullPath = Some path ->
  OS.tree st !! path = Some i ->
  result r
  = ({| fuse.LookupResponse_Attr := attr_of i (fuse.LookupResponse_Attr resp) |},
     Some (if OS.is_dir i
           then NodeDir {| dir_HookHandler := dir_HookHandler d; dir_path := fullPath |}
           else NodeFile {| file_HookHandler := dir_HookHandler d; file_path := fullPath |}),
     None)
  /\ final r = st.
Proof.
  intros fullPath r Hres Hi. subst r.
  pose proof (Stat_found st fullPath path i Hres Hi) as Hstat.
  unfold result, final, attr_of. cbn. fold fullPath. rewrite Hstat. cbn.
  change (os.IsDir (OS.info path i)) with (OS.is_dir i).
  destruct (OS.is_dir i); cbn; rewrite Hstat; cbn; split; reflexivity.
Qed.

(** X13: on the file tree, [Lookup] of a child that is there returns a
    node for it on the joined path (a directory node for a directory, a
    file node for anything else) and the attributes a stat of the entry
    gives: its inode number and mode, and for a file its size in bytes;
    the file tree is left as it was. *)
Theorem Lookup_matches_the_tree (st : OS.state) (d : dir) (ctx : Context)
        (req : fuse.LookupRequest) (resp : fuse.LookupResponse)
        (path : string) (i : OS.inode) :
  let fullPath := filepath.Join (dir_path d) (fuse.LookupRequest_Name req) in
  let r := run OS.handle (Dir.Lookup d ctx req resp) st in
  OS.resolve st fullPath = Some path ->
  OS.tree st !! path = Some i ->
  result r
  = ({| fuse.LookupResponse_Attr := attr_of i (fuse.LookupResponse_Attr resp) |},
     Some (if OS.is_dir i
           then NodeDir {| dir_HookHandler := dir_HookHandler d; dir_path := fullPath |}
           else NodeFile {| file_HookHandler := dir_HookHandler d; file_path := fullPath |}),
     None)
  /\ final r = st.
Proof.
  exact (Lookup_on_tree st d ctx req resp path i).
Qed.

Lemma Lookup_matches_the_tree_witness :
  let d := NewDirectory ∅ "/tmp/src/a" in
  let req := {| fuse.LookupRequest_Name := "b.txt" |} in
  let resp := {| fuse.LookupResponse_Attr := Attr_zero |} in
  let r := run OS.handle (Dir.Lookup d 0%nat req resp) tmp_src in
  result r
  = ({| fuse.LookupResponse_Attr := attr_of (OS.a_file 5 [x68; x69]) Attr_zero |},
     Some (if OS.is_dir (OS.a_file 5 [x68; x69])
           then NodeDir {| dir_HookHandler := ∅; dir_path := "/tmp/src/a/b.txt" |}
           else NodeFile {| file_HookHandler := ∅; file_path := "/tmp/src/a/b.txt" |}),
     None)
  /\ final r = tmp_src.
Proof.
  apply (Lookup_matches_the_tree tmp_src (NewDirectory ∅ "/tmp/src/a") 0%nat
           {| fuse.LookupRequest_Name := "b.txt" |}
           {| fuse.LookupResponse_Attr := Attr_zero |}
           "/tmp/src/a/b.txt" (OS.a_file 5 [x68; x69])).
  - vm_compute. reflexivity.
  - vm_compute. reflexivity.
Defined.

(** ** The operations that only read *)

Lemma ReadDir_state (st st1 : OS.state) (name : string) (r : list os.FileInfo + error) :
  OS.ReadDir name st = (r, st1) -> st1 = st.
Proof.
  unfold OS.ReadDir.
  destruct (OS.resolve st name) as [path|]; [|intros [= _ <-]; reflexivity].
  destruct (OS.tree st !! path) as [i|]; [|intros [= _ <-]; reflexivity].
  destruct (OS.is_dir i); intros [= _ <-]; reflexivity.
Qed.

Lemma ReadFile_state (st st1 : OS.state) (name : string) (r : list byte * option error) :
  OS.ReadFile name st = (r, st1) -> st1 = st.
Proof.
  unfold OS.ReadFile.
  destruct (OS.resolve st name) as [path|]; [|intros [= _ <-]; reflexivity].
  destruct (OS.tree st !! path) as [i|]; [|intros [= _ <-]; reflexivity].
  destruct (OS.is_dir i); intros [= _ <-]; reflexivity.
Qed.

(** A body whose filesystem calls all read leaves the file tree, the open
    files and the working directory as they were. *)
Lemma reads_leave_the_system {A : Type} (m : prog A) :
  forall st : OS.state,
    reads_only (trace (run OS.handle m st)) -> final (run OS.handle m st) = st.
Proof.
  unfold reads_only, fs_calls, trace, final.
  induction m as [a|X c k IH]; intros st; simpl.
  - reflexivity.
  - destruct (OS.handle X c st) as [x s1] eqn:Hc.
    specialize (IH x s1).
    destruct (run OS.handle (k x) s1) as [[tr a] s2]. simpl in *.
    destruct c; simpl in *;
      try (injection Hc as <- <-; exact IH);
      rewrite filter_cons; simpl; intros Hread;
      try (apply Forall_cons in Hread as [Hhd _]; discriminate Hhd);
      apply Forall_cons in Hread as [_ Htl]; rewrite (IH Htl).
    + apply (Stat_state _ _ _ _ Hc).
    + apply (ReadDir_state _ _ _ _ Hc).
    + apply (ReadFile_state _ _ _ _ Hc).
Qed.

Ltac reads :=
  unfold reads_only, trace; cbn; repeat run_call; cbn;
  repeat (branch; cbn; repeat run_call; cbn);
  repeat constructor.

Lemma read_operations_read {S : Type} (h : handler S) (s : S) (d : dir) (f : file)
      (ctx : Context) :
  (forall a, reads_only (trace (run h (Dir.Attr d ctx a) s)))
  /\ (forall req resp, reads_only (trace (run h (Dir.Lookup d ctx req resp) s)))
  /\ reads_only (trace (run h (Dir.ReadDirAll d ctx) s))
  /\ (forall req resp, reads_only (trace (run h (Dir.Setattr d ctx req resp) s)))
  /\ (forall a, reads_only (trace (run h (File.Attr f ctx a) s)))
  /\ reads_only (trace (run h (File.ReadAll f ctx) s)).
Proof.
  split; [intros a; reads|].
  split; [intros req resp; reads|].
  split; [reads|].
  split; [intros req resp; reads|].
  split; [intros a; reads|].
  reads.
Qed.

(** X14: [Attr] and [Lookup], [ReadDirAll] and [Setattr] of a directory,
    [Attr] and [ReadAll] of a file never make a filesystem call other than
    [os.Stat], [ioutil.ReadDir] and [ioutil.ReadFile], whatever these
    answer; on the file tree they leave the tree, the open files and the
    working directory as they were. *)
Theorem read_operations_change_nothing (d : dir) (f : file) (ctx : Context) :
  (forall (S : Type) (h : handler S) (s : S),
      (forall a, reads_only (trace (run h (Dir.Attr d ctx a) s)))
      /\ (forall req resp, reads_only (trace (run h (Dir.Lookup d ctx req resp) s)))
      /\ reads_only (trace (run h (Dir.ReadDirAll d ctx) s))
      /\ (forall req resp, reads_only (trace (run h (Dir.Setattr d ctx req resp) s)))
      /\ (forall a, reads_only (trace (run h (File.Attr f ctx a) s)))
      /\ reads_only (trace (run h (File.ReadAll f ctx) s)))
  /\ (forall st : OS.state,
         (forall a, final (run OS.handle (Dir.Attr d ctx a) st) = st)
         /\ (forall req resp, final (run OS.handle (Dir.Lookup d ctx req resp) st) = st)
         /\ final (run OS.handle (Dir.ReadDirAll d ctx) st) = st
         /\ (forall a, final (run OS.handle (File.Attr f ctx a) st) = st)
         /\ final (run OS.handle (File.ReadAll f ctx) st) = st).
Proof.
  split.
  - intros S h s. apply read_operations_read.
  - intros st.
    destruct (read_operations_read OS.handle st d f ctx) as (H1 & H2 & H3 & _ & H5 & H6).
    split; [intros a; apply reads_leave_the_system, H1|].
    split; [intros req resp; apply reads_leave_the_system, H2|].
    split; [apply reads_leave_the_system, H3|].
    split; [intros a; apply reads_leave_the_system, H5|].
    apply reads_leave_the_system, H6.
Qed.

(** ** Attr of a file *)

(** X15: what [Attr] of a file leaves in the attribute structure after a
    successful stat.  When [Sys()] is a [*syscall.Stat_t] it sets [Size],
    [Inode] and [Mode] and returns [nil]; when it is not, [Attr] returns
    [ENOENT] with [Size] already overwritten and dispatches no [Attr:end].
    Every other field is as it was given. *)
Theorem Attr_file_sets_Size_first {S : Type} (h : handler S) (s : S)
        (f : file) (ctx : Context) (a : fuse.Attr) (fi : os.FileInfo) :
  let r := run h (File.Attr f ctx a) s in
  In (EvStat (file_path f) (inl fi)) (trace r) ->
  match os.Sys fi with
  | Some stat =>
      result r
      = (fuse.set_Mode (os.Mode fi)
           (fuse.set_Inode (syscall.Ino stat) (fuse.set_Size (wrap_uint64 (os.Size fi)) a)),
         None)
      /\ dispatched (trace r) = ["Attr:start"; "Attr:end"]
  | None =>
      result r = (fuse.set_Size (wrap_uint64 (os.Size fi)) a, Some syscall.ENOENT)
      /\ dispatched (trace r) = ["Attr:start"]
  end.
Proof.
  unfold trace, result, dispatched. cbn. repeat run_call. cbn.
  destruct x1 as [fileInfo|err]; cbn.
  - destruct (os.Sys fileInfo) as [stat|] eqn:Hsys; cbn; repeat run_call; cbn.
    + intros [[=]|[[=]|[[= <-]|[[=]|[[=]|[]]]]]]. rewrite Hsys. split; reflexivity.
    + intros [[=]|[[=]|[[= <-]|[[=]|[]]]]]. rewrite Hsys. split; reflexivity.
  - repeat run_call. cbn. intros [[=]|[[=]|[[=]|[[=]|[[=]|[]]]]]].
Qed.

Lemma Attr_file_sets_Size_first_witness :
  let f := NewFile ∅ "/tmp/src/f.txt" in
  let fi := OS.info "/tmp/src/f.txt" (OS.a_file 7 [x68; x65; x6c; x6c; x6f]) in
  let r := run OS.handle (File.Attr f 0%nat Attr_zero) tmp_src in
  match os.Sys fi with
  | Some stat =>
      result r
      = (fuse.set_Mode (os.Mode fi)
           (fuse.set_Inode (syscall.Ino stat) (fuse.set_Size (wrap_uint64 (os.Size fi)) Attr_zero)),
         None)
      /\ dispatched (trace r) = ["Attr:start"; "Attr:end"]
  | None =>
      result r = (fuse.set_Size (wrap_uint64 (os.Size fi)) Attr_zero, Some syscall.ENOENT)
      /\ dispatched (trace r) = ["Attr:start"]
  end.
Proof.
  apply (Attr_file_sets_Size_first OS.handle tmp_src (NewFile ∅ "/tmp/src/f.txt") 0%nat
           Attr_zero (OS.info "/tmp/src/f.txt" (OS.a_file 7 [x68; x65; x6c; x6c; x6f]))).
  vm_compute. right. right. left. reflexivity.
Defined.

(** X16: on the file tree, [Attr] is idempotent: asking again, with the
    structure the first call left behind, gives the same structure and the
    same error, for a directory node and for a file node, whether the path
    is there or not. *)
Theorem Attr_twice_is_Attr_once (st : OS.state) (d : dir) (f : file) (ctx : Context)
        (a : fuse.Attr) :
  (let r1 := run OS.handle (Dir.Attr d ctx a) st in
   let r2 := run OS.handle (Dir.Attr d ctx (result r1).1) (final r1) in
   result r2 = result r1)
  /\ (let r1 := run OS.handle (File.Attr f ctx a) st in
      let r2 := run OS.handle (File.Attr f ctx (result r1).1) (final r1) in
      result r2 = result r1).
Proof.
  unfold result, final. split; cbn.
  - destruct (OS.Stat (dir_path d) st) as [[fi|err] st1] eqn:Hstat;
      pose proof (Stat_state _ _ _ _ Hstat) as ->; cbn.
    + destruct (os.Sys fi) as [stat|] eqn:Hsys; cbn; rewrite Hstat; cbn; rewrite ?Hsys;
        reflexivity.
    + rewrite Hstat. reflexivity.
  - destruct (OS.Stat (file_path f) st) as [[fi|err] st1] eqn:Hstat;
      pose proof (Stat_state _ _ _ _ Hstat) as ->; cbn.
    + destruct (os.Sys fi) as [stat|] eqn:Hsys; cbn; rewrite Hstat; cbn; rewrite ?Hsys;
        reflexivity.
    + rewrite Hstat. reflexivity.
Qed.

(** ** ReadDirAll: all or nothing *)

(** X17: after a listing that succeeded, [ReadDirAll] is all or nothing.
    If [Sys()] of every entry is a [*syscall.Stat_t] it returns one entry
    per entry of the listing, in the order of the listing, with the
    entry's name, and dispatches [ReadDirAll:end]; if [Sys()] of any entry
    is not, it returns no entry at all and [ENOENT], and dispatches no
    [ReadDirAll:end]. *)
Theorem ReadDirAll_is_all_or_nothing {S : Type} (h : handler S) (s : S)
        (d : dir) (ctx : Context) (entries : list os.FileInfo) :
  let r := run h (Dir.ReadDirAll d ctx) s in
  In (EvReadDir (dir_path d) (inl entries)) (trace r) ->
  (Forall (fun e => is_Some (os.Sys e)) entries ->
   map fuse.Dirent_Name (result r).1 = map os.Name entries
   /\ (result r).2 = None
   /\ dispatched (trace r) = ["ReadDirAll:start"; "ReadDirAll:end"])
  /\ (Exists (fun e => os.Sys e = None) entries ->
      result r = ([], Some syscall.ENOENT)
      /\ dispatched (trace r) = ["ReadDirAll:start"]).
Proof.
  unfold trace, result, dispatched. cbn. repeat run_call. cbn.
  destruct x1 as [entries'|err]; cbn.
  - destruct (Dir.ReadDirAll_loop 0 entries' _) as [toReturn|] eqn:Hloop;
      cbn; repeat run_call; cbn.
    + intros [[=]|[[=]|[[= <-]|[[=]|[[=]|[]]]]]]. split.
      * intros Hall.
        pose proof (ReadDirAll_loop_from entries' [] Hall) as Hfrom. simpl in Hfrom.
        rewrite Hfrom in Hloop. injection Hloop as <-.
        rewrite map_map. simpl. repeat split; reflexivity.
      * intros Hex. rewrite ReadDirAll_loop_no_stat in Hloop by exact Hex.
        discriminate Hloop.
    + intros [[=]|[[=]|[[= <-]|[[=]|[]]]]]. split.
      * intros Hall.
        pose proof (ReadDirAll_loop_from entries' [] Hall) as Hfrom. simpl in Hfrom.
        rewrite Hfrom in Hloop. discriminate Hloop.
      * intros _. split; reflexivity.
  - repeat run_call. cbn. intros [[=]|[[=]|[[=]|[[=]|[[=]|[]]]]]].
Qed.

Lemma ReadDirAll_is_all_or_nothing_witness :
  let d := NewDirectory ∅ "/tmp/src" in
  let entries := [OS.info "/tmp/src/a" (OS.a_dir 4);
                  OS.info "/tmp/src/f.txt" (OS.a_file 7 [x68; x65; x6c; x6c; x6f])] in
  let r := run OS.handle (Dir.ReadDirAll d 0%nat) tmp_src in
  map fuse.Dirent_Name (result r).1 = map os.Name entries
  /\ (result r).2 = None
  /\ dispatched (trace r) = ["ReadDirAll:start"; "ReadDirAll:end"].
Proof.
  apply (ReadDirAll_is_all_or_nothing OS.handle tmp_src (NewDirectory ∅ "/tmp/src") 0%nat
           [OS.info "/tmp/src/a" (OS.a_dir 4);
            OS.info "/tmp/src/f.txt" (OS.a_file 7 [x68; x65; x6c; x6c; x6f])]).
  - vm_compute. right. right. left. reflexivity.
  - repeat constructor; eexists; reflexivity.
Defined.

(** ** Mkdir, and what follows it *)

Arguments OS.Mkdir : simpl never.
Arguments OS.ReadDir : simpl never.

Lemma dir_mode_is_dir (ino : Z) (perm : FileMode) (data : list byte) :
  OS.is_dir {| OS.i_ino := ino; OS.i_mode := Z.lor os.ModeDir (Z.land perm 511);
               OS.i_data := data |} = true.
Proof.
  unfold OS.is_dir. simpl OS.i_mode. rewrite Z.lor_spec. reflexivity.
Qed.

(** What a successful [os.Mkdir] has done. *)
Lemma Mkdir_ok (st st1 : OS.state) (name : string) (perm : FileMode) :
  OS.Mkdir name perm st = (None, st1) ->
  exists path,
    OS.resolve st name = Some path
    /\ OS.tree st !! path = None
    /\ OS.cwd st1 = OS.cwd st
    /\ OS.tree st1
       = <[path := {| OS.i_ino := OS.next_ino st;
                      OS.i_mode := Z.lor os.ModeDir (Z.land perm 511);
                      OS.i_data := [] |}]> (OS.tree st).
Proof.
  unfold OS.Mkdir.
  destruct (OS.resolve st name) as [path|]; [|intros [=]].
  destruct (OS.tree st !! path) eqn:Hp; [intros [=]|].
  destruct (OS.parent_is_dir st path); [intros [=]|].
  intros [= <-]. exists path. repeat split; assumption || reflexivity.
Qed.

Lemma filter_none {A : Type} (P : A -> Prop) `{!forall x, Decision (P x)} (l : list A) :
  (forall x, x ∈ l -> ~ P x) -> filter P l = [].
Proof.
  induction l as [|x l IH]; intros Hl.
  - reflexivity.
  - rewrite filter_cons_False by (apply Hl; left).
    apply IH. intros y Hy. apply Hl. right. exact Hy.
Qed.

(** The directory a successful [Mkdir] made, and the tree after it. *)
Lemma Mkdir_effect (st : OS.state) (d : dir) (ctx : Context) (req : fuse.MkdirRequest) :
  let fullPath := filepath.Join (dir_path d) (fuse.MkdirRequest_Name req) in
  let mk := run OS.handle (Dir.Mkdir d ctx req) st in
  (result mk).2 = None ->
  (result mk).1 = Some (NodeDir {| dir_HookHandler := dir_HookHandler d; dir_path := fullPath |})
  /\ exists path,
      OS.resolve (final mk) fullPath = Some path
      /\ OS.tree st !! path = None
      /\ OS.tree (final mk)
         = <[path := {| OS.i_ino := OS.next_ino st;
                        OS.i_mode := Z.lor os.ModeDir (Z.land (fuse.MkdirRequest_Mode req) 511);
                        OS.i_data := [] |}]> (OS.tree st).
Proof.
  unfold result, final. cbn.
  destruct (OS.Mkdir _ _ st) as [[err|] st1] eqn:Hmk; cbn; [intros [=]|].
  intros _. split; [reflexivity|].
  apply Mkdir_ok in Hmk as (path & Hres & Hnone & Hcwd & Htree).
  exists path. rewrite (resolve_cwd st st1) by exact Hcwd.
  repeat split; assumption.
Qed.



(** X19: on a file tree in which every entry has its parent, the directory
    node a successful [Mkdir] returns lists as empty: its [ReadDirAll]
    returns no entry and no error. *)
Theorem Mkdir_then_ReadDirAll_is_empty (st : OS.state) (d : dir) (ctx : Context)
        (req : fuse.MkdirRequest) (node : dir) :
  let mk := run OS.handle (Dir.Mkdir d ctx req) st in
  parents_exist st ->
  result mk = (Some (NodeDir node), None) ->
  result (run OS.handle (Dir.ReadDirAll node ctx) (final mk)) = ([], None).
Proof.
  intros mk Hwf Hmk.
  assert (Hok : (result mk).2 = None) by (rewrite Hmk; reflexivity).
  destruct (Mkdir_effect st d ctx req Hok) as (Hnode & path & Hres & Hnone & Htree).
  fold mk in Hnode, Hres, Htree.
  rewrite Hmk in Hnode. injection Hnode as ->.
  clear Hmk Hok. generalize dependent (final mk). intros st1 Hres Htree.
  unfold result. cbn. unfold OS.ReadDir.
  rewrite Hres, Htree, lookup_insert_eq, dir_mode_is_dir.
  assert (Hchildren : OS.children st1 path = []).
  { unfold OS.children. apply filter_none.
    intros [q j] Hq. simpl.
    apply elem_of_map_to_list in Hq. rewrite Htree in Hq.
    intros Hp. apply Is_true_true in Hp. apply andb_true_iff in Hp as [Hne Hdir].
    apply negb_true_iff, String.eqb_neq in Hne. apply String.eqb_eq in Hdir.
    rewrite lookup_insert_ne in Hq by congruence.
    destruct (Hwf q j Hq) as [p Hp]; [congruence|].
    rewrite Hdir, Hnone in Hp. discriminate Hp. }
  rewrite Hchildren. reflexivity.
Qed.

Lemma tmp_src_parents_exist : parents_exist tmp_src.
Proof.
  intros q i Hq Hne.
  apply elem_of_map_to_list in Hq.
  vm_compute in Hq.
  repeat (apply elem_of_cons in Hq as [Hq|Hq];
          [injection Hq as -> _; first [exfalso; apply Hne; reflexivity
                                       | eexists; vm_compute; reflexivity]|]).
  apply elem_of_nil in Hq. contradiction.
Qed.

Lemma Mkdir_then_ReadDirAll_is_empty_witness :
  let d := NewDirectory ∅ "/tmp/src" in
  let req := {| fuse.MkdirRequest_Name := "newdir"; fuse.MkdirRequest_Mode := 493 |} in
  let mk := run OS.handle (Dir.Mkdir d 0%nat req) tmp_src in
  result (run OS.handle (Dir.ReadDirAll (NewDirectory ∅ "/tmp/src/newdir") 0%nat) (final mk))
  = ([], None).
Proof.
  apply (Mkdir_then_ReadDirAll_is_empty tmp_src (NewDirectory ∅ "/tmp/src") 0%nat
           {| fuse.MkdirRequest_Name := "newdir"; fuse.MkdirRequest_Mode := 493 |}
           (NewDirectory ∅ "/tmp/src/newdir")).
  - exact tmp_src_parents_exist.
  - vm_compute. reflexivity.
Defined.

(** ** The logging level *)

Lemma getLoggingLevel_cases (l : string) :
  logger.getLoggingLevel l
  = if decide (l = "debug") then logrus.DebugLevel
    else if decide (l = "info") then logrus.InfoLevel
    else if decide (l = "error") then logrus.ErrorLevel
    else logrus.WarnLevel.
Proof.
  unfold logger.getLoggingLevel, logger.levelMapping.
  rewrite !lookup_insert, lookup_empty.
  repeat (case_decide; subst; try reflexivity; try congruence).
Qed.

(** X20: the logging level is [warn] for every name but ["debug"],
    ["info"] and ["error"]: for the empty name a process starts with, for
    a name in other letters such as ["DEBUG"], for any unknown name.  The
    ["start"] and ["end"] lines the operations log with [Debug] are
    written exactly when the level was set to the name ["debug"]. *)
Theorem Debug_lines_need_the_level_debug (l old : string) (fields : payload) :
  (l <> "debug" -> l <> "info" -> l <> "error" ->
   logger.getLoggingLevel (logger.SetLogLevel l old) = logrus.WarnLevel)
  /\ (logger.Debug_writes (logger.loggerWith fields (logger.SetLogLevel l old)) = true
      <-> l = "debug").
Proof.
  unfold logger.Debug_writes, logger.loggerWith, logger.SetLogLevel. simpl.
  rewrite getLoggingLevel_cases.
  split.
  - intros H1 H2 H3. rewrite !decide_False by assumption. reflexivity.
  - repeat case_decide; subst; split; intros Hw; try reflexivity; try discriminate Hw;
      congruence.
Qed.

(** ** The command *)

Lemma length_zero_string (s : string) : String.length s = 0%nat <-> s = "".
Proof.
  destruct s; simpl; split; intros H; try reflexivity; discriminate H.
Qed.

(** X21: [mirrorFunc] without a mount path returns an error and does
    nothing else.  With one, it mounts first; when the mount worked it
    serves one filesystem, whose root is the mirror path, or [/] when that
    is empty, and whose only hook is the printer, registered for ["*"], so
    that every other event runs the printer alone; the logging level is
    set only when one is given.  The connection is closed exactly when
    [mirrorFunc] returns [nil]: when [fuse.Mount] or [fs.Serve] fails,
    [log.Fatal] ends the process and the deferred [Close] does not run. *)
Theorem mirrorFunc_serves_the_mirror (mount mirror logLevel : string)
        (mounted served : option error) :
  let r := main.mirrorFunc mount mirror logLevel mounted served in
  (mount = "" -> r = ([], main.Return (Some (ErrorString "must provide valid mount path"))))
  /\ (mount <> "" ->
      head r.1 = Some (main.Mount mount "scoped" "scopefs")
      /\ (In main.Close r.1 <-> r.2 = main.Return None)
      /\ (r.2 = main.Return None <-> mounted = None /\ served = None)
      /\ (In (main.SetLogLevel logLevel) r.1 <-> mounted = None /\ logLevel <> "")
      /\ (mounted = None ->
          exists fs,
            main.served_fs r.1 = [fs]
            /\ FS.RootPath fs = (if decide (mirror = "") then "/" else mirror)
            /\ FS.hooks fs !!! "*" = [main.printer]
            /\ forall event, event <> "*" ->
                             Hooks.Handle_fns (FS.hooks fs) event = [main.printer])).
Proof.
  unfold main.mirrorFunc. split.
  - intros ->. reflexivity.
  - intros Hmount.
    rewrite bool_decide_eq_false_2 by (rewrite length_zero_string; exact Hmount).
    destruct mounted as [merr|].
    + simpl. split_and!; intuition (try discriminate; try congruence).
    + assert (Hlevel : (if bool_decide (0 < String.length logLevel)%nat
                        then [main.SetLogLevel logLevel] else [])
                       = if decide (logLevel = "") then [] else [main.SetLogLevel logLevel]).
      { destruct (decide (logLevel = "")) as [->|Hne]; [reflexivity|].
        rewrite bool_decide_eq_true_2; [reflexivity|].
        destruct logLevel; [congruence|simpl; lia]. }
      rewrite Hlevel.
      assert (Hfs : forall root event,
                 FS.hooks (FS.WithHook (FS.NewMirrorFS root) "*" main.printer) !!! "*"
                 = [main.printer]
                 /\ (event <> "*" ->
                     Hooks.Handle_fns (FS.hooks (FS.WithHook (FS.NewMirrorFS root) "*"
                                                             main.printer)) event
                     = [main.printer])).
      { intros root event. unfold Hooks.Handle_fns. simpl. rewrite !Register_lookup.
        rewrite decide_True by reflexivity.
        unfold HookHandler. rewrite !lookup_total_empty. split; [reflexivity|].
        intros Hne. rewrite decide_False by congruence.
        rewrite ?lookup_total_empty. reflexivity. }
      assert (Hroot : (if bool_decide (String.length mirror = 0%nat) then "/" else mirror)
                      = if decide (mirror = "") then "/" else mirror).
      { destruct (decide (mirror = "")) as [->|Hne]; [reflexivity|].
        rewrite bool_decide_eq_false_2 by (rewrite length_zero_string; exact Hne).
        reflexivity. }
      rewrite Hroot.
      destruct served as [serr|]; destruct (decide (logLevel = "")) as [->|Hl]; simpl;
        (split_and!;
         [ reflexivity | intuition (try discriminate; try congruence)
         | intuition (try discriminate; try congruence)
         | intuition (try discriminate; try congruence)
         | intros _; eexists; split_and!;
           [reflexivity | reflexivity | apply (Hfs _ "*") | intros event; apply Hfs] ]).
Qed.

(** ** Create: no way back *)

(** X22: when the file was opened and its [Close] fails, [Create] (in
    either copy of dir.go) returns the error of [Close] with no node and
    no handle, dispatches no [Create:end], and makes no further filesystem
    call: what [os.OpenFile] created stays. *)
Theorem Create_is_not_undone_when_Close_fails {S : Type} (h : handler S) (s : S)
        (path : string) (d : dir) (ctx : Context)
        (req : fuse.CreateRequest) (resp : fuse.CreateResponse) (fd : os.File) (e : error) :
  let r := run h (Dir.Create_at path d ctx req resp) s in
  In (EvClose fd (Some e)) (trace r) ->
  fs_calls (trace r)
  = [EvOpenFile path (fuse.CreateRequest_Flags req) (fuse.CreateRequest_Mode req) (inl fd);
     EvClose fd (Some e)]
  /\ result r = (None, None, Some e)
  /\ dispatched (trace r) = ["Create:start"].
Proof.
  unfold trace, result, dispatched. cbn. repeat run_call. cbn.
  destruct x1 as [f|err]; cbn; repeat run_call; cbn.
  - destruct x1 as [err|]; cbn; repeat run_call; cbn.
    + intros [[=]|[[=]|[[=]|[H|[[=]|[]]]]]]. injection H as -> ->.
      repeat split; reflexivity.
    + intros [[=]|[[=]|[[=]|[[=]|[[=]|[[=]|[]]]]]]].
  - intros [[=]|[[=]|[[=]|[[=]|[]]]]].
Qed.

Lemma Create_is_not_undone_witness :
  let d := NewDirectory ∅ "/tmp/src" in
  let req := {| fuse.CreateRequest_Name := "new.txt";
                fuse.CreateRequest_Flags := Z.lor os.O_CREATE os.O_WRONLY;
                fuse.CreateRequest_Mode := 420 |} in
  let resp := {| fuse.CreateResponse_Attr := Attr_zero |} in
  let r := run Close_fails (Dir2.Create d 0%nat req resp) tmp_src in
  (fs_calls (trace r)
   = [EvOpenFile "/tmp/src/new.txt" (Z.lor os.O_CREATE os.O_WRONLY) 420 (inl 3%nat);
      EvClose 3%nat (Some (PathError "close" "" 5))]
   /\ result r = (None, None, Some (PathError "close" "" 5))
   /\ dispatched (trace r) = ["Create:start"])
  /\ OS.tree (final r) !! "/tmp/src/new.txt" = Some (OS.a_file 1000 []).
Proof.
  split.
  - apply (Create_is_not_undone_when_Close_fails Close_fails tmp_src "/tmp/src/new.txt"
             (NewDirectory ∅ "/tmp/src") 0%nat
             {| fuse.CreateRequest_Name := "new.txt";
                fuse.CreateRequest_Flags := Z.lor os.O_CREATE os.O_WRONLY;
                fuse.CreateRequest_Mode := 420 |}
             {| fuse.CreateResponse_Attr := Attr_zero |} 3%nat (PathError "close" "" 5)).
    vm_compute. do 3 right. left. reflexivity.
  - vm_compute. reflexivity.
Defined.

(** ** Write at an offset, then ReadAll *)

Lemma Stat_inl (st st1 : OS.state) (name : string) (fi : os.FileInfo) :
  OS.Stat name st = (inl fi, st1) ->
  st1 = st /\ exists path i, OS.resolve st name = Some path /\ OS.tree st !! path = Some i.
Proof.
  intros H. split; [apply (Stat_state _ _ _ _ H)|].
  unfold OS.Stat in H.
  destruct (OS.resolve st name) as [path|]; [|discriminate H].
  destruct (OS.tree st !! path) as [i|] eqn:Hi; [|discriminate H].
  exists path, i. split; [reflexivity|exact Hi].
Qed.

(** X23: on the file tree, a [Write] that succeeds changes the file's
    bytes from the request's offset on and nothing else: the [ReadAll]
    that follows yields the old bytes before the offset (zero bytes where
    the file was shorter), then the data, then the old bytes beyond the
    data; the old bytes are none when the request's flags truncate. *)
Theorem Write_then_ReadAll_at_an_offset (st : OS.state) (F : file) (ctx : Context)
        (req : fuse.WriteRequest) (resp : fuse.WriteResponse) :
  let w := run OS.handle (File.Write F ctx req resp) st in
  let rd := run OS.handle (File.ReadAll F ctx) (final w) in
  (result w).2 = None ->
  exists old,
    file_content st (file_path F) = Some old
    /\ 0 <= fuse.WriteRequest_Offset req
    /\ result rd
       = (OS.write_at
            (if OS.has_flag (Z.lor (fuse.WriteRequest_Flags req) os.O_WRONLY) os.O_TRUNC
             then [] else old)
            (Z.to_nat (fuse.WriteRequest_Offset req)) (fuse.WriteRequest_Data req),
          None).
Proof.
  unfold result, final. cbn.
  destruct (OS.Stat (file_path F) st) as [[fInfo|serr] st0] eqn:Hstat; cbn; [|intros [=]].
  apply Stat_inl in Hstat as (-> & path & i & Hres & Hi).
  destruct (OS.OpenFile (file_path F) _ _ st) as [[wfd|werr] st1] eqn:Hopen; cbn;
    [|intros [=]].
  destruct (OS.WriteAt wfd _ _ st1) as [[n [werr|]] st2] eqn:Hwrite; cbn; [intros [=]|].
  destruct (OS.Close wfd st2) as [[cerr|] st3] eqn:Hclose; cbn; [intros [=]|].
  intros _.
  apply OpenFile_inl in Hopen as (path' & Hres' & Hcwd1 & Hfd1 & Htree1).
  rewrite Hres in Hres'. injection Hres' as <-. rewrite Hi in Htree1.
  destruct (OS.is_dir i) eqn:Hdir.
  { destruct Htree1 as [Hacc _]. rewrite has_flag_WRONLY in Hacc. discriminate Hacc. }
  assert (Hoff : 0 <= fuse.WriteRequest_Offset req).
  { unfold OS.WriteAt in Hwrite. rewrite Hfd1 in Hwrite.
    destruct (Z.ltb_spec (fuse.WriteRequest_Offset req) 0) as [Hlt|Hge];
      [discriminate Hwrite|exact Hge]. }
  apply WriteAt_ok in Hwrite as (o & i1 & Hfd & Hi1 & Hcwd2 & Htree2 & _).
  rewrite Hfd1 in Hfd. injection Hfd as <-. simpl in Hi1, Htree2.
  apply Close_ok in Hclose as [Hcwd3 Htree3].
  assert (Hdata1 : OS.i_data i1
                   = (if OS.has_flag (Z.lor (fuse.WriteRequest_Flags req) os.O_WRONLY) os.O_TRUNC
                      then [] else OS.i_data i)
                   /\ OS.is_dir i1 = false).
  { rewrite Htree1 in Hi1.
    destruct (OS.has_flag (Z.lor (fuse.WriteRequest_Flags req) os.O_WRONLY) os.O_TRUNC).
    - rewrite lookup_insert_eq in Hi1. injection Hi1 as <-. split; [reflexivity|exact Hdir].
    - rewrite Hi in Hi1. injection Hi1 as <-. split; [reflexivity|exact Hdir]. }
  destruct Hdata1 as [Hdata1 Hdir1].
  exists (OS.i_data i). split; [|split; [exact Hoff|]].
  - unfold file_content. rewrite Hres, Hi, Hdir. reflexivity.
  - unfold OS.ReadFile.
    rewrite (resolve_cwd st st3) by congruence. rewrite Hres.
    rewrite Htree3, Htree2, lookup_insert_eq.
    change (OS.is_dir _) with (OS.is_dir i1). rewrite Hdir1. cbn.
    rewrite Hdata1. reflexivity.
Qed.

Lemma Write_then_ReadAll_at_an_offset_witness :
  let F := NewFile ∅ "/tmp/src/f.txt" in
  let req := {| fuse.WriteRequest_Offset := 7; fuse.WriteRequest_Data := [x78; x79];
                fuse.WriteRequest_Flags := 0 |} in
  let w := run OS.handle (File.Write F 0%nat req {| fuse.WriteResponse_Size := 0 |}) tmp_src in
  let rd := run OS.handle (File.ReadAll F 0%nat) (final w) in
  (exists old,
      file_content tmp_src "/tmp/src/f.txt" = Some old
      /\ 0 <= 7
      /\ result rd
         = (OS.write_at (if OS.has_flag (Z.lor 0 os.O_WRONLY) os.O_TRUNC then [] else old)
                        (Z.to_nat 7) [x78; x79],
            None))
  /\ result rd = ([x68; x65; x6c; x6c; x6f; x00; x00; x78; x79], None).
Proof.
  split.
  - apply (Write_then_ReadAll_at_an_offset tmp_src (NewFile ∅ "/tmp/src/f.txt") 0%nat
             {| fuse.WriteRequest_Offset := 7; fuse.WriteRequest_Data := [x78; x79];
                fuse.WriteRequest_Flags := 0 |}
             {| fuse.WriteResponse_Size := 0 |}).
    vm_compute. reflexivity.
  - vm_compute. reflexivity.
Defined.
